(** * Weston toy toolkit and primary selection: event loop, redraw
      throttling, data offers and selection ownership

    A shallow embedding of the asynchronous core of
    [clients/window.c] (the [display_run] loop, the per-surface redraw
    scheduler, the reference-counted [struct data_offer]) and of the
    compositor side primary selection ([src/primary-selection.c], in the
    two revisions that ship with the tree).

    C state is threaded explicitly.  Calls into libwayland, the kernel and
    user callbacks are recorded in event logs, so that statements about
    "how often" and "in which order" are statements about lists. *)

From stdpp Require Import base option list strings gmap.
From Stdlib Require Import ZArith Lia.
From Stdlib.Strings Require Import Byte.

Set Default Proof Using "Type".
Local Open Scope Z_scope.

(** ** The task scheduler: [display_defer] and [display_run] *)

Module Scheduler.

(** A [struct task *].  The intrusive [link] of a task is represented by
    the position of the task in [deferred_list].  [wl_list_insert] asks
    that the link is not in a list already; a task deferred again after
    it ran is a new entry. *)
Definition task := nat.

(** What a callback may do to the scheduler while it runs. *)
Inductive action :=
| ADefer (t : task)      (* display_defer(display, t) *)
| AExit.                 (* display_exit(display)     *)

(** [wl_display_flush] as seen by [display_run]. *)
Inductive flush_result :=
| FlushOk                (* ret >= 0                   *)
| FlushAgain             (* ret < 0 && errno == EAGAIN *)
| FlushError.            (* ret < 0 otherwise          *)

Section display.

(** Everything the callbacks read and write apart from the scheduler's
    own fields. *)
Variable world : Type.

(** [task->run(task, events)]: the new world and, in call order, the
    scheduler calls made by the body. *)
Variable run : task -> N -> world -> world * list action.

(** The handlers run by [wl_display_dispatch_pending]. *)
Variable dispatch_pending : world -> world * list action.

(** [struct display], restricted to the scheduler.  [deferred_list] is
    the [wl_list] read from [deferred_list.next]: its head is the most
    recently inserted element and its last element is
    [deferred_list.prev].  [ran] and [defer_log] are ghost logs of the
    tasks run and of the [display_defer] calls, oldest first;
    [rearmed] counts the [EPOLL_CTL_MOD] calls on [display_fd]. *)
Record display := Display {
  deferred_list : list task;
  running : bool;
  state : world;
  ran : list task;
  defer_log : list task;
  rearmed : nat
}.

(** [wl_list_insert(&display->deferred_list, &task->link)]. *)
Definition display_defer (d : display) (t : task) : display :=
  {| deferred_list := t :: deferred_list d;
     running := running d;
     state := state d;
     ran := ran d;
     defer_log := defer_log d ++ [t];
     rearmed := rearmed d |}.

Definition display_exit (d : display) : display :=
  {| deferred_list := deferred_list d;
     running := false;
     state := state d;
     ran := ran d;
     defer_log := defer_log d;
     rearmed := rearmed d |}.

Definition perform (d : display) (a : action) : display :=
  match a with
  | ADefer t => display_defer d t
  | AExit => display_exit d
  end.

(** [wl_list_remove(&task->link); task->run(task, events)] for the task
    at [deferred_list.prev] (when [from_queue]) or for a task taken from
    an epoll event. *)
Definition run_task (from_queue : bool) (t : task) (events : N)
    (d : display) : display :=
  let q := if from_queue then removelast (deferred_list d)
           else deferred_list d in
  let '(w, acts) := run t events (state d) in
  foldl perform
    {| deferred_list := q;
       running := running d;
       state := w;
       ran := ran d ++ [t];
       defer_log := defer_log d;
       rearmed := rearmed d |}
    acts.

(** The inner [while (!wl_list_empty(&display->deferred_list))] loop.
    [None]: the fuel ran out with tasks still queued. *)
Fixpoint drain (fuel : nat) (d : display) : option display :=
  match last (deferred_list d) with
  | None => Some d
  | Some t =>
      match fuel with
      | O => None
      | S fuel' => drain fuel' (run_task true t 0%N d)
      end
  end.

(** Where one pass through the body of [while (1)] stands when it either
    leaves the loop or is about to call [epoll_wait]. *)
Inductive progress :=
| AtWait (d : display)
| Left (d : display).

Definition rearm (d : display) : display :=
  {| deferred_list := deferred_list d;
     running := running d;
     state := state d;
     ran := ran d;
     defer_log := defer_log d;
     rearmed := S (rearmed d) |}.

(** The body of [while (1)] up to the call of [epoll_wait]. *)
Definition until_wait (fuel : nat) (fl : flush_result) (d : display)
    : option progress :=
  match drain fuel d with
  | None => None
  | Some d1 =>
      let '(w, acts) := dispatch_pending (state d1) in
      let d2 :=
        foldl perform
          {| deferred_list := deferred_list d1;
             running := running d1;
             state := w;
             ran := ran d1;
             defer_log := defer_log d1;
             rearmed := rearmed d1 |}
          acts in
      if negb (running d2) then Some (Left d2)
      else match fl with
           | FlushAgain => Some (AtWait (rearm d2))
           | FlushError => Some (Left d2)
           | FlushOk => Some (AtWait d2)
           end
  end.

(** The [for] loop over the events returned by [epoll_wait]. *)
Definition dispatch_events (ready : list (task * N)) (d : display)
    : display :=
  foldl (fun d e => run_task false e.1 e.2 d) d ready.

(** One full pass through the body of [while (1)]. *)
Definition iteration (fuel : nat) (fl : flush_result)
    (ready : list (task * N)) (d : display) : option progress :=
  match until_wait fuel fl d with
  | Some (AtWait d') => Some (AtWait (dispatch_events ready d'))
  | r => r
  end.

(** [display_run] against a finite script of flush results and epoll
    wake-ups; [Some d] when the loop is left by [break]. *)
Fixpoint display_run_loop (fuel : nat)
    (script : list (flush_result * list (task * N))) (d : display)
    : option display :=
  match script with
  | [] => None
  | (fl, ready) :: script' =>
      match iteration fuel fl ready d with
      | Some (AtWait d') => display_run_loop fuel script' d'
      | Some (Left d') => Some d'
      | None => None
      end
  end.

Definition display_run (fuel : nat)
    (script : list (flush_result * list (task * N))) (d : display)
    : option display :=
  display_run_loop fuel script
    {| deferred_list := deferred_list d;
       running := true;
       state := state d;
       ran := ran d;
       defer_log := defer_log d;
       rearmed := rearmed d |}.



End display.

Arguments Display {world}.
Arguments deferred_list {world}.
Arguments running {world}.
Arguments state {world}.
Arguments ran {world}.
Arguments defer_log {world}.
Arguments rearmed {world}.
Arguments AtWait {world}.
Arguments Left {world}.

End Scheduler.

(** ** The redraw scheduler: [surface_redraw], [idle_redraw], resizing *)

Module Redraw.

Record rectangle := Rectangle { x : Z; y : Z; width : Z; height : Z }.

(** The model keeps the fields and calls that decide whether and when a
    surface is redrawn and what size the window asks for.  Input and
    opaque regions, buffer transform and scale and the xdg geometry
    requests of [window_flush] play no part in that and are left out;
    paint and resize handlers are callbacks of the application and stand
    for themselves. *)

(** Requests sent to the compositor and calls that leave the scheduler,
    in program order.  Surfaces are named by their position in
    [subsurface_list], callbacks by a serial number. *)
Inductive request :=
| RFrame (s cb : nat)            (* wl_surface_frame, wl_callback_add_listener *)
| RCallbackDestroy (cb : nat)    (* wl_callback_destroy *)
| RPaint (s : nat)               (* widget_redraw(surface->widget) *)
| RCommit (s : nat)              (* toysurface->swap: attach, damage, commit *)
| RSetSync (s : nat)             (* wl_subsurface_set_sync *)
| RSetDesync (s : nat)           (* wl_subsurface_set_desync *)
| RSetPosition (s : nat) (px py : Z)
| RDefer.                        (* display_defer(display, &window->redraw_task) *)

(** [struct surface], restricted to the fields the scheduler reads.
    [widget_allocation] is [surface->widget->allocation];
    [cairo_surface] holds the size the drawable was prepared with. *)
Record surface := Surface {
  is_sub : bool;                 (* surface->subsurface != NULL *)
  synchronized : bool;
  synchronized_default : bool;
  s_redraw_needed : bool;        (* surface->redraw_needed *)
  frame_cb : option nat;
  last_time : N;
  allocation : rectangle;
  server_allocation : rectangle;
  widget_allocation : rectangle;
  use_cairo : bool;
  cairo_surface : option (Z * Z)
}.

Definition set_synchronized (v : bool) (s : surface) : surface :=
  Surface (is_sub s) v (synchronized_default s) (s_redraw_needed s)
    (frame_cb s) (last_time s) (allocation s) (server_allocation s)
    (widget_allocation s) (use_cairo s) (cairo_surface s).
Definition set_s_redraw_needed (v : bool) (s : surface) : surface :=
  Surface (is_sub s) (synchronized s) (synchronized_default s) v
    (frame_cb s) (last_time s) (allocation s) (server_allocation s)
    (widget_allocation s) (use_cairo s) (cairo_surface s).
Definition set_frame_cb (v : option nat) (s : surface) : surface :=
  Surface (is_sub s) (synchronized s) (synchronized_default s)
    (s_redraw_needed s) v (last_time s) (allocation s) (server_allocation s)
    (widget_allocation s) (use_cairo s) (cairo_surface s).
Definition set_allocation (v : rectangle) (s : surface) : surface :=
  Surface (is_sub s) (synchronized s) (synchronized_default s)
    (s_redraw_needed s) (frame_cb s) (last_time s) v (server_allocation s)
    (widget_allocation s) (use_cairo s) (cairo_surface s).
Definition set_server_allocation (v : rectangle) (s : surface) : surface :=
  Surface (is_sub s) (synchronized s) (synchronized_default s)
    (s_redraw_needed s) (frame_cb s) (last_time s) (allocation s) v
    (widget_allocation s) (use_cairo s) (cairo_surface s).
Definition set_widget_allocation (v : rectangle) (s : surface) : surface :=
  Surface (is_sub s) (synchronized s) (synchronized_default s)
    (s_redraw_needed s) (frame_cb s) (last_time s) (allocation s)
    (server_allocation s) v (use_cairo s) (cairo_surface s).
Definition set_cairo_surface (v : option (Z * Z)) (s : surface) : surface :=
  Surface (is_sub s) (synchronized s) (synchronized_default s)
    (s_redraw_needed s) (frame_cb s) (last_time s) (allocation s)
    (server_allocation s) (widget_allocation s) (use_cairo s) v.

(** [struct window].  [subsurface_list] contains the main surface as
    well; [main_surface] is its position.  [next_cb] numbers the callbacks
    handed out by [wl_surface_frame]; [log] is the request log. *)
Record window := Window {
  saved_allocation : rectangle;
  min_allocation : rectangle;
  pending_allocation : rectangle;
  redraw_needed : bool;
  redraw_task_scheduled : bool;
  resize_needed : bool;
  fullscreen : bool;
  maximized : bool;
  has_frame : bool;              (* window->frame != NULL *)
  main_surface : nat;
  subsurface_list : list surface;
  next_cb : nat;
  log : list request
}.

Definition set_saved_allocation (v : rectangle) (w : window) : window :=
  Window v (min_allocation w) (pending_allocation w) (redraw_needed w)
    (redraw_task_scheduled w) (resize_needed w) (fullscreen w) (maximized w)
    (has_frame w) (main_surface w) (subsurface_list w) (next_cb w) (log w).
Definition set_min_allocation (v : rectangle) (w : window) : window :=
  Window (saved_allocation w) v (pending_allocation w) (redraw_needed w)
    (redraw_task_scheduled w) (resize_needed w) (fullscreen w) (maximized w)
    (has_frame w) (main_surface w) (subsurface_list w) (next_cb w) (log w).
Definition set_pending_allocation (v : rectangle) (w : window) : window :=
  Window (saved_allocation w) (min_allocation w) v (redraw_needed w)
    (redraw_task_scheduled w) (resize_needed w) (fullscreen w) (maximized w)
    (has_frame w) (main_surface w) (subsurface_list w) (next_cb w) (log w).
Definition set_redraw_needed (v : bool) (w : window) : window :=
  Window (saved_allocation w) (min_allocation w) (pending_allocation w) v
    (redraw_task_scheduled w) (resize_needed w) (fullscreen w) (maximized w)
    (has_frame w) (main_surface w) (subsurface_list w) (next_cb w) (log w).
Definition set_redraw_task_scheduled (v : bool) (w : window) : window :=
  Window (saved_allocation w) (min_allocation w) (pending_allocation w)
    (redraw_needed w) v (resize_needed w) (fullscreen w) (maximized w)
    (has_frame w) (main_surface w) (subsurface_list w) (next_cb w) (log w).
Definition set_resize_needed (v : bool) (w : window) : window :=
  Window (saved_allocation w) (min_allocation w) (pending_allocation w)
    (redraw_needed w) (redraw_task_scheduled w) v (fullscreen w) (maximized w)
    (has_frame w) (main_surface w) (subsurface_list w) (next_cb w) (log w).
Definition set_subsurface_list (v : list surface) (w : window) : window :=
  Window (saved_allocation w) (min_allocation w) (pending_allocation w)
    (redraw_needed w) (redraw_task_scheduled w) (resize_needed w)
    (fullscreen w) (maximized w) (has_frame w) (main_surface w) v
    (next_cb w) (log w).
Definition set_next_cb (v : nat) (w : window) : window :=
  Window (saved_allocation w) (min_allocation w) (pending_allocation w)
    (redraw_needed w) (redraw_task_scheduled w) (resize_needed w)
    (fullscreen w) (maximized w) (has_frame w) (main_surface w)
    (subsurface_list w) v (log w).
Definition emit (r : request) (w : window) : window :=
  Window (saved_allocation w) (min_allocation w) (pending_allocation w)
    (redraw_needed w) (redraw_task_scheduled w) (resize_needed w)
    (fullscreen w) (maximized w) (has_frame w) (main_surface w)
    (subsurface_list w) (next_cb w) (log w ++ [r]).

(** Write through a [struct surface *].  A surface pointer of the C code
    always names an entry of the list; the functions below leave the
    window as it is for a position outside of it. *)
Definition update (i : nat) (f : surface -> surface) (w : window) : window :=
  set_subsurface_list (alter f i (subsurface_list w)) w.

(** [wl_list_for_each(surface, &window->subsurface_list, link)], with or
    without the [if (surface == window->main_surface) continue;] guard. *)
Definition for_each_surface (skip_main : bool) (body : nat -> window -> window)
    (w : window) : window :=
  foldl (fun w i =>
           if skip_main && bool_decide (i = main_surface w) then w
           else body i w)
        w (seq 0 (length (subsurface_list w))).

(** How an entry point of the scheduler ends. *)
Inductive outcome :=
| Returned (w : window)
| Exited (w : window).           (* exit(EXIT_FAILURE) *)

Definition final (o : outcome) : window :=
  match o with Returned w | Exited w => w end.

Section backend.

(** [toysurface->prepare] for surface [i] at a given allocation:
    whether a drawable could be obtained. *)
Variable prepare : nat -> rectangle -> bool.

(** [toysurface->swap]: the server allocation reported for a drawable
    of the given size. *)
Variable swap : nat -> Z * Z -> rectangle -> rectangle.

(** [widget->resize_handler(widget, width, height, user_data)] of the
    root widget of surface [i]: handlers lay out the root widgets, so
    they map the root widget allocations of all surfaces (in list
    order) to new ones. *)
Variable resize_handler : nat -> Z -> Z -> list rectangle -> list rectangle.

Definition window_schedule_redraw_task (w : window) : window :=
  if redraw_task_scheduled w then w
  else set_redraw_task_scheduled true (emit RDefer w).

Definition window_schedule_redraw (w : window) : window :=
  window_schedule_redraw_task
    (for_each_surface false (fun i => update i (set_s_redraw_needed true)) w).

Definition widget_schedule_redraw (i : nat) (w : window) : window :=
  window_schedule_redraw_task (update i (set_s_redraw_needed true) w).

Definition window_schedule_resize (width height : Z) (w : window) : window :=
  let min_width := 200 in
  let min_height := 200 in
  let w1 := set_pending_allocation (Rectangle 0 0 width height) w in
  let w2 :=
    if Z.eqb (Redraw.width (min_allocation w1)) 0 then
      let mw := if Z.ltb width min_width && has_frame w1
                then min_width else width in
      let mh := if Z.ltb height min_height && has_frame w1
                then min_height else height in
      set_min_allocation
        (Rectangle (x (min_allocation w1)) (y (min_allocation w1)) mw mh) w1
    else w1 in
  let p := pending_allocation w2 in
  let pw := if Z.ltb (Redraw.width p) (Redraw.width (min_allocation w2))
            then Redraw.width (min_allocation w2) else Redraw.width p in
  let ph := if Z.ltb (Redraw.height p) (Redraw.height (min_allocation w2))
            then Redraw.height (min_allocation w2) else Redraw.height p in
  let w3 := set_pending_allocation (Rectangle (x p) (y p) pw ph) w2 in
  window_schedule_redraw (set_resize_needed true w3).


(** [widget_get_cairo_surface(surface->widget)]: the window with the
    drawable acquired, if it could be. *)
Definition widget_get_cairo_surface (i : nat) (w : window) : window :=
  match subsurface_list w !! i with
  | None => w
  | Some s =>
      match cairo_surface s with
      | Some _ => w
      | None =>
          if prepare i (allocation s) then
            update i (set_cairo_surface
                        (Some (width (allocation s), height (allocation s)))) w
          else w
      end
  end.

Definition has_cairo_surface (i : nat) (w : window) : bool :=
  match subsurface_list w !! i with
  | Some s => bool_decide (is_Some (cairo_surface s))
  | None => false
  end.

(** [surface_redraw]: the new state and the return value. *)
Definition surface_redraw (i : nat) (w : window) : window * Z :=
  match subsurface_list w !! i with
  | None => (w, 0)
  | Some s =>
      if negb (redraw_needed w) && negb (s_redraw_needed s) then (w, 0)
      else if bool_decide (is_Some (frame_cb s)) && negb (redraw_needed w)
      then (w, 0)
      else
        let w1 := match frame_cb s with
                  | Some cb => emit (RCallbackDestroy cb) w
                  | None => w
                  end in
        let w2 := if use_cairo s then widget_get_cairo_surface i w1 else w1 in
        if use_cairo s && negb (has_cairo_surface i w2) then (w2, -1)
        else
          let cb := next_cb w2 in
          let w3 := emit (RFrame i cb) (set_next_cb (S cb) w2) in
          let w4 := update i (fun s => set_s_redraw_needed false
                                         (set_frame_cb (Some cb) s)) w3 in
          (emit (RPaint i) w4, 0)
  end.

(** [surface_flush]. *)
Definition surface_flush (i : nat) (w : window) : window :=
  match subsurface_list w !! i with
  | None => w
  | Some s =>
      match cairo_surface s with
      | None => w
      | Some size =>
          update i (fun s => set_cairo_surface None
                      (set_server_allocation
                         (swap i size (server_allocation s)) s))
            (emit (RCommit i) w)
      end
  end.

(** [window_flush]. *)
Definition window_flush (w : window) : window :=
  surface_flush (main_surface w) (for_each_surface true surface_flush w).

Definition surface_set_synchronized (i : nat) (w : window) : window :=
  match subsurface_list w !! i with
  | None => w
  | Some s =>
      if negb (is_sub s) then w
      else if synchronized s then w
      else update i (set_synchronized true) (emit (RSetSync i) w)
  end.

Definition surface_set_synchronized_default (i : nat) (w : window)
    : window :=
  match subsurface_list w !! i with
  | None => w
  | Some s =>
      if negb (is_sub s) then w
      else if bool_decide (synchronized s = synchronized_default s) then w
      else update i (set_synchronized (synchronized_default s))
             (emit (if synchronized_default s
                    then RSetSync i else RSetDesync i) w)
  end.

(** The root widget allocations after a resize handler ran; a position
    the handler does not return keeps its allocation. *)
Definition relayout (allocs : list rectangle) (l : list surface)
    : list surface :=
  imap (fun j s => set_widget_allocation
                     (default (widget_allocation s) (allocs !! j)) s) l.

(** [surface_resize]. *)
Definition surface_resize (i : nat) (w : window) : window :=
  match subsurface_list w !! i with
  | None => w
  | Some s =>
      let wa := widget_allocation s in
      let allocs := resize_handler i (width wa) (height wa)
                      (widget_allocation <$> subsurface_list w) in
      let w1 := set_subsurface_list (relayout allocs (subsurface_list w)) w in
      match subsurface_list w1 !! i with
      | None => w1
      | Some s1 =>
          let wa1 := widget_allocation s1 in
          let a := allocation s1 in
          let w2 :=
            if is_sub s1 && (negb (Z.eqb (x a) (x wa1))
                             || negb (Z.eqb (y a) (y wa1)))
            then emit (RSetPosition i (x wa1) (y wa1)) w1 else w1 in
          let w3 :=
            if negb (Z.eqb (width a) (width wa1))
               || negb (Z.eqb (height a) (height wa1))
            then window_schedule_redraw w2 else w2 in
          update i (set_allocation wa1) w3
      end
  end.

(** [window_do_resize]. *)
Definition window_do_resize (w : window) : window :=
  let w1 := update (main_surface w)
              (set_widget_allocation (pending_allocation w)) w in
  let w2 := surface_resize (main_surface w1) w1 in
  let w3 := for_each_surface true
              (fun i w => surface_resize i (surface_set_synchronized i w))
              w2 in
  if negb (fullscreen w3) && negb (maximized w3)
  then set_saved_allocation (pending_allocation w3) w3
  else w3.

(** [idle_resize]. *)
Definition idle_resize (w : window) : window :=
  window_do_resize (set_redraw_needed true (set_resize_needed false w)).

Definition main_server_allocation (w : window) : rectangle :=
  default (Rectangle 0 0 0 0)
    (server_allocation <$> subsurface_list w !! main_surface w).

(** [undo_resize]. *)
Definition undo_resize (w : window) : outcome :=
  let sa := main_server_allocation w in
  let p := pending_allocation w in
  let w1 := set_pending_allocation
              (Rectangle (x p) (y p) (width sa) (height sa)) w in
  let w2 := window_do_resize w1 in
  if Z.eqb (width (pending_allocation w2)) 0
     && Z.eqb (height (pending_allocation w2)) 0
  then Exited w2
  else Returned w2.

Definition main_frame_pending (w : window) : bool :=
  match subsurface_list w !! main_surface w with
  | Some s => bool_decide (is_Some (frame_cb s))
  | None => false
  end.

(** [idle_redraw], the body of the window's deferred redraw task. *)
Definition idle_redraw (w : window) : outcome :=
  let w0 := set_redraw_task_scheduled false w in
  if resize_needed w0 && main_frame_pending w0 then Returned w0
  else
    let resized := resize_needed w0 in
    let w1 := if resized then idle_resize w0 else w0 in
    let '(w2, ret) := surface_redraw (main_surface w1) w1 in
    let failed := Z.ltb ret 0 in
    let w3 := if failed then w2
              else for_each_surface true
                     (fun i w => fst (surface_redraw i w)) w2 in
    let w4 := window_flush (set_redraw_needed false w3) in
    let w5 := for_each_surface false surface_set_synchronized_default w4 in
    if resized && failed then undo_resize w5 else Returned w5.

End backend.

(** A request that puts new content of surface [j] on screen: the frame
    callback asked for, the paint, the commit. *)
Definition touches (j : nat) (r : request) : bool :=
  match r with
  | RFrame s _ | RPaint s | RCommit s => bool_decide (s = j)
  | _ => false
  end.

Definition issued (j : nat) (w : window) : list request :=
  filter (fun r => touches j r) (log w).


(** The part of surface [j] and of the window that the throttle reads. *)
Definition view (j : nat) (w : window)
    : bool * bool * option (option nat * option (Z * Z)) * list request :=
  (resize_needed w, redraw_needed w,
   (fun s => (frame_cb s, cairo_surface s)) <$> subsurface_list w !! j,
   issued j w).

(** What a surface has on screen and in flight. *)
Definition backing (s : surface)
    : bool * option (Z * Z) * option nat * rectangle :=
  (use_cairo s, cairo_surface s, frame_cb s, server_allocation s).

(** The requested size of the window together with the backing of its
    main surface. *)
Definition anchor (w : window) :=
  (pending_allocation w, main_surface w, redraw_needed w,
   backing <$> subsurface_list w !! main_surface w).

(** The allocation the main surface has once the pending resize is laid
    out, which is the size its drawable is then asked for. *)
Definition resized_main_surface
    (resize_handler : nat -> Z -> Z -> list rectangle -> list rectangle)
    (w : window) : option surface :=
  subsurface_list
    (idle_resize resize_handler (set_redraw_task_scheduled false w))
  !! main_surface w.

(** The two ways the toolkit offers to ask for a redraw. *)
Inductive redraw_request :=
| OfWidget (i : nat)             (* widget_schedule_redraw, widget on surface i *)
| OfWindow.                      (* window_schedule_redraw *)

Definition request_redraw (r : redraw_request) (w : window) : window :=
  match r with
  | OfWidget i => widget_schedule_redraw i w
  | OfWindow => window_schedule_redraw w
  end.


End Redraw.

(** ** Data offers: [data_offer_receive_data], [offer_io_func],
       [data_offer_destroy] *)

Module DataOffer.

(** What the process does that is visible outside the offer. *)
Inductive event :=
| EReceive (mime_type : string) (wfd : Z)  (* wl_data_offer_receive *)
| ESink (func user_data : nat) (data : list Byte.byte) (len : Z) (px py : Z)
                                           (* offer->func(buffer, len, ...) *)
| EProxyDestroy                            (* wl_data_offer_destroy *)
| EFree.                                   (* free(offer) *)

(** [struct data_offer]; [types] is the [wl_array] of advertised types,
    [func] and [user_data] name the consumer's sink.  [refcount] is an
    [int] that the code only moves by one; it stays far from the ends of
    its range and is kept as an integer. *)
Record data_offer := Offer {
  types : list string;
  refcount : Z;
  fd : Z;
  func : nat;
  ox : Z;
  oy : Z;
  user_data : nat
}.

(** An open file description of the process: the read end of a pipe with
    the bytes the far side has written and not yet been read, and whether
    every write end is closed; or a write end. *)
Inductive file :=
| ReadEnd (buffered : list Byte.byte) (hangup : bool)
| WriteEnd.

(** The process: the heap cell of the offer ([None] once freed), the
    descriptor table, the epoll interest list of the display (descriptor
    to event mask; every entry of this model carries [&offer->io_task])
    and the event log. *)
Record process := Process {
  offer : option data_offer;
  fds : gmap Z file;
  watched : gmap Z N;
  log : list event
}.

Definition EPOLLIN : N := 1%N.

Definition emit (e : event) (p : process) : process :=
  Process (offer p) (fds p) (watched p) (log p ++ [e]).

Definition set_offer (o : option data_offer) (p : process) : process :=
  Process o (fds p) (watched p) (log p).

(** [close(fd)].  The kernel drops a descriptor from every epoll interest
    list when its file description is closed; the descriptors of this
    model are never duplicated. *)
Definition close (n : Z) (p : process) : process :=
  Process (offer p) (delete n (fds p)) (delete n (watched p)) (log p).

(** [epoll_ctl(display->epoll_fd, EPOLL_CTL_ADD, fd, &ep)]: fails, and is
    ignored, for a descriptor that is not open or already registered. *)
Definition display_watch_fd (n : Z) (events : N) (p : process) : process :=
  match fds p !! n, watched p !! n with
  | Some _, None => Process (offer p) (fds p) (<[n := events]> (watched p)) (log p)
  | _, _ => p
  end.

(** [epoll_ctl(display->epoll_fd, EPOLL_CTL_DEL, fd, NULL)]. *)
Definition display_unwatch_fd (n : Z) (p : process) : process :=
  Process (offer p) (fds p) (delete n (watched p)) (log p).

(** The result of [read(fd, buffer, 4096)]. *)
Inductive read_result :=
| ReadBytes (data : list Byte.byte) (rest : list Byte.byte) (hangup : bool)
| ReadEof
| ReadError                      (* -1: EBADF and the like *)
| ReadBlocks.                    (* empty pipe with a writer: the call sleeps *)

Definition read (n : Z) (count : nat) (p : process) : read_result :=
  match fds p !! n with
  | Some (ReadEnd buffered hangup) =>
      match buffered with
      | [] => if hangup then ReadEof else ReadBlocks
      | _ => ReadBytes (take count buffered) (drop count buffered) hangup
      end
  | Some WriteEnd => ReadError
  | None => ReadError
  end.

(** The value of [unsigned int len] after [len = read(...)]. *)
Definition as_unsigned (ret : Z) : Z := ret mod 2 ^ 32.

(** [data_device_data_offer]: a fresh offer, one reference, held by the
    device. *)
Definition data_device_data_offer (p : process) : process :=
  set_offer (Some (Offer [] 1 0 0 0 0 0)) p.

(** [data_offer_offer]. *)
Definition data_offer_offer (type : string) (p : process) : option process :=
  match offer p with
  | None => None
  | Some o =>
      Some (set_offer (Some (Offer (types o ++ [type]) (refcount o) (fd o)
                               (func o) (ox o) (oy o) (user_data o))) p)
  end.

(** [data_offer_destroy]; [None] when the offer was already freed. *)
Definition data_offer_destroy (p : process) : option process :=
  match offer p with
  | None => None
  | Some o =>
      let o' := Offer (types o) (refcount o - 1) (fd o) (func o) (ox o) (oy o)
                  (user_data o) in
      if Z.eqb (refcount o') 0
      then Some (emit EFree (set_offer None (emit EProxyDestroy p)))
      else Some (set_offer (Some o') p)
  end.

(** [offer_io_func], the body of [offer->io_task]; [None] when the offer
    was freed or the [read] never returns. *)
Definition offer_io_func (p : process) : option process :=
  match offer p with
  | None => None
  | Some o =>
      let sink data len :=
        emit (ESink (func o) (user_data o) data len (ox o) (oy o)) in
      match read (fd o) 4096 p with
      | ReadBlocks => None
      | ReadBytes data rest hangup =>
          let len := as_unsigned (Z.of_nat (length data)) in
          let p1 := Process (offer p) (<[fd o := ReadEnd rest hangup]> (fds p))
                      (watched p) (log p) in
          let p2 := sink data len p1 in
          if Z.eqb len 0 then data_offer_destroy (close (fd o) p2) else Some p2
      | ReadEof =>
          let len := as_unsigned 0 in
          let p2 := sink [] len p in
          if Z.eqb len 0 then data_offer_destroy (close (fd o) p2) else Some p2
      | ReadError =>
          let len := as_unsigned (-1) in
          let p2 := sink [] len p in
          if Z.eqb len 0 then data_offer_destroy (close (fd o) p2) else Some p2
      end
  end.

(** [data_offer_receive_data].  [pipe] is what [pipe2(p, O_CLOEXEC)]
    does: [None] for -1, otherwise the two descriptors it opens. *)
Definition data_offer_receive_data (pipe : option (Z * Z))
    (mime_type : string) (f data : nat) (p : process) : option process :=
  match pipe with
  | None => Some p
  | Some (r, w) =>
      match offer p with
      | None => None
      | Some o =>
          let p1 := Process (offer p)
                      (<[w := WriteEnd]> (<[r := ReadEnd [] false]> (fds p)))
                      (watched p) (log p) in
          let p2 := close w (emit (EReceive mime_type w) p1) in
          let o' := Offer (types o) (refcount o + 1) r f (ox o) (oy o) data in
          Some (display_watch_fd r EPOLLIN (set_offer (Some o') p2))
      end
  end.

(** [data_device_leave] and [data_device_selection] drop the device's
    reference with [data_offer_destroy]. *)
Definition device_release (p : process) : option process :=
  data_offer_destroy p.

(** The far side writes into, or closes, the write end it was sent. *)
Definition far_write (r : Z) (data : list Byte.byte) (p : process) : process :=
  match fds p !! r with
  | Some (ReadEnd buffered false) =>
      Process (offer p) (<[r := ReadEnd (buffered ++ data) false]> (fds p))
        (watched p) (log p)
  | _ => p
  end.

Definition far_close (r : Z) (p : process) : process :=
  match fds p !! r with
  | Some (ReadEnd buffered _) =>
      Process (offer p) (<[r := ReadEnd buffered true]> (fds p))
        (watched p) (log p)
  | _ => p
  end.

(** Whether [epoll_wait] reports descriptor [n]. *)
Definition ready (n : Z) (p : process) : bool :=
  match watched p !! n, fds p !! n with
  | Some _, Some (ReadEnd buffered hangup) =>
      negb (bool_decide (buffered = [])) || hangup
  | _, _ => false
  end.

(** The event loop delivers a readiness notification for [n]: every
    registration carries [&offer->io_task], so [offer_io_func] runs. *)
Definition notify (n : Z) (p : process) : option process :=
  if ready n p then offer_io_func p else Some p.

(** Deliver notifications for [n] for as long as it is reported. *)
Fixpoint pump (fuel : nat) (n : Z) (p : process) : option process :=
  if ready n p then
    match fuel with
    | O => None
    | S fuel' => offer_io_func p ≫= pump fuel' n
    end
  else Some p.

(** One transfer from start to end: the receive, the far side writing
    [data] and closing its end, and the notifications until the
    descriptor is quiet. *)
Definition receive_to_end (pipe : Z * Z) (mime_type : string) (f d : nat)
    (data : list Byte.byte) (p : process) : option process :=
  p1 ← data_offer_receive_data (Some pipe) mime_type f d p;
  pump (S (length data)) pipe.1
    (far_close pipe.1 (far_write pipe.1 data p1)).

(** Two transfers one after the other, then the device lets go. *)
Definition receive_twice_in_turn (pipe1 pipe2 : Z * Z)
    (mime1 mime2 : string) (f1 d1 f2 d2 : nat)
    (data1 data2 : list Byte.byte) (p : process) : option process :=
  p1 ← receive_to_end pipe1 mime1 f1 d1 data1 p;
  p2 ← receive_to_end pipe2 mime2 f2 d2 data2 p1;
  device_release p2.

(** The number of [free(offer)] calls. *)
Definition is_free (e : event) : bool :=
  match e with EFree => true | _ => false end.

Definition frees (p : process) : nat :=
  length (filter (fun e => is_free e) (log p)).

End DataOffer.

(** ** Primary selection ownership on the compositor side *)

Module PrimarySelection.

(** A [struct wl_client *]. *)
Definition wl_client := nat.

(** A device [struct wl_resource]: its identity and the client it was
    created for ([wl_resource_get_client]). *)
Record wl_resource := Resource { rid : nat; rclient : wl_client }.

(** [struct weston_data_source]: its identity, the client of
    [source->resource], and the offered types. *)
Record weston_data_source := Source {
  sid : nat;
  owner : wl_client;
  mime_types : list string
}.

Record weston_pointer_client := PointerClient { client : wl_client }.
Record weston_pointer := Pointer { focus_client : option weston_pointer_client }.

(** Calls that leave the file and stores to the seat's source field, in
    program order. *)
Inductive event :=
| ECancel (s : nat)              (* source->cancel(source) *)
| EListRemove (s : nat)          (* wl_list_remove(&listener.link), the link
                                    being in the destroy_signal of s *)
| ESetSource (s : option nat)    (* seat->primary_selection_data_source = .. *)
| ESignalAdd (s : nat)           (* wl_signal_add(&source->destroy_signal, ..) *)
| ESelectionChanged (r : nat)    (* .._device_v1_send_selection_changed *)
| ESelectionSignal.              (* wl_signal_emit(&seat->primary_selection_signal) *)

(** [struct weston_seat], restricted to the primary selection.
    [primary_data_source_listener] is the list the listener's [link] is
    threaded in: the [destroy_signal] of the named source, or none after
    [wl_list_remove]. *)
Record weston_seat := Seat {
  primary_selection_data_source : option weston_data_source;
  primary_data_source_listener : option nat;
  primary_selection_device_resource_list : list wl_resource;
  pointer_state : option weston_pointer;
  log : list event
}.

(** Computations on the seat that may dereference a null pointer. *)
Definition exec (A : Type) : Type := weston_seat -> option (A * weston_seat).

#[global] Instance exec_ret : MRet exec := fun A a s => Some (a, s).
#[global] Instance exec_bind : MBind exec := fun A B k m s =>
  match m s with
  | Some (a, s') => k a s'
  | None => None
  end.

Definition fault {A : Type} : exec A := fun _ => None.

Definition get : exec weston_seat := fun s => Some (s, s).

Definition emit (e : event) : exec unit := fun s =>
  Some (tt, Seat (primary_selection_data_source s)
              (primary_data_source_listener s)
              (primary_selection_device_resource_list s)
              (pointer_state s) (log s ++ [e])).

(** [*p] for a pointer that may be null. *)
Definition deref {A : Type} (p : option A) : exec A :=
  match p with
  | Some a => mret a
  | None => fault
  end.

Definition store_source (src : option weston_data_source) : exec unit :=
  fun s =>
    Some (tt, Seat src (primary_data_source_listener s)
                (primary_selection_device_resource_list s)
                (pointer_state s) (log s ++ [ESetSource (sid <$> src)])).

(** [wl_list_remove(&seat->primary_data_source_listener.link)]: unlinks,
    and dereferences the neighbours of the link to do so. *)
Definition wl_list_remove_listener : exec unit := fun s =>
  match primary_data_source_listener s with
  | None => None
  | Some l =>
      Some (tt, Seat (primary_selection_data_source s) None
                  (primary_selection_device_resource_list s)
                  (pointer_state s) (log s ++ [EListRemove l]))
  end.

(** [wl_signal_add(&source->destroy_signal,
    &seat->primary_data_source_listener)]. *)
Definition wl_signal_add_listener (src : weston_data_source) : exec unit :=
  fun s =>
    Some (tt, Seat (primary_selection_data_source s) (Some (sid src))
                (primary_selection_device_resource_list s)
                (pointer_state s) (log s ++ [ESignalAdd (sid src)])).

(** [wl_resource_find_for_client]: the first resource of the list that
    belongs to the client, or null. *)
Definition wl_resource_find_for_client (l : list wl_resource) (c : wl_client)
    : option wl_resource :=
  list_find (fun r => rclient r = c) l ≫= fun p => Some p.2.

(** [destroy_primary_selection_data_source], the listener's [notify]. *)
Definition destroy_primary_selection_data_source : exec unit :=
  store_source None ;; emit ESelectionSignal.

(** Destroying a source emits its [destroy_signal], which runs the
    [notify] of every listener threaded in it. *)
Definition source_destroyed (src : weston_data_source) : exec unit :=
  s ← get;
  if bool_decide (primary_data_source_listener s = Some (sid src))
  then destroy_primary_selection_data_source
  else mret tt.

(** [weston_seat_set_primary_selection] of [src/primary-selection.c]. *)
Definition weston_seat_set_primary_selection
    (source : option weston_data_source) : exec unit :=
  s ← get;
  match primary_selection_data_source s with
  | Some current_source =>
      emit (ECancel (sid current_source)) ;;
      wl_list_remove_listener
  | None => mret tt
  end ;;
  store_source source ;;
  match source with
  | Some src => wl_signal_add_listener src
  | None => mret tt
  end.


(** The [selection_changed] events of a log. *)
Definition selection_changed (l : list event) : list nat :=
  omap (fun e => match e with ESelectionChanged r => Some r | _ => None end) l.

Definition is_selection_changed (e : event) : bool :=
  match e with ESelectionChanged _ => true | _ => false end.


(** A seat with the [selection_changed] events taken out of its log. *)
Definition without_selection_changed (s : weston_seat) : weston_seat :=
  Seat (primary_selection_data_source s) (primary_data_source_listener s)
    (primary_selection_device_resource_list s) (pointer_state s)
    (filter (fun e => negb (is_selection_changed e)) (log s)).

(** The revision of the file kept as [part_000]. *)
Module Part000.

Definition weston_seat_set_primary_selection
    (source : option weston_data_source) : exec unit :=
  s ← get;
  match primary_selection_data_source s with
  | Some current_source =>
      let old_owner := owner current_source in
      let resource :=
        wl_resource_find_for_client
          (primary_selection_device_resource_list s) old_owner in
      emit (ECancel (sid current_source)) ;;
      src ← deref source;
      (if bool_decide (old_owner ≠ owner src)
       then r ← deref resource; emit (ESelectionChanged (rid r))
       else mret tt) ;;
      wl_list_remove_listener
  | None => mret tt
  end ;;
  store_source source ;;
  match source with
  | Some src => wl_signal_add_listener src
  | None => mret tt
  end.


End Part000.

End PrimarySelection.

(** ** The display's own task: [handle_display_data] *)

Module DisplayTask.

Definition EPOLLIN : N := 1%N.
Definition EPOLLOUT : N := 4%N.
Definition EPOLLERR : N := 8%N.
Definition EPOLLHUP : N := 16%N.

(** [events & bit] as a C condition. *)
Definition has (events bit : N) : bool := negb (N.eqb (N.land events bit) 0).

(** What [wl_display_dispatch] did: the scheduler calls made by the
    handlers it ran, and whether it returned -1. *)
Record dispatch_result := Dispatched {
  handler_actions : list Scheduler.action;
  dispatch_failed : bool
}.

(** What [wl_display_flush] returned: the number of bytes sent, or -1
    with [errno] being [EAGAIN] or not. *)
Inductive flush_return :=
| Sent (bytes : N)
| Again
| Failed.

(** The fields of [struct display] the task writes: the last event mask
    seen and the interest mask registered for [display_fd]. *)
Record fd_state := FdState {
  display_fd_events : N;
  interest : N
}.

(** [handle_display_data]: the new state of the descriptor and the
    scheduler calls made, in order.  [dispatch] and [flush] are what the
    two libwayland calls would do; each is consulted only where the code
    makes the call. *)
Definition handle_display_data (events : N) (dispatch : dispatch_result)
    (flush : flush_return) (st : fd_state)
    : fd_state * list Scheduler.action :=
  let st1 := FdState events (interest st) in
  if has events EPOLLERR || has events EPOLLHUP then
    (st1, [Scheduler.AExit])
  else
    let acts := if has events EPOLLIN then handler_actions dispatch else [] in
    if has events EPOLLIN && dispatch_failed dispatch then
      (st1, acts ++ [Scheduler.AExit])
    else if has events EPOLLOUT then
      match flush with
      | Sent 0 =>
          (FdState events (N.lor EPOLLIN (N.lor EPOLLERR EPOLLHUP)), acts)
      | Sent _ => (st1, acts)
      | Again => (st1, acts)
      | Failed => (st1, acts ++ [Scheduler.AExit])
      end
    else (st1, acts).

(** Whether the call ends the loop by itself, whatever the handlers it
    dispatched asked for. *)
Definition fatal (events : N) (dispatch : dispatch_result)
    (flush : flush_return) : bool :=
  has events EPOLLERR || has events EPOLLHUP
  || (has events EPOLLIN && dispatch_failed dispatch)
  || (has events EPOLLOUT
      && match flush with Failed => true | _ => false end).

(** The [run] of a display whose task [display_task] is the display's
    own ([handle_display_data]) and whose other tasks are [other].  The
    world pairs the descriptor state with the rest; [dispatch] and
    [flush] tell what the libwayland calls do in a given world. *)
Definition run_with_display_task {W : Type} (display_task : Scheduler.task)
    (dispatch : W -> W * dispatch_result) (flush : W -> flush_return)
    (other : Scheduler.task -> N -> W -> W * list Scheduler.action)
    (t : Scheduler.task) (events : N) (sw : fd_state * W)
    : (fd_state * W) * list Scheduler.action :=
  if bool_decide (t = display_task) then
    let '(w', d) := if has events EPOLLERR || has events EPOLLHUP
                    then (sw.2, Dispatched [] false)
                    else if has events EPOLLIN then dispatch sw.2
                    else (sw.2, Dispatched [] false) in
    let '(st', acts) := handle_display_data events d (flush w') sw.1 in
    ((st', w'), acts)
  else
    let '(w', acts) := other t events sw.2 in
    ((sw.1, w'), acts).

End DisplayTask.

(** ** More of the window: scheduling requests, flushing, configure *)

Module Window.

Import Redraw.

Definition is_defer (r : request) : bool :=
  match r with RDefer => true | _ => false end.

(** How often the redraw task was handed to [display_defer]. *)
Definition deferrals (w : window) : nat :=
  length (filter (fun r => is_defer r) (log w)).

(** What the application may ask of a window between two runs of its
    redraw task. *)
Inductive schedule_request :=
| AskRedraw (r : redraw_request)
| AskResize (width height : Z).    (* window_schedule_resize *)

Definition schedule (w : window) (q : schedule_request) : window :=
  match q with
  | AskRedraw r => request_redraw r w
  | AskResize width height => window_schedule_resize width height w
  end.

(** What [surface_flush] does to the surface it is given. *)
Definition flushed (swap : nat -> Z * Z -> rectangle -> rectangle)
    (i : nat) (s : surface) : surface :=
  match cairo_surface s with
  | Some size =>
      set_cairo_surface None
        (set_server_allocation (swap i size (server_allocation s)) s)
  | None => s
  end.

(** The commits made for those surfaces of the index list [l] that hold a
    drawable in [w], in the order of [l]. *)
Definition commits (w : window) (l : list nat) : list request :=
  RCommit <$> filter (fun i => Is_true (has_cairo_surface i w)) l.

(** The positions of the list other than the main surface's, in list
    order. *)
Definition sub_surfaces (w : window) : list nat :=
  filter (fun i => i <> main_surface w) (seq 0 (length (subsurface_list w))).

(** What [surface_set_synchronized_default] does to its surface. *)
Definition settled (s : surface) : surface :=
  if negb (is_sub s) then s
  else if bool_decide (synchronized s = synchronized_default s) then s
  else set_synchronized (synchronized_default s) s.

(** The synchronisation state of a surface: whether it is a sub-surface,
    its current mode and its default mode. *)
Definition mode (s : surface) : bool * bool * bool :=
  (is_sub s, synchronized s, synchronized_default s).

Definition modes (w : window) : list (bool * bool * bool) :=
  mode <$> subsurface_list w.

(** What [surface_set_synchronized] does to the state of its surface. *)
Definition forced (m : bool * bool * bool) : bool * bool * bool :=
  (m.1.1, m.1.2 || m.1.1, m.2).

(** Whether [idle_redraw] ends in [undo_resize]: it resized, and the
    redraw of the main surface failed ([resized && failed]). *)
Definition undoes (prepare : nat -> rectangle -> bool)
    (resize_handler : nat -> Z -> Z -> list rectangle -> list rectangle)
    (w : window) : bool :=
  let w0 := set_redraw_task_scheduled false w in
  resize_needed w0 && negb (main_frame_pending w0)
  && Z.ltb (surface_redraw prepare (main_surface (idle_resize resize_handler w0))
              (idle_resize resize_handler w0)).2 0.

(** Where the window is and how large it may be: what a redraw or a
    resize of the surfaces never writes, [saved_allocation] apart. *)
Definition placement (w : window) :=
  (saved_allocation w, min_allocation w, pending_allocation w,
   fullscreen w, maximized w, has_frame w, main_surface w).

(** The fields of the window that only a resize request, a resize or its
    undoing write. *)
Definition geometry (w : window) :=
  (saved_allocation w, min_allocation w, pending_allocation w,
   fullscreen w, maximized w, has_frame w, main_surface w,
   resize_needed w, redraw_needed w).

(** The minimum allocation after [window_schedule_resize width height]:
    it is taken from the request the first time, when
    [min_allocation.width] is still 0, and kept afterwards. *)
Definition latched_minimum (width height : Z) (w : window) : rectangle :=
  if Z.eqb (Redraw.width (min_allocation w)) 0 then
    Rectangle (x (min_allocation w)) (y (min_allocation w))
      (if Z.ltb width 200 && has_frame w then 200 else width)
      (if Z.ltb height 200 && has_frame w then 200 else height)
  else min_allocation w.

Definition set_fullscreen (v : bool) (w : window) : window :=
  Window (saved_allocation w) (min_allocation w) (pending_allocation w)
    (redraw_needed w) (redraw_task_scheduled w) (resize_needed w) v
    (maximized w) (has_frame w) (main_surface w) (subsurface_list w)
    (next_cb w) (log w).

Definition set_maximized (v : bool) (w : window) : window :=
  Window (saved_allocation w) (min_allocation w) (pending_allocation w)
    (redraw_needed w) (redraw_task_scheduled w) (resize_needed w)
    (fullscreen w) v (has_frame w) (main_surface w) (subsurface_list w)
    (next_cb w) (log w).

(** A C [int]; arithmetic that leaves the range is undefined in C and
    wraps here. *)
Definition int32 (z : Z) : Z := (z + 2 ^ 31) mod 2 ^ 32 - 2 ^ 31.

(** The entries of the [states] array of an [xdg_surface.configure]. *)
Inductive xdg_state :=
| StateMaximized
| StateFullscreen
| StateResizing
| StateActivated
| StateUnknown (code : N).

#[global] Instance xdg_state_eq_dec : EqDecision xdg_state.
Proof. solve_decision. Defined.

(** The calls [handle_surface_configure] makes outside the window. *)
Inductive configure_call :=
| FrameSetFlag (maximized_flag : bool)     (* frame_set_flag: MAXIMIZED / ACTIVE *)
| FrameUnsetFlag (maximized_flag : bool)   (* frame_unset_flag *)
| AckConfigure (serial : N)                (* xdg_surface_ack_configure *)
| StateChanged.                            (* window->state_changed_handler *)

(** The window together with the two state flags and the call log that
    only the configure handler concerns. *)
Record toplevel := Toplevel {
  win : window;
  resizing : bool;
  focused : bool;
  calls : list configure_call
}.

Definition apply_state (t : toplevel) (s : xdg_state) : toplevel :=
  match s with
  | StateMaximized =>
      Toplevel (set_maximized true (win t)) (resizing t) (focused t) (calls t)
  | StateFullscreen =>
      Toplevel (set_fullscreen true (win t)) (resizing t) (focused t) (calls t)
  | StateResizing => Toplevel (win t) true (focused t) (calls t)
  | StateActivated => Toplevel (win t) (resizing t) true (calls t)
  | StateUnknown _ => t
  end.

(** [window_get_shadow_margin]; [margin] is what
    [frame_get_shadow_margin] returns for the window's frame. *)
Definition window_get_shadow_margin (margin : Z) (w : window) : Z :=
  if has_frame w && negb (fullscreen w) then margin else 0.

(** [handle_surface_configure]; [has_handler] tells whether the window
    has a [state_changed_handler]. *)
Definition handle_surface_configure (margin : Z) (has_handler : bool)
    (width height : Z) (states : list xdg_state) (serial : N) (t : toplevel)
    : toplevel :=
  let t0 := Toplevel (set_fullscreen false (set_maximized false (win t)))
              false false (calls t) in
  let t1 := foldl apply_state t0 states in
  let flags :=
    if has_frame (win t1) then
      [if maximized (win t1) then FrameSetFlag true else FrameUnsetFlag true;
       if focused t1 then FrameSetFlag false else FrameUnsetFlag false]
    else [] in
  let w2 :=
    if Z.ltb 0 width && Z.ltb 0 height then
      let m := window_get_shadow_margin margin (win t1) in
      window_schedule_resize (int32 (width + int32 (m * 2)))
        (int32 (height + int32 (m * 2))) (win t1)
    else
      window_schedule_resize (Redraw.width (saved_allocation (win t1)))
        (Redraw.height (saved_allocation (win t1))) (win t1) in
  Toplevel w2 (resizing t1) (focused t1)
    (calls t ++ flags ++ AckConfigure serial
       :: (if has_handler then [StateChanged] else [])).

End Window.

(** ** Transfers of a data offer seen from the consumer *)

Module Transfer.

Import DataOffer.

(** The bytes a sink call hands over. *)
Definition sunk (e : event) : list Byte.byte :=
  match e with
  | ESink _ _ data _ _ _ => data
  | _ => []
  end.

(** Everything the sinks were handed in a log, in order. *)
Definition received (l : list event) : list Byte.byte := flat_map sunk l.

(** A sink call of offer [o] that carries data: between 1 and 4096 bytes,
    with their count. *)
Definition is_chunk (o : data_offer) (e : event) : Prop :=
  exists data,
    e = ESink (func o) (user_data o) data (Z.of_nat (length data))
          (ox o) (oy o)
    /\ (0 < length data <= 4096)%nat.

(** The sink call that tells the consumer the stream has ended. *)
Definition end_of_stream (o : data_offer) : event :=
  ESink (func o) (user_data o) [] 0 (ox o) (oy o).

(** What [data_offer_destroy] logs for an offer with [n] references. *)
Definition last_reference (n : Z) : list event :=
  if Z.eqb n 1 then [EProxyDestroy; EFree] else [].

(** [input_receive_selection_data]: the new process and the return
    value.  [selection_offer] tells whether [input->selection_offer] is
    set; it then points to the offer of the process.  The scan of the
    null-terminated [types] array is a membership test. *)
Definition input_receive_selection_data (selection_offer : bool)
    (pipe : option (Z * Z)) (mime_type : string) (f data : nat)
    (p : process) : option (process * Z) :=
  if negb selection_offer then Some (p, -1)
  else
    o ← offer p;
    if bool_decide (mime_type ∈ types o) then
      p' ← data_offer_receive_data pipe mime_type f data p;
      Some (p', 0)
    else Some (p, -1).

(** A selection is pasted: the receive, then the far side writes [data]
    and closes its end, and the loop delivers the notifications. *)
Definition paste (selection_offer : bool) (pipe : Z * Z)
    (mime_type : string) (f d : nat) (data : list Byte.byte) (p : process)
    : option (process * Z) :=
  '(p1, ret) ← input_receive_selection_data selection_offer (Some pipe)
                 mime_type f d p;
  if Z.eqb ret 0 then
    p2 ← pump (S (length data)) pipe.1
           (far_close pipe.1 (far_write pipe.1 data p1));
    Some (p2, ret)
  else Some (p1, ret).

(** A drag leaves the surface while its data is still being read: the
    receive, [data_device_leave], then the stream to its end. *)
Definition receive_then_leave (pipe : Z * Z) (mime_type : string)
    (f d : nat) (data : list Byte.byte) (p : process) : option process :=
  p1 ← data_offer_receive_data (Some pipe) mime_type f d p;
  p2 ← device_release p1;
  pump (S (length data)) pipe.1
    (far_close pipe.1 (far_write pipe.1 data p2)).

End Transfer.

(** ** Primary selection devices and the middle-click paste *)

Module Device.

Import PrimarySelection.

(** [struct weston_surface] and [struct weston_view] as far as
    [middle_click_paste] reads them: the client of [surface->resource],
    a null resource being [None]. *)
Record weston_surface := Surface { resource : option wl_client }.
Record weston_view := View { surface : option weston_surface }.

(** The events sent to the client a selection is offered to. *)
Inductive offer_event :=
| ESelectionOffer (target offer : nat)
                       (* .._device_v1_send_selection_offer(target, offer) *)
| EOffer (offer : nat) (mime_type : string).
                       (* .._offer_v1_send_offer(offer, type) *)

(** [weston_primary_selection_source_send_offer].  [created] is what
    [weston_data_offer_create] returns: the new offer resource, or null. *)
Definition weston_primary_selection_source_send_offer (created : option nat)
    (source : weston_data_source) (target : wl_resource)
    : list offer_event :=
  match created with
  | None => []
  | Some offer =>
      ESelectionOffer (rid target) offer
      :: (EOffer offer <$> mime_types source)
  end.

(** [middle_click_paste]: the events sent, or [None] where
    [wl_resource_get_client] is given a null resource. *)
Definition middle_click_paste (focus : option weston_view)
    (created : option nat) (seat : weston_seat)
    : option (list offer_event) :=
  match focus with
  | None => Some []
  | Some view =>
      match surface view with
      | None => Some []
      | Some sf =>
          match primary_selection_data_source seat with
          | None => Some []
          | Some source =>
              client ← resource sf;
              match wl_resource_find_for_client
                      (primary_selection_device_resource_list seat) client
              with
              | None => Some []
              | Some target =>
                  Some (weston_primary_selection_source_send_offer created
                          source target)
              end
          end
      end
  end.

Definition set_device_list (l : list wl_resource) (s : weston_seat)
    : weston_seat :=
  Seat (primary_selection_data_source s) (primary_data_source_listener s) l
    (pointer_state s) (log s).

(** Whether the link of device [r] is threaded in the seat's list. *)
Definition linked (r : wl_resource) (s : weston_seat) : bool :=
  bool_decide (rid r ∈ rid <$> primary_selection_device_resource_list s).

(** [wl_list_remove(wl_resource_get_link(resource))]: unlinks the device
    and clears the link, which it reads the neighbours through; a link
    that is not in a list has none. *)
Definition wl_list_remove_link (r : wl_resource) : exec unit := fun s =>
  if linked r s then
    Some (tt, set_device_list
                (filter (fun r' => rid r' <> rid r)
                   (primary_selection_device_resource_list s)) s)
  else None.

(** [get_primary_selection_device]; [created] is what
    [wl_resource_create] returns.  [wl_list_insert] puts the new device
    at the head of the list. *)
Definition get_primary_selection_device (created : option wl_resource)
    : exec unit := fun s =>
  match created with
  | None => Some (tt, s)
  | Some r =>
      Some (tt, set_device_list
                  (r :: primary_selection_device_resource_list s) s)
  end.

(** [unbind_primary_selection_device], the destructor that
    [wl_resource_set_implementation] installs for a device. *)
Definition unbind_primary_selection_device (r : wl_resource) : exec unit :=
  wl_list_remove_link r.

(** [wl_resource_destroy] of a device runs its destructor. *)
Definition wl_resource_destroy (r : wl_resource) : exec unit :=
  unbind_primary_selection_device r.

(** [weston_primary_selection_device_destroy], the handler of the
    device's [destroy] request. *)
Definition weston_primary_selection_device_destroy (r : wl_resource)
    : exec unit :=
  wl_list_remove_link r ;; wl_resource_destroy r.

End Device.

(** ** The shared-memory back end of a surface: three buffers *)

Module ShmSurface.

Inductive wl_output_transform :=
| TransformNormal
| Transform90
| Transform180
| Transform270
| TransformFlipped
| TransformFlipped90
| TransformFlipped180
| TransformFlipped270.

(** The cases of the [switch] that swap width and height. *)
Definition swaps_axes (t : wl_output_transform) : bool :=
  match t with
  | Transform90 | Transform270 | TransformFlipped90 | TransformFlipped270 =>
      true
  | _ => false
  end.

(** [surface_to_buffer_size]: the new [*width] and [*height]. *)
Definition surface_to_buffer_size (buffer_transform : wl_output_transform)
    (buffer_scale : Z) (width height : Z) : Z * Z :=
  let '(w, h) := if swaps_axes buffer_transform then (height, width)
                 else (width, height) in
  (Window.int32 (w * buffer_scale), Window.int32 (h * buffer_scale)).

(** [buffer_to_surface_size].  The division is C's, which truncates; by
    zero it is undefined in C and yields 0 here. *)
Definition buffer_to_surface_size (buffer_transform : wl_output_transform)
    (buffer_scale : Z) (width height : Z) : Z * Z :=
  let '(w, h) := if swaps_axes buffer_transform then (height, width)
                 else (width, height) in
  (Window.int32 (w ÷ buffer_scale), Window.int32 (h ÷ buffer_scale)).

(** [struct shm_surface_leaf].  [cairo_surface] is the image surface, by
    its size; [data] is [leaf->data], by the [wl_buffer] it holds.  The
    data is destroyed with the image surface, while the pointer stays. *)
Record shm_surface_leaf := Leaf {
  cairo_surface : option (Z * Z);
  data : option nat;
  resize_pool : bool;
  busy : bool
}.

(** A leaf after [memset(leaf, 0, sizeof *leaf)]. *)
Definition zero_leaf : shm_surface_leaf := Leaf None None false false.

Definition MAX_LEAVES : nat := 3.

(** What the back end asks of the compositor. *)
Inductive request :=
| Attach (buffer : nat) (dx dy : Z)      (* wl_surface_attach *)
| Damage (width height : Z)              (* wl_surface_damage(0, 0, w, h) *)
| Commit.                                (* wl_surface_commit *)

(** [struct shm_surface]; [leaf] always has [MAX_LEAVES] entries and
    [current] is an index into it. *)
Record shm_surface := ShmSurface {
  dx : Z;
  dy : Z;
  leaf : list shm_surface_leaf;
  current : option nat;
  log : list request
}.

Definition set_leaf (i : nat) (l : shm_surface_leaf) (s : shm_surface)
    : shm_surface :=
  ShmSurface (dx s) (dy s) (<[i := l]> (leaf s)) (current s) (log s).

Definition set_current (c : option nat) (s : shm_surface) : shm_surface :=
  ShmSurface (dx s) (dy s) (leaf s) c (log s).

(** [shm_surface_leaf_release]. *)
Definition shm_surface_leaf_release (i : nat) (s : shm_surface)
    : shm_surface :=
  set_leaf i zero_leaf s.

(** Reading [leaf->data && leaf->data->buffer]: the buffer, if there is
    data; [None] when the data was destroyed with its image surface. *)
Definition data_buffer (l : shm_surface_leaf) : option (option nat) :=
  match data l, cairo_surface l with
  | None, _ => Some None
  | Some b, Some _ => Some (Some b)
  | Some _, None => None
  end.

(** The first loop of [shm_surface_buffer_release] from index [i] on:
    the leaf that holds [buffer]. *)
Fixpoint find_buffer (buffer : nat) (i : nat) (leaves : list shm_surface_leaf)
    : option (option nat) :=
  match leaves with
  | [] => Some None
  | l :: rest =>
      b ← data_buffer l;
      if bool_decide (b = Some buffer) then Some (Some i)
      else find_buffer buffer (S i) rest
  end.

(** The second loop: keep the first free leaf that has storage, release
    the others. *)
Definition keep_one_free (s : shm_surface) : shm_surface :=
  (foldl (fun '(s, free_found) i =>
            match leaf s !! i with
            | None => (s, free_found)
            | Some l =>
                if negb (bool_decide (is_Some (cairo_surface l))) || busy l
                then (s, free_found)
                else if negb free_found then (s, true)
                else (shm_surface_leaf_release i s, free_found)
            end)
     (s, false) (seq 0 MAX_LEAVES)).1.

(** [shm_surface_buffer_release]; [None] when the [assert] fails or a
    destroyed [data] is read. *)
Definition shm_surface_buffer_release (buffer : nat) (s : shm_surface)
    : option shm_surface :=
  found ← find_buffer buffer 0 (take MAX_LEAVES (leaf s));
  i ← found;
  l ← leaf s !! i;
  Some (keep_one_free
          (set_leaf i (Leaf (cairo_surface l) (data l) (resize_pool l) false)
             s)).

(** The loop of [shm_surface_prepare] that picks a leaf: a free one,
    preferably one that has storage. *)
Definition pick (s : shm_surface) : option nat :=
  foldl (fun best i =>
           match leaf s !! i with
           | None => best
           | Some l =>
               if busy l then best
               else if negb (bool_decide (is_Some best))
                       || bool_decide (is_Some (cairo_surface l))
               then Some i else best
           end)
    None (seq 0 MAX_LEAVES).

(** How [shm_surface_prepare] ends: with a reference to the image
    surface of the current leaf, with a null pointer, or in [exit(1)]. *)
Inductive prepared :=
| Drawable (s : shm_surface) (size : Z * Z)
| NoDrawable (s : shm_surface)
| AllBusy (s : shm_surface).

Definition surface_of (r : prepared) : shm_surface :=
  match r with Drawable s _ | NoDrawable s | AllBusy s => s end.

(** [shm_surface_prepare], built without [USE_RESIZE_POOL].  [created] is
    what [display_create_shm_surface] does when it is called: null, or a
    new image surface of the size asked for, whose [wl_buffer] it names
    and whose data it stores in [leaf->data]. *)
Definition shm_surface_prepare (created : option nat) (dx dy : Z)
    (width height : Z) (resize_hint : bool)
    (buffer_transform : wl_output_transform) (buffer_scale : Z)
    (s : shm_surface) : prepared :=
  let s0 := ShmSurface dx dy (leaf s) (current s) (log s) in
  match pick s0 with
  | None => AllBusy s0
  | Some i =>
      let l := default zero_leaf (leaf s0 !! i) in
      let l1 := if negb resize_hint && resize_pool l
                then Leaf None (data l) false (busy l) else l in
      let size := surface_to_buffer_size buffer_transform buffer_scale
                    width height in
      if bool_decide (cairo_surface l1 = Some size) then
        Drawable (set_current (Some i) (set_leaf i l1 s0)) size
      else
        match created with
        | None =>
            NoDrawable
              (set_leaf i (Leaf None (data l1) (resize_pool l1) (busy l1)) s0)
        | Some buffer =>
            Drawable
              (set_current (Some i)
                 (set_leaf i (Leaf (Some size) (Some buffer) (resize_pool l1)
                                (busy l1)) s0))
              size
        end
  end.

(** [shm_surface_swap]: the new state and the width and height written
    to [server_allocation]; [None] without a current leaf with storage. *)
Definition shm_surface_swap (buffer_transform : wl_output_transform)
    (buffer_scale : Z) (s : shm_surface)
    : option (shm_surface * (Z * Z)) :=
  i ← current s;
  l ← leaf s !! i;
  size ← cairo_surface l;
  buffer ← data l;
  let sa := buffer_to_surface_size buffer_transform buffer_scale
              size.1 size.2 in
  Some (set_current None
          (set_leaf i (Leaf (cairo_surface l) (data l) (resize_pool l) true)
             (ShmSurface (ShmSurface.dx s) (ShmSurface.dy s) (leaf s)
                (current s)
                (log s ++ [Attach buffer (ShmSurface.dx s) (ShmSurface.dy s);
                           Damage sa.1 sa.2; Commit]))),
        sa).

(** Whether the compositor holds leaf [i]; whether leaf [i] is free and
    has storage. *)
Definition is_held (s : shm_surface) (i : nat) : bool :=
  match leaf s !! i with
  | Some l => busy l
  | None => false
  end.

Definition is_spare (s : shm_surface) (i : nat) : bool :=
  match leaf s !! i with
  | Some l => bool_decide (is_Some (cairo_surface l)) && negb (busy l)
  | None => false
  end.

Definition spare (s : shm_surface) : list nat :=
  filter (fun i => Is_true (is_spare s i)) (seq 0 MAX_LEAVES).

(** No leaf points to destroyed data, and a leaf the compositor holds
    has storage. *)
Definition well_formed (s : shm_surface) : Prop :=
  length (leaf s) = MAX_LEAVES
  /\ forall i l, leaf s !! i = Some l ->
       (is_Some (data l) <-> is_Some (cairo_surface l))
       /\ (busy l = true -> is_Some (cairo_surface l)).

End ShmSurface.

(** * Concrete inputs used below *)




(** A window with a main surface and one sub-surface; the backend gives
    a drawable for every non-empty size and handlers keep the layout. *)
Definition sample_prepare (i : nat) (r : Redraw.rectangle) : bool :=
  Z.ltb 0 (Redraw.width r) && Z.ltb 0 (Redraw.height r).

Definition sample_swap (i : nat) (size : Z * Z) (r : Redraw.rectangle)
    : Redraw.rectangle :=
  Redraw.Rectangle (Redraw.x r) (Redraw.y r) size.1 size.2.

Definition sample_resize_handler (i : nat) (width height : Z)
    (l : list Redraw.rectangle) : list Redraw.rectangle := l.

Definition sample_main (cb : option nat) : Redraw.surface :=
  Redraw.Surface false false false false cb 0%N
    (Redraw.Rectangle 0 0 300 200) (Redraw.Rectangle 0 0 300 200)
    (Redraw.Rectangle 0 0 300 200) true None.

Definition sample_sub : Redraw.surface :=
  Redraw.Surface true false false false None 0%N
    (Redraw.Rectangle 10 10 50 50) (Redraw.Rectangle 0 0 50 50)
    (Redraw.Rectangle 10 10 50 50) true None.

(** An idle window; and the same after a widget of the main surface asked
    for a redraw and the redraw task ran: the main surface was committed
    and waits for its acknowledgment. *)
Definition sample_idle : Redraw.window :=
  Redraw.Window (Redraw.Rectangle 0 0 300 200) (Redraw.Rectangle 0 0 0 0)
    (Redraw.Rectangle 0 0 300 200) false false false false false false
    0%nat [sample_main None; sample_sub] 0%nat [].


(** An idle window that is asked to resize to 0x500. *)
Definition sample_resizing : Redraw.window :=
  Redraw.window_schedule_resize 0 500 sample_idle.

(** A fresh offer, and two receives issued before either stream is read:
    the far side then writes and closes both pipes, the loop delivers the
    notifications for descriptor 6 until it is quiet and three for
    descriptor 5, and the device lets go of the offer. *)
Definition sample_process : DataOffer.process :=
  DataOffer.data_device_data_offer (DataOffer.Process None ∅ ∅ []).

Definition sample_concurrent : option DataOffer.process :=
  p1 ← DataOffer.data_offer_receive_data (Some (5, 6)) "text/plain" 1 10
         sample_process;
  p2 ← DataOffer.data_offer_receive_data (Some (6, 7)) "text/html" 2 20 p1;
  let p3 := DataOffer.far_close 5 (DataOffer.far_write 5 ["a"%byte] p2) in
  let p4 := DataOffer.far_close 6 (DataOffer.far_write 6 ["b"%byte] p3) in
  p5 ← DataOffer.pump 10 6 p4;
  p6 ← DataOffer.notify 5 p5;
  p7 ← DataOffer.notify 5 p6;
  p8 ← DataOffer.notify 5 p7;
  DataOffer.device_release p8.


(** A seat whose selection belongs to client 1, with devices of clients
    1, 2 and 3 and the pointer over a surface of client 2; and a source of
    client 2. *)
Definition sample_source_a : PrimarySelection.weston_data_source :=
  PrimarySelection.Source 100%nat 1%nat ["text/plain"].

Definition sample_source_b : PrimarySelection.weston_data_source :=
  PrimarySelection.Source 200%nat 2%nat ["text/plain"].

Definition sample_devices : list PrimarySelection.wl_resource :=
  [PrimarySelection.Resource 11%nat 1%nat; PrimarySelection.Resource 12%nat 2%nat;
   PrimarySelection.Resource 13%nat 3%nat].

Definition sample_seat : PrimarySelection.weston_seat :=
  PrimarySelection.Seat (Some sample_source_a) (Some 100%nat) sample_devices
    (Some (PrimarySelection.Pointer
             (Some (PrimarySelection.PointerClient 2%nat)))) [].

(** The window after the redraw task tried the resize to 0x500, could not
    get a drawable for the main surface and undid the resize. *)
Definition sample_undone : Redraw.window :=
  Redraw.final (Redraw.idle_redraw sample_prepare sample_swap
                  sample_resize_handler sample_resizing).

(** A toplevel that was given the size 300x200 when it was created and
    that a configure event has then maximized to 1024x768; the redraw
    task ran after each of the two. *)
Definition sample_maximized : Window.toplevel :=
  let pass := fun w =>
    Redraw.final (Redraw.idle_redraw sample_prepare sample_swap
                    sample_resize_handler w) in
  let w := pass (Redraw.window_schedule_resize 300 200 sample_idle) in
  let t := Window.handle_surface_configure 32 true 1024 768
             [Window.StateMaximized; Window.StateActivated] 6
             (Window.Toplevel w false false []) in
  Window.Toplevel (pass (Window.win t))
    (Window.resizing t) (Window.focused t) (Window.calls t).


Definition sample_dispatch_pending {W : Type} (w : W)
    : W * list Scheduler.action := (w, []).

(** A display whose own task is task 0, with nothing queued; the
    descriptor is registered for input, errors and hangups. *)
Definition sample_connection
    : Scheduler.display (DisplayTask.fd_state * unit) :=
  Scheduler.Display [] true (DisplayTask.FdState 0 25, tt) [] [] 0.

Definition sample_dispatch (w : unit) : unit * DisplayTask.dispatch_result :=
  (w, DisplayTask.Dispatched [] false).

Definition sample_flush (w : unit) : DisplayTask.flush_return :=
  DisplayTask.Sent 1.

Definition sample_other (t : Scheduler.task) (_ : N) (w : unit)
    : unit * list Scheduler.action :=
  match t with
  | S O => (w, [Scheduler.ADefer 2%nat])
  | _ => (w, [])
  end.

(** A window whose main surface was redrawn and holds a drawable that is
    not committed yet. *)
Definition sample_drawn : Redraw.window :=
  (Redraw.surface_redraw sample_prepare 0
     (Redraw.widget_schedule_redraw 0 sample_idle)).1.

(** A selection offer that advertises one type. *)
Definition sample_selection : DataOffer.process :=
  DataOffer.Process (Some (DataOffer.Offer ["text/plain"] 1 0 0 0 0 0))
    ∅ ∅ [].

(** Two receives were issued before either stream was read, on
    descriptors 5 and 6; the far side wrote a byte into each pipe and
    closed it, and the stream on 6 was read to its end. *)
Definition sample_stale : DataOffer.process :=
  default sample_process
    (p1 ← DataOffer.data_offer_receive_data (Some (5, 6)) "text/plain" 1 10
            sample_process;
     p2 ← DataOffer.data_offer_receive_data (Some (6, 7)) "text/html" 2 20
            p1;
     let p3 := DataOffer.far_close 5 (DataOffer.far_write 5 ["a"%byte] p2) in
     let p4 := DataOffer.far_close 6 (DataOffer.far_write 6 ["b"%byte] p3) in
     DataOffer.pump 10 6 p4).

(** The sample seat after client 2 took the selection over. *)
Definition sample_owned_by_b : PrimarySelection.weston_seat :=
  PrimarySelection.Seat (Some sample_source_b) (Some 200%nat) sample_devices
    (Some (PrimarySelection.Pointer
             (Some (PrimarySelection.PointerClient 2%nat))))
    [PrimarySelection.ECancel 100; PrimarySelection.EListRemove 100;
     PrimarySelection.ESetSource (Some 200%nat);
     PrimarySelection.ESignalAdd 200].

(** A surface whose last frame, in buffer 7, is with the compositor; the
    frame before, in buffer 6, has come back. *)
Definition sample_shm : ShmSurface.shm_surface :=
  ShmSurface.ShmSurface 0 0
    [ShmSurface.zero_leaf;
     ShmSurface.Leaf (Some (300, 200)) (Some 6%nat) false false;
     ShmSurface.Leaf (Some (300, 200)) (Some 7%nat) false true]
    None [].

(** The same surface after a drawable of 300x200 was prepared for a
    buffer that is rotated by 90 degrees and scaled by two. *)
Definition sample_prepared : ShmSurface.shm_surface :=
  ShmSurface.surface_of
    (ShmSurface.shm_surface_prepare (Some 9%nat) 0 0 300 200 false
       ShmSurface.Transform90 2 sample_shm).


(** * Properties *)

(** ** The deferred queue *)

Section scheduler_facts.
Import Scheduler.

Context {world : Type}.
Variable run : task -> N -> world -> world * list action.
Variable dispatch_pending : world -> world * list action.



Lemma perform_all_ran (acts : list action) (d : display world) :
  ran (foldl (perform world) d acts) = ran d.
Proof.
  revert d. induction acts as [|a acts IH]; intros d; simpl; [done|].
  rewrite IH. by destruct a.
Qed.







End scheduler_facts.



(** ** Redraw throttling *)

Section redraw_facts.
Import Redraw.

Variable prepare : nat -> rectangle -> bool.
Variable swap : nat -> Z * Z -> rectangle -> rectangle.
Variable resize_handler : nat -> Z -> Z -> list rectangle -> list rectangle.













Lemma view_set_redraw_task_scheduled (j : nat) (b : bool) (w : window) :
  view j (set_redraw_task_scheduled b w) = view j w.
Proof. done. Qed.


(** A surface that is not held back is redrawn: a pending callback is
    destroyed, a new one requested, and the widgets painted. *)
Lemma surface_redraw_issues (j : nat) (w : window) (s : surface) :
  subsurface_list w !! j = Some s ->
  redraw_needed w = true \/ (s_redraw_needed s = true /\ frame_cb s = None) ->
  use_cairo s = false \/ is_Some (cairo_surface s)
  \/ prepare j (allocation s) = true ->
  (surface_redraw prepare j w).2 = 0
  /\ log (surface_redraw prepare j w).1
     = log w
       ++ match frame_cb s with
          | Some cb => [RCallbackDestroy cb]
          | None => []
          end
       ++ [RFrame j (next_cb w); RPaint j]
  /\ frame_cb <$> subsurface_list (surface_redraw prepare j w).1 !! j
     = Some (Some (next_cb w)).
Proof.
  intros Hl Hneed Hacq. unfold surface_redraw. rewrite Hl.
  assert (negb (redraw_needed w) && negb (s_redraw_needed s) = false) as ->.
  { destruct Hneed as [->|[-> _]]; [done|]. by rewrite andb_false_r. }
  assert (bool_decide (is_Some (frame_cb s)) && negb (redraw_needed w)
          = false) as ->.
  { destruct Hneed as [->|[_ ->]]; [by rewrite andb_false_r|]. done. }
  set (w1 := match frame_cb s with Some cb => _ | None => w end).
  assert (subsurface_list w1 = subsurface_list w
          /\ next_cb w1 = next_cb w
          /\ log w1 = log w ++ match frame_cb s with
                               | Some cb => [RCallbackDestroy cb]
                               | None => []
                               end) as (Hs1 & Hn1 & Hl1).
  { unfold w1. destruct (frame_cb s); simpl; [done|]. by rewrite app_nil_r. }
  set (w2 := if use_cairo s then _ else w1).
  assert (next_cb w2 = next_cb w /\ log w2 = log w1
          /\ length (subsurface_list w2) = length (subsurface_list w)
          /\ (use_cairo s = true -> has_cairo_surface j w2 = true))
    as (Hn2 & Hl2 & Hlen2 & Hc2).
  { unfold w2. destruct (use_cairo s) eqn:Hu; [|by rewrite Hs1].
    unfold widget_get_cairo_surface, has_cairo_surface. rewrite Hs1, Hl.
    destruct Hacq as [?|[[c Hc]|Hp]]; [done| |].
    - rewrite Hc, Hs1, Hl, Hc. repeat split; done.
    - destruct (cairo_surface s) as [c|] eqn:Hc.
      + rewrite Hs1, Hl, Hc. repeat split; done.
      + rewrite Hp. unfold update. simpl.
        rewrite length_alter, list_lookup_alter, decide_True, Hs1, Hl by done.
        simpl. repeat split; done. }
  assert (use_cairo s && negb (has_cairo_surface j w2) = false) as ->.
  { destruct (use_cairo s); [|done]. by rewrite Hc2. }
  simpl. rewrite Hn2, Hl2, Hl1. split; [done|]. split.
  - by rewrite <- !app_assoc.
  - rewrite list_lookup_alter, decide_True by done.
    destruct (subsurface_list w2 !! j) as [s2|] eqn:H2; [done|].
    apply lookup_ge_None in H2. apply lookup_lt_Some in Hl. lia.
Qed.


End redraw_facts.



Section resize_facts.
Import Redraw.

Variable prepare : nat -> rectangle -> bool.
Variable swap : nat -> Z * Z -> rectangle -> rectangle.
Variable resize_handler : nat -> Z -> Z -> list rectangle -> list rectangle.

Lemma anchor_inv (w w' : window) :
  anchor w' = anchor w ->
  pending_allocation w' = pending_allocation w
  /\ main_surface w' = main_surface w
  /\ redraw_needed w' = redraw_needed w
  /\ backing <$> subsurface_list w' !! main_surface w
     = backing <$> subsurface_list w !! main_surface w.
Proof. unfold anchor. intros [= -> Hm -> Hb]. by rewrite Hm in Hb. Qed.

Lemma anchor_emit (r : request) (w : window) : anchor (emit r w) = anchor w.
Proof. done. Qed.

Lemma anchor_update (k : nat) (f : surface -> surface) (w : window) :
  k <> main_surface w \/ (forall s, backing (f s) = backing s) ->
  anchor (update k f w) = anchor w.
Proof.
  intros H. unfold anchor, update. simpl. f_equal.
  destruct (decide (k = main_surface w)) as [->|Hne].
  - destruct H as [?|H]; [done|].
    rewrite list_lookup_alter, decide_True by done.
    destruct (subsurface_list w !! main_surface w) as [s|]; [|done].
    change (Some (backing (f s)) = Some (backing s)). by rewrite H.
  - by rewrite list_lookup_alter_ne.
Qed.

Lemma anchor_for_each (skip : bool) (body : nat -> window -> window)
    (w : window) :
  (forall i w, (skip = true -> i <> main_surface w) ->
               anchor (body i w) = anchor w) ->
  anchor (for_each_surface skip body w) = anchor w.
Proof.
  intros Hb. unfold for_each_surface.
  generalize (seq 0 (length (subsurface_list w))). intros l.
  revert w. induction l as [|i l IH]; intros w; simpl; [done|].
  destruct skip; simpl.
  - destruct (bool_decide (i = main_surface w)) eqn:Hd; [by apply IH|].
    rewrite IH. apply Hb. intros _. by apply bool_decide_eq_false in Hd.
  - rewrite IH. by apply Hb.
Qed.

Lemma anchor_window_schedule_redraw (w : window) :
  anchor (window_schedule_redraw w) = anchor w.
Proof.
  unfold window_schedule_redraw, window_schedule_redraw_task.
  set (w1 := for_each_surface _ _ _).
  assert (anchor w1 = anchor w) as H1.
  { apply anchor_for_each. intros i w' _.
    apply anchor_update. by right. }
  by destruct (redraw_task_scheduled w1).
Qed.

Lemma anchor_relayout (allocs : list rectangle) (w : window) :
  anchor (set_subsurface_list (relayout allocs (subsurface_list w)) w)
  = anchor w.
Proof.
  unfold anchor, relayout. simpl. f_equal.
  rewrite list_lookup_imap.
  by destruct (subsurface_list w !! main_surface w).
Qed.

Lemma anchor_surface_resize (k : nat) (w : window) :
  anchor (surface_resize resize_handler k w) = anchor w.
Proof.
  unfold surface_resize.
  destruct (subsurface_list w !! k) as [s|]; [|done].
  set (w1 := set_subsurface_list _ w).
  assert (anchor w1 = anchor w) as H1 by apply anchor_relayout.
  destruct (subsurface_list w1 !! k) as [s1|]; [|done].
  set (w2 := if is_sub s1 && _ then _ else w1).
  assert (anchor w2 = anchor w) as H2.
  { unfold w2. case_match; [rewrite anchor_emit|]; exact H1. }
  set (w3 := if _ || _ then _ else w2).
  assert (anchor w3 = anchor w) as H3.
  { unfold w3.
    case_match; [by rewrite anchor_window_schedule_redraw|exact H2]. }
  rewrite anchor_update; [done|]. by right.
Qed.

Lemma anchor_surface_set_synchronized (k : nat) (w : window) :
  anchor (surface_set_synchronized k w) = anchor w.
Proof.
  unfold surface_set_synchronized.
  destruct (subsurface_list w !! k) as [s|]; [|done].
  destruct (negb (is_sub s)); [done|]. destruct (synchronized s); [done|].
  rewrite anchor_update; [done|]. by right.
Qed.

Lemma anchor_surface_set_synchronized_default (k : nat) (w : window) :
  anchor (surface_set_synchronized_default k w) = anchor w.
Proof.
  unfold surface_set_synchronized_default.
  destruct (subsurface_list w !! k) as [s|]; [|done].
  destruct (negb (is_sub s)); [done|]. destruct (bool_decide _); [done|].
  rewrite anchor_update; [done|]. by right.
Qed.

(** Laying the widgets out again changes neither the pending allocation
    nor what the main surface has on screen. *)
Lemma anchor_window_do_resize (w : window) :
  anchor (window_do_resize resize_handler w) = anchor w.
Proof.
  unfold window_do_resize.
  set (w1 := update _ _ w).
  assert (anchor w1 = anchor w) as H1.
  { apply anchor_update. by right. }
  set (w2 := surface_resize _ _ w1).
  assert (anchor w2 = anchor w) as H2.
  { unfold w2. by rewrite anchor_surface_resize. }
  set (w3 := for_each_surface _ _ w2).
  assert (anchor w3 = anchor w) as H3.
  { unfold w3. rewrite anchor_for_each; [done|].
    intros i w' _.
    by rewrite anchor_surface_resize, anchor_surface_set_synchronized. }
  by destruct (negb (fullscreen w3) && negb (maximized w3)).
Qed.

Lemma anchor_surface_flush (k : nat) (w : window) :
  k <> main_surface w -> anchor (surface_flush swap k w) = anchor w.
Proof.
  intros Hne. unfold surface_flush.
  destruct (subsurface_list w !! k) as [s|]; [|done].
  destruct (cairo_surface s); [|done].
  rewrite anchor_update; [done|]. by left.
Qed.

Lemma anchor_window_flush (w : window) :
  (forall s, subsurface_list w !! main_surface w = Some s ->
             cairo_surface s = None) ->
  anchor (window_flush swap w) = anchor w.
Proof.
  intros Hm. unfold window_flush.
  set (w1 := for_each_surface _ _ w).
  assert (anchor w1 = anchor w) as H1.
  { apply anchor_for_each. intros i w' Hi.
    apply anchor_surface_flush. by apply Hi. }
  assert (surface_flush swap (main_surface w) w1 = w1) as ->; [|done].
  unfold surface_flush.
  apply anchor_inv in H1 as (_ & _ & _ & Hb).
  destruct (subsurface_list w1 !! main_surface w) as [s1|] eqn:Hl1; [|done].
  destruct (subsurface_list w !! main_surface w) as [s|] eqn:Hl; [|done].
  specialize (Hm s eq_refl).
  assert (cairo_surface s1 = None) as ->; [|done].
  simpl in Hb. unfold backing in Hb. injection Hb as _ Hc _ _. congruence.
Qed.

Lemma pending_for_each (skip : bool) (body : nat -> window -> window)
    (w : window) :
  (forall i w, pending_allocation (body i w) = pending_allocation w) ->
  pending_allocation (for_each_surface skip body w) = pending_allocation w.
Proof.
  intros Hb. unfold for_each_surface.
  generalize (seq 0 (length (subsurface_list w))). intros l.
  revert w. induction l as [|i l IH]; intros w; simpl; [done|].
  destruct (skip && _); [by apply IH|]. by rewrite IH.
Qed.

Lemma pending_surface_redraw (k : nat) (w : window) :
  pending_allocation (surface_redraw prepare k w).1 = pending_allocation w.
Proof.
  unfold surface_redraw, widget_get_cairo_surface.
  repeat case_match; simpl; try done.
Qed.

Lemma pending_surface_flush (k : nat) (w : window) :
  pending_allocation (surface_flush swap k w) = pending_allocation w.
Proof. unfold surface_flush. by repeat case_match. Qed.

Lemma pending_surface_set_synchronized_default (k : nat) (w : window) :
  pending_allocation (surface_set_synchronized_default k w)
  = pending_allocation w.
Proof. unfold surface_set_synchronized_default. by repeat case_match. Qed.

Lemma backing_server_allocation (o : option surface) (s : surface) :
  backing <$> o = Some (backing s) ->
  default (Rectangle 0 0 0 0) (server_allocation <$> o) = server_allocation s.
Proof.
  destruct o as [s'|]; [|done]. unfold backing. simpl. by intros [= _ _ _ ->].
Qed.

Lemma surface_redraw_fails (k : nat) (w : window) (s : surface) :
  subsurface_list w !! k = Some s ->
  redraw_needed w = true -> frame_cb s = None ->
  use_cairo s = true -> cairo_surface s = None ->
  prepare k (allocation s) = false ->
  surface_redraw prepare k w = (w, -1).
Proof.
  intros Hl Hn Hf Hu Hc Hp.
  unfold surface_redraw, widget_get_cairo_surface, has_cairo_surface.
  by rewrite Hl, Hn, Hf, Hu, Hl, Hc, Hp, Hl, Hc.
Qed.

Lemma idle_resize_keeps (w : window) :
  pending_allocation (idle_resize resize_handler w) = pending_allocation w
  /\ main_surface (idle_resize resize_handler w) = main_surface w
  /\ redraw_needed (idle_resize resize_handler w) = true
  /\ backing <$> subsurface_list (idle_resize resize_handler w)
                 !! main_surface w
     = backing <$> subsurface_list w !! main_surface w.
Proof.
  unfold idle_resize.
  exact (anchor_inv _ _
           (anchor_window_do_resize
              (set_redraw_needed true (set_resize_needed false w)))).
Qed.

(** The tail of [idle_redraw] after a failed redraw of the main surface:
    flush, restore the synchronisation modes, undo. *)
Lemma undo_after_failure (w : window) (s : surface) :
  subsurface_list w !! main_surface w = Some s ->
  cairo_surface s = None ->
  let o := undo_resize resize_handler
             (for_each_surface false surface_set_synchronized_default
                (window_flush swap (set_redraw_needed false w))) in
  let sa := server_allocation s in
  pending_allocation (final o)
  = Rectangle (x (pending_allocation w)) (y (pending_allocation w))
      (width sa) (height sa)
  /\ main_server_allocation (final o) = sa
  /\ o = (if Z.eqb (width sa) 0 && Z.eqb (height sa) 0
          then Exited (final o) else Returned (final o)).
Proof.
  intros Hl Hc. cbv zeta.
  set (w3 := set_redraw_needed false w).
  set (w4 := window_flush swap w3).
  assert (anchor w4 = anchor w3) as H4.
  { apply anchor_window_flush. unfold w3. simpl. intros s'. congruence. }
  set (w5 := for_each_surface false surface_set_synchronized_default w4).
  assert (anchor w5 = anchor w3) as H5.
  { unfold w5. rewrite anchor_for_each; [done|].
    intros i w' _. apply anchor_surface_set_synchronized_default. }
  apply anchor_inv in H5 as (Hp5 & Hm5 & _ & Hb5).
  change (pending_allocation w3) with (pending_allocation w) in Hp5.
  change (main_surface w3) with (main_surface w) in Hm5, Hb5.
  change (subsurface_list w3) with (subsurface_list w) in Hb5.
  rewrite Hl in Hb5.
  unfold undo_resize.
  assert (main_server_allocation w5 = server_allocation s) as ->.
  { unfold main_server_allocation. rewrite Hm5.
    by apply backing_server_allocation. }
  rewrite Hp5.
  set (r := Rectangle _ _ _ _).
  set (w6 := set_pending_allocation r w5).
  set (w7 := window_do_resize resize_handler w6).
  pose proof (anchor_inv _ _ (anchor_window_do_resize w6))
    as (Hp7 & Hm7 & _ & Hb7).
  fold w7 in Hp7, Hm7, Hb7.
  change (pending_allocation w6) with r in Hp7.
  change (main_surface w6) with (main_surface w5) in Hm7, Hb7.
  change (subsurface_list w6) with (subsurface_list w5) in Hb7.
  rewrite Hm5 in Hb7, Hm7. rewrite Hb5 in Hb7.
  assert (main_server_allocation w7 = server_allocation s) as Hsa.
  { unfold main_server_allocation. rewrite Hm7.
    by apply backing_server_allocation. }
  rewrite Hp7. cbn [width height].
  by destruct (_ && _); cbn [final].
Qed.

End resize_facts.

(** C3.  When the redraw task performs a pending resize and the drawable
    of the main surface cannot be acquired at the resized allocation, the
    task ends with the pending size of the window set back to the size
    the server last showed for the main surface ([server_allocation]),
    which the failed attempt left as it was; the process exits when that
    size is 0x0.  When the main surface can be redrawn the requested size
    stays, whatever happens to the drawables of the sub-surfaces. *)
Theorem idle_redraw_undoes_failed_resize
    (prepare : nat -> Redraw.rectangle -> bool)
    (swap : nat -> Z * Z -> Redraw.rectangle -> Redraw.rectangle)
    (resize_handler : nat -> Z -> Z -> list Redraw.rectangle
                      -> list Redraw.rectangle)
    (w : Redraw.window) (s : Redraw.surface) :
  Redraw.subsurface_list w !! Redraw.main_surface w = Some s ->
  Redraw.resize_needed w = true ->
  Redraw.frame_cb s = None ->
  let o := Redraw.idle_redraw prepare swap resize_handler w in
  let sa := Redraw.server_allocation s in
  (Redraw.use_cairo s = true ->
   Redraw.cairo_surface s = None ->
   (forall s1,
       Redraw.resized_main_surface resize_handler w = Some s1 ->
       prepare (Redraw.main_surface w) (Redraw.allocation s1) = false) ->
   Redraw.pending_allocation (Redraw.final o)
   = Redraw.Rectangle (Redraw.x (Redraw.pending_allocation w))
       (Redraw.y (Redraw.pending_allocation w))
       (Redraw.width sa) (Redraw.height sa)
   /\ Redraw.main_server_allocation (Redraw.final o) = sa
   /\ o = (if Z.eqb (Redraw.width sa) 0 && Z.eqb (Redraw.height sa) 0
           then Redraw.Exited (Redraw.final o)
           else Redraw.Returned (Redraw.final o)))
  /\ ((forall s1,
          Redraw.resized_main_surface resize_handler w = Some s1 ->
          Redraw.use_cairo s1 = false \/ is_Some (Redraw.cairo_surface s1)
          \/ prepare (Redraw.main_surface w) (Redraw.allocation s1) = true) ->
      o = Redraw.Returned (Redraw.final o)
      /\ Redraw.pending_allocation (Redraw.final o)
         = Redraw.pending_allocation w).
Proof.
  intros Hl Hr Hf. cbv zeta.
  unfold Redraw.resized_main_surface, Redraw.idle_redraw.
  set (w0 := Redraw.set_redraw_task_scheduled false w).
  change (Redraw.resize_needed w0) with (Redraw.resize_needed w).
  assert (Redraw.main_frame_pending w0 = false) as ->.
  { unfold Redraw.main_frame_pending, w0. simpl. by rewrite Hl, Hf. }
  rewrite Hr. simpl.
  set (w1 := Redraw.idle_resize resize_handler w0).
  destruct (idle_resize_keeps resize_handler w0) as (Hp1 & Hm1 & Hn1 & Hb1).
  fold w1 in Hp1, Hm1, Hn1, Hb1. simpl in Hp1, Hm1, Hb1.
  rewrite Hl in Hb1. rewrite Hm1.
  destruct (Redraw.subsurface_list w1 !! Redraw.main_surface w)
    as [s1|] eqn:Hl1; [|done].
  simpl in Hb1. unfold Redraw.backing in Hb1.
  injection Hb1 as Hu1 Hc1 Hf1 Hs1.
  split.
  - intros Hu Hc Hp. specialize (Hp s1 eq_refl).
    rewrite (surface_redraw_fails prepare _ w1 s1) by congruence.
    cbv beta iota zeta. change (-1 <? 0) with true. cbv beta iota.
    assert (Redraw.main_surface w1 = Redraw.main_surface w) as Hm1'
      by done.
    rewrite <- Hm1' in Hl1.
    destruct (undo_after_failure swap resize_handler w1 s1 Hl1)
      as (H1 & H2 & H3); [congruence|].
    rewrite Hs1, Hp1 in *. done.
  - intros Hok. specialize (Hok s1 eq_refl).
    destruct (surface_redraw_issues prepare _ w1 s1 Hl1 (or_introl Hn1) Hok)
      as (Hret & _).
    pose proof (pending_surface_redraw prepare (Redraw.main_surface w) w1)
      as Hp2.
    destruct (Redraw.surface_redraw prepare (Redraw.main_surface w) w1)
      as [w2 ret]. cbn [fst snd] in Hret, Hp2. subst ret.
    cbv beta iota zeta. change (0 <? 0) with false.
    cbv beta iota. cbn [Redraw.final].
    split; [done|].
    rewrite pending_for_each
      by apply pending_surface_set_synchronized_default.
    unfold Redraw.window_flush. rewrite pending_surface_flush.
    rewrite pending_for_each by apply pending_surface_flush.
    cbn [Redraw.pending_allocation Redraw.set_redraw_needed].
    rewrite pending_for_each by apply pending_surface_redraw.
    by rewrite Hp2.
Qed.

Lemma idle_redraw_undoes_failed_resize_witness :
  Redraw.pending_allocation sample_resizing = Redraw.Rectangle 0 0 0 500
  /\ Redraw.pending_allocation
       (Redraw.final (Redraw.idle_redraw sample_prepare sample_swap
                        sample_resize_handler sample_resizing))
     = Redraw.Rectangle 0 0 300 200.
Proof.
  split; [reflexivity|].
  refine (proj1 (proj1 (idle_redraw_undoes_failed_resize sample_prepare
                          sample_swap sample_resize_handler sample_resizing
                          (Redraw.set_s_redraw_needed true (sample_main None))
                          eq_refl eq_refl eq_refl)
                   eq_refl eq_refl _)).
  intros s1 H. vm_compute in H. injection H as <-. reflexivity.
Defined.

(** ** Data offers *)

Section data_offer_facts.
Import DataOffer.

Lemma frees_emit (e : event) (p : process) :
  frees (emit e p) = (frees p + if is_free e then 1 else 0)%nat.
Proof.
  unfold frees, emit. cbn [log]. rewrite filter_app, length_app. f_equal.
  destruct e; reflexivity.
Qed.

Lemma chunk_length (buffered : list Byte.byte) :
  buffered <> [] ->
  as_unsigned (Z.of_nat (length (take 4096 buffered)))
  = Z.of_nat (length (take 4096 buffered))
  /\ 0 < Z.of_nat (length (take 4096 buffered)) <= 4096.
Proof.
  intros Hne. rewrite length_take.
  assert (0 < length buffered)%nat by (destruct buffered; [done|simpl; lia]).
  unfold as_unsigned. split; [apply Z.mod_small|]; lia.
Qed.

(** [data_offer_destroy] gives one reference back and frees the offer
    with the last one. *)
Lemma data_offer_destroy_releases (p : process) (o : data_offer) :
  offer p = Some o ->
  exists p',
    data_offer_destroy p = Some p'
    /\ fds p' = fds p /\ watched p' = watched p
    /\ if Z.eqb (refcount o) 1
       then offer p' = None /\ frees p' = S (frees p)
            /\ log p' = log p ++ [EProxyDestroy; EFree]
       else offer p' = Some (Offer (types o) (refcount o - 1) (fd o) (func o)
                               (ox o) (oy o) (user_data o))
            /\ frees p' = frees p /\ log p' = log p.
Proof.
  intros Ho. unfold data_offer_destroy. rewrite Ho. cbn [refcount].
  destruct (Z.eqb_spec (refcount o) 1) as [->|Hne].
  - change (1 - 1 =? 0) with true. cbv beta iota.
    eexists. split; [done|]. repeat split.
    + rewrite frees_emit. change (frees (set_offer None ?q)) with (frees q).
      rewrite frees_emit. cbn [is_free]. lia.
    + cbn [log emit set_offer]. by rewrite <- app_assoc.
  - assert ((refcount o - 1 =? 0) = false) as -> by lia.
    eexists. split; [done|]. by repeat split.
Qed.

(** A successful [data_offer_receive_data]. *)
Lemma receive_takes_reference (r w : Z) (mime_type : string) (f d : nat)
    (p : process) (o : data_offer) :
  offer p = Some o -> r <> w -> watched p !! r = None ->
  exists p',
    data_offer_receive_data (Some (r, w)) mime_type f d p = Some p'
    /\ offer p' = Some (Offer (types o) (refcount o + 1) r f (ox o) (oy o) d)
    /\ fds p' = <[r := ReadEnd [] false]> (delete w (fds p))
    /\ watched p' = <[r := EPOLLIN]> (delete w (watched p))
    /\ log p' = log p ++ [EReceive mime_type w].
Proof.
  intros Ho Hne Hw. unfold data_offer_receive_data. rewrite Ho.
  eexists. split; [done|].
  unfold display_watch_fd, set_offer, close, emit. cbn [fds watched offer log].
  rewrite delete_insert_eq.
  rewrite lookup_delete_ne by done.
  rewrite lookup_insert_eq.
  rewrite lookup_delete_ne, Hw by done. cbn [fds watched offer log].
  by rewrite delete_insert_ne by done.
Qed.

(** Reading a stream whose writer is gone to its end: the descriptor is
    closed and dropped from the interest list, one reference is given
    back, and the offer stays as long as another reference is held. *)
Lemma pump_drains (fuel : nat) (buffered : list Byte.byte) (p : process)
    (o : data_offer) :
  offer p = Some o ->
  fds p !! fd o = Some (ReadEnd buffered true) ->
  is_Some (watched p !! fd o) ->
  refcount o <> 1 ->
  (length buffered < fuel)%nat ->
  exists p',
    pump fuel (fd o) p = Some p'
    /\ offer p' = Some (Offer (types o) (refcount o - 1) (fd o) (func o)
                          (ox o) (oy o) (user_data o))
    /\ fds p' = delete (fd o) (fds p)
    /\ watched p' = delete (fd o) (watched p)
    /\ frees p' = frees p.
Proof.
  revert buffered p. induction fuel as [|fuel IH]; intros buffered p Ho Hfd Hw Hrc Hlen;
    [lia|].
  cbn [pump].
  assert (ready (fd o) p = true) as ->.
  { unfold ready. destruct Hw as [ev ->]. rewrite Hfd. apply orb_true_r. }
  unfold offer_io_func. rewrite Ho. unfold read. rewrite Hfd.
  destruct buffered as [|b buffered].
  - change (as_unsigned 0 =? 0) with true. cbv beta iota.
    unfold data_offer_destroy, close, emit, set_offer.
    cbn [offer fds watched log]. rewrite Ho. cbn [refcount].
    assert ((refcount o - 1 =? 0) = false) as -> by lia.
    cbn [mbind option_bind].
    destruct fuel; cbn [pump]; unfold ready; cbn [offer fds watched log];
      rewrite !lookup_delete_eq; (eexists; split; [done|]);
      repeat split; try done; unfold frees; cbn [log];
      by rewrite filter_app, length_app, Nat.add_0_r.
  - destruct (chunk_length (b :: buffered)) as [Hu [Hpos Hle]]; [done|].
    set (data := take 4096 (b :: buffered)) in *.
    set (rest := drop 4096 (b :: buffered)).
    rewrite Hu. assert ((Z.of_nat (length data) =? 0) = false) as -> by lia.
    cbn [mbind option_bind].
    set (p2 := emit _ _).
    destruct (IH rest p2) as (p' & Hp & Ho' & Hf' & Hw' & Hfr').
    + done.
    + unfold p2, emit. cbn [fds]. apply lookup_insert_eq.
    + done.
    + done.
    + unfold rest. rewrite length_drop. cbn [length] in *. lia.
    + exists p'. split; [done|]. split; [done|].
      unfold p2, emit in Hf', Hw', Hfr'. cbn [fds watched] in Hf', Hw'.
      rewrite delete_insert_eq in Hf'. repeat split; try done.
      rewrite Hfr'. unfold frees. cbn [log].
      by rewrite filter_app, length_app, Nat.add_0_r.
Qed.

(** A whole transfer gives back the reference it took and closes what it
    opened. *)
Lemma receive_to_end_balanced (r w : Z) (mime_type : string) (f d : nat)
    (data : list Byte.byte) (p : process) (o : data_offer) :
  offer p = Some o -> refcount o <> 0 -> r <> w -> watched p !! r = None ->
  exists p',
    receive_to_end (r, w) mime_type f d data p = Some p'
    /\ offer p' = Some (Offer (types o) (refcount o) r f (ox o) (oy o) d)
    /\ fds p' = delete r (delete w (fds p))
    /\ watched p' = delete r (delete w (watched p))
    /\ frees p' = frees p.
Proof.
  intros Ho Hrc Hne Hw. unfold receive_to_end.
  destruct (receive_takes_reference r w mime_type f d p o Ho Hne Hw)
    as (p1 & -> & Ho1 & Hf1 & Hw1 & Hl1).
  cbn [mbind option_bind fst].
  set (p2 := far_close r (far_write r data p1)).
  assert (offer p2 = offer p1 /\ watched p2 = watched p1
          /\ log p2 = log p1
          /\ fds p2 = <[r := ReadEnd data true]> (fds p1)) as (Ho2 & Hw2 & Hl2 & Hf2).
  { unfold p2, far_write. rewrite Hf1, lookup_insert_eq.
    unfold far_close. cbn [fds offer watched log].
    rewrite lookup_insert_eq. cbn [fds offer watched log].
    by rewrite insert_insert_eq. }
  set (o1 := Offer (types o) (refcount o + 1) r f (ox o) (oy o) d) in *.
  destruct (pump_drains (S (length data)) data p2 o1)
    as (p' & Hp & Ho' & Hf' & Hw' & Hfr').
  - congruence.
  - rewrite Hf2. apply lookup_insert_eq.
  - rewrite Hw2, Hw1. cbn [fd o1]. rewrite lookup_insert_eq. by eexists.
  - cbn [refcount o1]. lia.
  - lia.
  - exists p'. cbn [fd o1] in *. split; [done|].
    rewrite Ho', Hf', Hw', Hfr', Hf2, Hw2, Hf1, Hw1. cbn [o1 types refcount func ox oy user_data].
    rewrite !delete_insert_eq.
    replace (refcount o + 1 - 1) with (refcount o) by lia.
    repeat split; try done.
    unfold frees. rewrite Hl2, Hl1.
    by rewrite filter_app, length_app, Nat.add_0_r.
Qed.

End data_offer_facts.

(** C4 (as the code has it).  Every successful [receive] takes exactly
    one reference and every zero-length read gives exactly one back,
    freeing the offer when it was the last.  An offer tracks a single
    descriptor, so the balance is kept when the transfers follow one
    another: after two receives for two types, each read to its end
    before the next is issued, and the release of the device's reference,
    the offer is freed exactly once and both descriptors are closed. *)
Theorem data_offer_references_balanced (p : DataOffer.process)
    (o : DataOffer.data_offer) :
  DataOffer.offer p = Some o ->
  (forall r w mime_type f d,
      r <> w -> DataOffer.watched p !! r = None ->
      exists p',
        DataOffer.data_offer_receive_data (Some (r, w)) mime_type f d p
        = Some p'
        /\ DataOffer.refcount <$> DataOffer.offer p'
           = Some (DataOffer.refcount o + 1)
        /\ DataOffer.frees p' = DataOffer.frees p)
  /\ (DataOffer.read (DataOffer.fd o) 4096 p = DataOffer.ReadEof ->
      exists p',
        DataOffer.offer_io_func p = Some p'
        /\ if Z.eqb (DataOffer.refcount o) 1
           then DataOffer.offer p' = None
                /\ DataOffer.frees p' = S (DataOffer.frees p)
           else DataOffer.refcount <$> DataOffer.offer p'
                = Some (DataOffer.refcount o - 1)
                /\ DataOffer.frees p' = DataOffer.frees p)
  /\ (forall r1 w1 r2 w2 mime1 mime2 f1 d1 f2 d2 data1 data2,
         DataOffer.refcount o = 1 ->
         r1 <> w1 -> r2 <> w2 ->
         DataOffer.watched p !! r1 = None ->
         DataOffer.watched p !! r2 = None ->
         exists p',
           DataOffer.receive_twice_in_turn (r1, w1) (r2, w2) mime1 mime2
             f1 d1 f2 d2 data1 data2 p = Some p'
           /\ DataOffer.offer p' = None
           /\ DataOffer.frees p' = S (DataOffer.frees p)
           /\ DataOffer.fds p' !! r1 = None
           /\ DataOffer.fds p' !! r2 = None
           /\ DataOffer.watched p' !! r1 = None
           /\ DataOffer.watched p' !! r2 = None).
Proof.
  intros Ho. split; [|split].
  - intros r w mime_type f d Hne Hw.
    destruct (receive_takes_reference r w mime_type f d p o Ho Hne Hw)
      as (p' & Hp & Ho' & _ & _ & Hl).
    exists p'. split; [done|]. rewrite Ho'. split; [done|].
    unfold DataOffer.frees. rewrite Hl.
    by rewrite filter_app, length_app, Nat.add_0_r.
  - intros Hr. unfold DataOffer.offer_io_func. rewrite Ho, Hr.
    change (DataOffer.as_unsigned 0 =? 0) with true. cbv beta iota.
    set (p2 := DataOffer.close _ _).
    destruct (data_offer_destroy_releases p2 o Ho) as (p' & -> & _ & _ & H).
    exists p'. split; [done|].
    assert (DataOffer.frees p2 = DataOffer.frees p) as Hfr.
    { unfold p2.
      change (DataOffer.frees (DataOffer.close ?n ?q)) with (DataOffer.frees q).
      rewrite frees_emit. cbn [DataOffer.is_free]. lia. }
    destruct (DataOffer.refcount o =? 1).
    + destruct H as (-> & -> & _). by rewrite Hfr.
    + destruct H as (-> & -> & _). by rewrite Hfr.
  - intros r1 w1 r2 w2 mime1 mime2 f1 d1 f2 d2 data1 data2
      Hrc Hne1 Hne2 Hw1 Hw2.
    unfold DataOffer.receive_twice_in_turn.
    destruct (receive_to_end_balanced r1 w1 mime1 f1 d1 data1 p o)
      as (p1 & -> & Ho1 & Hf1 & Hwa1 & Hfr1); [done|lia|done|done|].
    cbn [mbind option_bind].
    destruct (receive_to_end_balanced r2 w2 mime2 f2 d2 data2 p1 _ Ho1)
      as (p2 & -> & Ho2 & Hf2 & Hwa2 & Hfr2).
    { cbn [DataOffer.refcount]. lia. }
    { done. }
    { rewrite Hwa1. apply lookup_delete_None. right.
      apply lookup_delete_None. by right. }
    cbn [mbind option_bind DataOffer.types DataOffer.refcount DataOffer.ox
           DataOffer.oy] in *.
    unfold DataOffer.device_release.
    destruct (data_offer_destroy_releases p2 _ Ho2)
      as (p' & -> & Hf' & Hwa' & H).
    cbn [DataOffer.refcount] in H. rewrite Hrc in H.
    change (1 =? 1) with true in H. destruct H as (Ho' & Hfr' & _).
    exists p'. split; [done|].
    rewrite Hf', Hwa', Hf2, Hwa2, Hf1, Hwa1.
    repeat split.
    + done.
    + by rewrite Hfr', Hfr2, Hfr1.
    + apply lookup_delete_None. right. apply lookup_delete_None. right.
      apply lookup_delete_None. by left.
    + apply lookup_delete_None. by left.
    + apply lookup_delete_None. right. apply lookup_delete_None. right.
      apply lookup_delete_None. by left.
    + apply lookup_delete_None. by left.
Qed.

Lemma data_offer_references_balanced_witness :
  exists p',
    DataOffer.receive_twice_in_turn (5, 6) (5, 6) "text/plain" "text/html"
      1 10 2 20 ["a"%byte] ["b"%byte] sample_process = Some p'
    /\ DataOffer.offer p' = None
    /\ DataOffer.frees p' = 1%nat
    /\ DataOffer.fds p' !! 5 = None
    /\ DataOffer.fds p' !! 5 = None
    /\ DataOffer.watched p' !! 5 = None
    /\ DataOffer.watched p' !! 5 = None.
Proof.
  refine (proj2 (proj2 (data_offer_references_balanced sample_process
                          (DataOffer.Offer [] 1 0 0 0 0 0) eq_refl))
            5 6 5 6 "text/plain" "text/html" 1%nat 10%nat 2%nat 20%nat
            ["a"%byte] ["b"%byte] eq_refl _ _ eq_refl eq_refl); lia.
Defined.

(** C4, as stated, fails: with the second receive issued before the first
    stream is read, the end of the second stream is the only one seen.
    The first pipe is never read nor closed and stays readable, so the
    loop keeps being woken for it; its reference is never given back, and
    after the device let go the offer is still allocated and was never
    freed. *)
Lemma concurrent_receives_leak_offer :
  exists p,
    sample_concurrent = Some p
    /\ DataOffer.frees p = 0%nat
    /\ DataOffer.refcount <$> DataOffer.offer p = Some 1
    /\ DataOffer.fds p !! 5 = Some (DataOffer.ReadEnd ["a"%byte] true)
    /\ DataOffer.ready 5 p = true
    /\ DataOffer.pump 50 5 p = None
    /\ ~ (DataOffer.frees p = 1%nat /\ DataOffer.offer p = None).
Proof.
  eexists. split; [vm_compute; reflexivity|].
  repeat split; try (vm_compute; reflexivity).
  intros [H _]. vm_compute in H. discriminate.
Qed.



(** C8.  When [pipe2] fails, [data_offer_receive_data] returns to its
    caller with nothing done: the reference count, the descriptors, the
    interest list and the requests sent are as before. *)
Theorem receive_without_pipe_changes_nothing (mime_type : string) (f d : nat)
    (p : DataOffer.process) :
  exists p',
    DataOffer.data_offer_receive_data None mime_type f d p = Some p'
    /\ DataOffer.offer p' = DataOffer.offer p
    /\ DataOffer.fds p' = DataOffer.fds p
    /\ DataOffer.watched p' = DataOffer.watched p
    /\ DataOffer.log p' = DataOffer.log p.
Proof. by exists p. Qed.

(** ** Primary selection *)

Section primary_selection_facts.
Import PrimarySelection.

(** Replacing the current source in [src/primary-selection.c]. *)
Lemma set_primary_selection_replaces (seat : weston_seat)
    (current new : weston_data_source) (l : nat) :
  primary_selection_data_source seat = Some current ->
  primary_data_source_listener seat = Some l ->
  weston_seat_set_primary_selection (Some new) seat
  = Some (tt, Seat (Some new) (Some (sid new))
                (primary_selection_device_resource_list seat)
                (pointer_state seat)
                (log seat ++ [ECancel (sid current); EListRemove l;
                              ESetSource (Some (sid new));
                              ESignalAdd (sid new)])).
Proof.
  intros Hc Hl. unfold weston_seat_set_primary_selection.
  unfold mbind, exec_bind, get. rewrite Hc.
  unfold emit, wl_list_remove_listener, store_source, wl_signal_add_listener.
  cbn. rewrite Hl. cbn. by rewrite <- !app_assoc.
Qed.

(** Replacing the current source in [part_000]. *)
Lemma part000_set_primary_selection_replaces (seat : weston_seat)
    (current new : weston_data_source) (l : nat) :
  primary_selection_data_source seat = Some current ->
  primary_data_source_listener seat = Some l ->
  Part000.weston_seat_set_primary_selection (Some new) seat
  = if bool_decide (owner current ≠ owner new) then
      match wl_resource_find_for_client
              (primary_selection_device_resource_list seat) (owner current)
      with
      | Some r =>
          Some (tt, Seat (Some new) (Some (sid new))
                      (primary_selection_device_resource_list seat)
                      (pointer_state seat)
                      (log seat ++ [ECancel (sid current);
                                    ESelectionChanged (rid r);
                                    EListRemove l;
                                    ESetSource (Some (sid new));
                                    ESignalAdd (sid new)]))
      | None => None
      end
    else
      Some (tt, Seat (Some new) (Some (sid new))
                  (primary_selection_device_resource_list seat)
                  (pointer_state seat)
                  (log seat ++ [ECancel (sid current);
                                EListRemove l;
                                ESetSource (Some (sid new));
                                ESignalAdd (sid new)])).
Proof.
  intros Hc Hl. unfold Part000.weston_seat_set_primary_selection.
  unfold mbind, exec_bind, get. rewrite Hc.
  unfold emit, wl_list_remove_listener, store_source, wl_signal_add_listener.
  cbn.
  destruct (bool_decide (owner current ≠ owner new)); cbn.
  - destruct (wl_resource_find_for_client _ _) as [r|]; cbn; [|done].
    rewrite Hl. cbn. by rewrite <- !app_assoc.
  - rewrite Hl. cbn. by rewrite <- !app_assoc.
Qed.

(** Installing a source when none is current, in either revision. *)
Lemma set_primary_selection_installs (seat : weston_seat)
    (source : option weston_data_source) :
  primary_selection_data_source seat = None ->
  weston_seat_set_primary_selection source seat
  = Some (tt, Seat source
                (match source with
                 | Some new => Some (sid new)
                 | None => primary_data_source_listener seat
                 end)
                (primary_selection_device_resource_list seat)
                (pointer_state seat)
                (log seat ++ ESetSource (sid <$> source)
                   :: match source with
                      | Some new => [ESignalAdd (sid new)]
                      | None => []
                      end))
  /\ Part000.weston_seat_set_primary_selection source seat
     = weston_seat_set_primary_selection source seat.
Proof.
  intros Hc.
  unfold weston_seat_set_primary_selection,
    Part000.weston_seat_set_primary_selection.
  unfold mbind, exec_bind, get. rewrite Hc.
  unfold store_source, wl_signal_add_listener. cbn.
  destruct source as [new|]; cbn; [|done].
  by rewrite <- !app_assoc.
Qed.

(** Without a linked listener there is nothing to unlink: replacing a
    source dereferences a null neighbour, in either revision. *)
Lemma set_primary_selection_unlinked (seat : weston_seat)
    (current : weston_data_source) (source : option weston_data_source) :
  primary_selection_data_source seat = Some current ->
  primary_data_source_listener seat = None ->
  weston_seat_set_primary_selection source seat = None
  /\ Part000.weston_seat_set_primary_selection source seat = None.
Proof.
  intros Hc Hl.
  unfold weston_seat_set_primary_selection,
    Part000.weston_seat_set_primary_selection.
  unfold mbind, exec_bind, get. rewrite Hc.
  unfold emit, wl_list_remove_listener, deref. cbn. rewrite Hl.
  split; [done|].
  destruct source as [new|]; cbn; [|done].
  destruct (bool_decide _); cbn; [|done].
  by destruct (wl_resource_find_for_client _ _).
Qed.

(** [part_000] reads [source->resource] while it replaces a source. *)
Lemma part000_set_primary_selection_null (seat : weston_seat)
    (current : weston_data_source) :
  primary_selection_data_source seat = Some current ->
  Part000.weston_seat_set_primary_selection None seat = None.
Proof.
  intros Hc. unfold Part000.weston_seat_set_primary_selection.
  unfold mbind, exec_bind, get. by rewrite Hc.
Qed.

End primary_selection_facts.








(** C10 (as the code has it).  The two revisions of
    [weston_seat_set_primary_selection] do the same when no source is
    current or when the new source belongs to the client of the current
    one.  Whenever [part_000] returns, [src/primary-selection.c] returns
    too, with the same source, the same listener registration and the
    same calls apart from the [selection_changed] events, which only
    [part_000] sends. *)
Theorem set_primary_selection_revisions_agree_up_to_notification
    (seat : PrimarySelection.weston_seat)
    (source : option PrimarySelection.weston_data_source) :
  (PrimarySelection.primary_selection_data_source seat = None
   \/ (exists current new,
          PrimarySelection.primary_selection_data_source seat = Some current
          /\ source = Some new
          /\ PrimarySelection.owner current = PrimarySelection.owner new) ->
   PrimarySelection.Part000.weston_seat_set_primary_selection source seat
   = PrimarySelection.weston_seat_set_primary_selection source seat)
  /\ (forall seat',
         PrimarySelection.Part000.weston_seat_set_primary_selection source seat
         = Some (tt, seat') ->
         exists seat'',
           PrimarySelection.weston_seat_set_primary_selection source seat
           = Some (tt, seat'')
           /\ PrimarySelection.without_selection_changed seat''
              = PrimarySelection.without_selection_changed seat').
Proof.
  destruct (PrimarySelection.primary_selection_data_source seat)
    as [current|] eqn:Hc.
  2: { destruct (set_primary_selection_installs seat source Hc) as [_ H].
       split; [done|]. intros seat' Hs. exists seat'. by rewrite <- H. }
  destruct (PrimarySelection.primary_data_source_listener seat)
    as [l|] eqn:Hl.
  2: { destruct (set_primary_selection_unlinked seat current source Hc Hl)
         as [-> ->]. by split. }
  destruct source as [new|].
  2: { rewrite (part000_set_primary_selection_null seat current Hc).
       split; [|done]. by intros [?|(? & ? & _ & ? & _)]. }
  rewrite (part000_set_primary_selection_replaces seat current new l Hc Hl).
  rewrite (set_primary_selection_replaces seat current new l Hc Hl).
  split.
  - intros [?|(c & n & [= <-] & [= <-] & Ho)]; [done|].
    by rewrite bool_decide_eq_false_2 by (intros ?; done).
  - intros seat'. destruct (bool_decide _).
    + destruct (PrimarySelection.wl_resource_find_for_client _ _) as [r|];
        [|done].
      intros [= <-]. eexists. split; [done|].
      unfold PrimarySelection.without_selection_changed.
      cbn [PrimarySelection.primary_selection_data_source
             PrimarySelection.primary_data_source_listener
             PrimarySelection.primary_selection_device_resource_list
             PrimarySelection.pointer_state PrimarySelection.log].
      f_equal. by rewrite !filter_app.
    + intros [= <-]. by eexists.
Qed.

(** C10, as stated, fails: when client 2 takes the selection over from
    client 1, [part_000] tells the device of client 1 and
    [src/primary-selection.c] does not; and for a null source
    [src/primary-selection.c] clears the selection where [part_000]
    dereferences the null pointer. *)
Lemma set_primary_selection_revisions_differ :
  (fun r => PrimarySelection.selection_changed (PrimarySelection.log r.2))
  <$> PrimarySelection.weston_seat_set_primary_selection
        (Some sample_source_b) sample_seat = Some []
  /\ (fun r => PrimarySelection.selection_changed (PrimarySelection.log r.2))
     <$> PrimarySelection.Part000.weston_seat_set_primary_selection
           (Some sample_source_b) sample_seat = Some [11%nat]
  /\ PrimarySelection.weston_seat_set_primary_selection
       (Some sample_source_b) sample_seat
     <> PrimarySelection.Part000.weston_seat_set_primary_selection
          (Some sample_source_b) sample_seat
  /\ is_Some (PrimarySelection.weston_seat_set_primary_selection None
                sample_seat)
  /\ PrimarySelection.Part000.weston_seat_set_primary_selection None
       sample_seat = None.
Proof.
  repeat split; try (vm_compute; reflexivity).
  - vm_compute. discriminate.
  - vm_compute. eauto.
Qed.

Lemma set_primary_selection_revisions_agree_up_to_notification_witness :
  PrimarySelection.Part000.weston_seat_set_primary_selection
    (Some sample_source_a) sample_seat
  = PrimarySelection.weston_seat_set_primary_selection
      (Some sample_source_a) sample_seat
  /\ exists seat'',
      PrimarySelection.weston_seat_set_primary_selection
        (Some sample_source_b) sample_seat = Some (tt, seat'')
      /\ PrimarySelection.without_selection_changed seat''
         = PrimarySelection.without_selection_changed
             (PrimarySelection.Seat (Some sample_source_b) (Some 200%nat)
                sample_devices (PrimarySelection.pointer_state sample_seat)
                [PrimarySelection.ECancel 100;
                 PrimarySelection.ESelectionChanged 11;
                 PrimarySelection.EListRemove 100;
                 PrimarySelection.ESetSource (Some 200%nat);
                 PrimarySelection.ESignalAdd 200]).
Proof.
  split.
  - apply (proj1 (set_primary_selection_revisions_agree_up_to_notification
                    sample_seat (Some sample_source_a))).
    right. exists sample_source_a, sample_source_a. by repeat split.
  - exact (proj2 (set_primary_selection_revisions_agree_up_to_notification
                    sample_seat (Some sample_source_b)) _ eq_refl).
Defined.

(** * Further properties *)

(** ** Leaving the event loop *)

Section exit_facts.
Import Scheduler.

Context {world : Type}.
Variable run : task -> N -> world -> world * list action.
Variable dispatch_pending : world -> world * list action.

Lemma perform_all_stays_stopped (acts : list action) (d : display world) :
  running d = false -> running (foldl (perform world) d acts) = false.
Proof.
  revert d. induction acts as [|a acts IH]; intros d Hr; simpl; [done|].
  apply IH. by destruct a.
Qed.

Lemma perform_all_exit (acts : list action) (d : display world) :
  AExit ∈ acts -> running (foldl (perform world) d acts) = false.
Proof.
  revert d. induction acts as [|a acts IH]; intros d Hin; simpl.
  - by apply elem_of_nil in Hin.
  - apply elem_of_cons in Hin as [<-|Hin]; [|by apply IH].
    by apply perform_all_stays_stopped.
Qed.

Lemma perform_all_rearmed (acts : list action) (d : display world) :
  rearmed (foldl (perform world) d acts) = rearmed d.
Proof.
  revert d. induction acts as [|a acts IH]; intros d; simpl; [done|].
  rewrite IH. by destruct a.
Qed.

Lemma run_task_stays_stopped (q : bool) (t : task) (ev : N)
    (d : display world) :
  running d = false -> running (run_task world run q t ev d) = false.
Proof.
  intros Hr. unfold run_task. destruct (run t ev (state d)) as [w acts].
  by apply perform_all_stays_stopped.
Qed.

Lemma run_task_exit (q : bool) (t : task) (ev : N) (d : display world) :
  AExit ∈ (run t ev (state d)).2 ->
  running (run_task world run q t ev d) = false.
Proof.
  intros Hin. unfold run_task. destruct (run t ev (state d)) as [w acts].
  by apply perform_all_exit.
Qed.

Lemma run_task_rearmed (q : bool) (t : task) (ev : N) (d : display world) :
  rearmed (run_task world run q t ev d) = rearmed d.
Proof.
  unfold run_task. destruct (run t ev (state d)) as [w acts].
  by rewrite perform_all_rearmed.
Qed.

Lemma drain_stays_stopped (fuel : nat) (d d1 : display world) :
  drain world run fuel d = Some d1 -> running d = false ->
  running d1 = false.
Proof.
  revert d. induction fuel as [|fuel IH]; intros d; simpl;
    destruct (last (deferred_list d)) as [t|]; try done.
  - by intros [= <-].
  - intros Hd Hr. eapply IH; [done|]. by apply run_task_stays_stopped.
  - by intros [= <-].
Qed.

Lemma drain_rearmed (fuel : nat) (d d1 : display world) :
  drain world run fuel d = Some d1 -> rearmed d1 = rearmed d.
Proof.
  revert d. induction fuel as [|fuel IH]; intros d; simpl;
    destruct (last (deferred_list d)) as [t|]; try done.
  - by intros [= <-].
  - intros Hd. rewrite (IH _ Hd). apply run_task_rearmed.
  - by intros [= <-].
Qed.

Lemma dispatch_events_stops (ready : list (task * N)) (t : task) (ev : N)
    (d : display world) :
  (t, ev) ∈ ready ->
  (forall w, AExit ∈ (run t ev w).2) ->
  running (dispatch_events world run ready d) = false.
Proof.
  intros Hin Hexit. unfold dispatch_events.
  assert (forall l d', running d' = false ->
            running (foldl (fun d e => run_task world run false e.1 e.2 d)
                       d' l) = false) as Hstay.
  { induction l as [|e l IH]; intros d' Hr; simpl; [done|].
    apply IH. by apply run_task_stays_stopped. }
  revert d. induction ready as [|e ready IH]; intros d; simpl.
  - by apply elem_of_nil in Hin.
  - apply elem_of_cons in Hin as [<-|Hin]; [|by apply IH].
    apply Hstay. simpl. by apply run_task_exit.
Qed.

(** A pass whose drain ends with [running] cleared leaves the loop. *)
Lemma stopped_pass_leaves (fuel : nat) (fl : flush_result)
    (d d1 : display world) :
  drain world run fuel d = Some d1 -> running d1 = false ->
  exists d2,
    until_wait world run dispatch_pending fuel fl d = Some (Left d2)
    /\ running d2 = false
    /\ ran d2 = ran d1
    /\ rearmed d2 = rearmed d.
Proof.
  intros Hd Hr. unfold until_wait. rewrite Hd.
  destruct (dispatch_pending (state d1)) as [w acts].
  set (d2 := foldl _ _ acts).
  assert (running d2 = false) as Hr2 by (by apply perform_all_stays_stopped).
  rewrite Hr2. exists d2. split; [done|]. split; [done|]. unfold d2.
  rewrite perform_all_ran, perform_all_rearmed. split; [done|].
  apply (drain_rearmed fuel d d1 Hd).
Qed.

End exit_facts.




(** X2.  [handle_display_data] asks for the loop to end, on its own
    account, exactly when the descriptor reports an error or a hangup,
    when [wl_display_dispatch] fails, or when [wl_display_flush] fails
    with something other than [EAGAIN]; on error or hangup it neither
    dispatches nor flushes.  The write interest is dropped only after a
    flush that returned 0. *)
Theorem handle_display_data_exits_when_fatal (events : N)
    (dispatch : DisplayTask.dispatch_result)
    (flush : DisplayTask.flush_return) (st : DisplayTask.fd_state) :
  let r := DisplayTask.handle_display_data events dispatch flush st in
  let hangup := DisplayTask.has events DisplayTask.EPOLLERR
                || DisplayTask.has events DisplayTask.EPOLLHUP in
  r.2 = (if negb hangup && DisplayTask.has events DisplayTask.EPOLLIN
         then DisplayTask.handler_actions dispatch else [])
        ++ (if DisplayTask.fatal events dispatch flush
            then [Scheduler.AExit] else [])
  /\ DisplayTask.display_fd_events r.1 = events
  /\ (DisplayTask.interest r.1 <> DisplayTask.interest st ->
      DisplayTask.fatal events dispatch flush = false
      /\ DisplayTask.has events DisplayTask.EPOLLOUT = true
      /\ flush = DisplayTask.Sent 0
      /\ DisplayTask.interest r.1 = 25%N).
Proof.
  cbv zeta. unfold DisplayTask.handle_display_data, DisplayTask.fatal.
  destruct (DisplayTask.has events DisplayTask.EPOLLERR);
    destruct (DisplayTask.has events DisplayTask.EPOLLHUP);
    cbn [orb negb andb fst snd]; try (by repeat split).
  destruct (DisplayTask.has events DisplayTask.EPOLLIN);
    destruct (DisplayTask.dispatch_failed dispatch);
    cbn [orb negb andb fst snd]; try (by repeat split);
    destruct (DisplayTask.has events DisplayTask.EPOLLOUT);
    cbn [orb negb andb fst snd]; rewrite ?app_nil_r; try (by repeat split);
    destruct flush as [[|b]| |]; cbn [fst snd DisplayTask.interest
                                        DisplayTask.display_fd_events];
    rewrite ?app_nil_r; by repeat split.
Qed.

(** X3.  An error or hangup reported for the display's descriptor ends
    [display_run]: the task clears [running] whatever the other ready
    tasks of that wake-up do, and the next pass drains the deferred queue
    and leaves the loop before it flushes or waits. *)
Theorem display_run_stops_after_hangup {W : Type}
    (display_task : Scheduler.task)
    (dispatch : W -> W * DisplayTask.dispatch_result)
    (flush : W -> DisplayTask.flush_return)
    (other : Scheduler.task -> N -> W -> W * list Scheduler.action)
    (dispatch_pending : DisplayTask.fd_state * W
                        -> (DisplayTask.fd_state * W) * list Scheduler.action)
    (fuel : nat) (fl1 fl2 : Scheduler.flush_result)
    (ready ready2 : list (Scheduler.task * N))
    (script : list (Scheduler.flush_result * list (Scheduler.task * N)))
    (events : N)
    (d d1 : Scheduler.display (DisplayTask.fd_state * W)) :
  let run := DisplayTask.run_with_display_task display_task dispatch flush
               other in
  DisplayTask.has events DisplayTask.EPOLLERR
  || DisplayTask.has events DisplayTask.EPOLLHUP = true ->
  (display_task, events) ∈ ready ->
  Scheduler.until_wait _ run dispatch_pending fuel fl1 d
  = Some (Scheduler.AtWait d1) ->
  is_Some (Scheduler.drain _ run fuel
             (Scheduler.dispatch_events _ run ready d1)) ->
  exists d',
    Scheduler.display_run_loop _ run dispatch_pending fuel
      ((fl1, ready) :: (fl2, ready2) :: script) d = Some d'
    /\ Scheduler.running d' = false
    /\ Scheduler.rearmed d' = Scheduler.rearmed d1.
Proof.
  intros run Herr Hin Hw [d2 Hd2].
  set (dw := Scheduler.dispatch_events _ run ready d1) in *.
  assert (Scheduler.running dw = false) as Hstop.
  { apply (dispatch_events_stops run ready display_task events); [done|].
    intros [st w]. unfold run, DisplayTask.run_with_display_task.
    rewrite bool_decide_eq_true_2 by done. rewrite Herr.
    unfold DisplayTask.handle_display_data. rewrite Herr.
    cbn. apply elem_of_cons. by left. }
  assert (Scheduler.rearmed dw = Scheduler.rearmed d1) as Hre.
  { unfold dw, Scheduler.dispatch_events. clear.
    revert d1. induction ready as [|e l IH]; intros d1; simpl; [done|].
    by rewrite IH, run_task_rearmed. }
  assert (Scheduler.running d2 = false) as Hstop2
    by (by apply (drain_stays_stopped run fuel dw d2)).
  destruct (stopped_pass_leaves run dispatch_pending fuel fl2 dw d2 Hd2 Hstop2)
    as (d' & Hu & Hr' & _ & Hre').
  exists d'. split; [|by rewrite Hre'].
  cbn [Scheduler.display_run_loop]. unfold Scheduler.iteration.
  rewrite Hw. fold dw. by rewrite Hu.
Qed.

Lemma handle_display_data_exits_when_fatal_witness :
  DisplayTask.interest
    (DisplayTask.handle_display_data 4 (DisplayTask.Dispatched [] false)
       (DisplayTask.Sent 0) (DisplayTask.FdState 0 29)).1
  = 25%N.
Proof.
  refine (proj2 (proj2 (proj2 (proj2 (proj2
            (handle_display_data_exits_when_fatal 4
               (DisplayTask.Dispatched [] false) (DisplayTask.Sent 0)
               (DisplayTask.FdState 0 29))) _)))).
  vm_compute. discriminate.
Defined.

Lemma display_run_stops_after_hangup_witness :
  exists d',
    Scheduler.display_run_loop _
      (DisplayTask.run_with_display_task 0%nat sample_dispatch sample_flush
         sample_other)
      sample_dispatch_pending 10
      [(Scheduler.FlushOk, [(1%nat, 1%N); (0%nat, 16%N)]);
       (Scheduler.FlushOk, [])]
      sample_connection
    = Some d'
    /\ Scheduler.running d' = false.
Proof.
  edestruct (display_run_stops_after_hangup 0%nat sample_dispatch sample_flush
               sample_other sample_dispatch_pending 10 Scheduler.FlushOk
               Scheduler.FlushOk [(1%nat, 1%N); (0%nat, 16%N)] [] [] 16%N
               sample_connection) as (d' & Hrun & Hstop & _).
  - reflexivity.
  - apply elem_of_cons. right. apply elem_of_cons. by left.
  - reflexivity.
  - eexists. reflexivity.
  - exists d'. by split.
Defined.


(** ** Scheduling, flushing and resizing a window *)

Section window_facts.
Import Redraw Window.

Variable prepare : nat -> rectangle -> bool.
Variable swap : nat -> Z * Z -> rectangle -> rectangle.
Variable resize_handler : nat -> Z -> Z -> list rectangle -> list rectangle.

(** A loop over the surfaces keeps what its body keeps. *)
Lemma for_each_keeps {A : Type} (f : window -> A) (skip : bool)
    (body : nat -> window -> window) (w : window) :
  (forall i w, f (body i w) = f w) ->
  f (for_each_surface skip body w) = f w.
Proof.
  intros Hb. unfold for_each_surface.
  generalize (seq 0 (length (subsurface_list w))). intros l.
  revert w. induction l as [|i l IH]; intros w; simpl; [done|].
  destruct (skip && _); [by apply IH|]. by rewrite IH.
Qed.

(** A loop whose body rewrites, in a list read off the window, the entry
    of the surface it is given and no other, rewrites every entry it does
    not skip. *)
Lemma for_each_pointwise_of {B : Type} (L : window -> list B) (skip : bool)
    (body : nat -> window -> window) (G : nat -> B -> B) (w : window)
    (j : nat) :
  length (L w) = length (subsurface_list w) ->
  (forall i w, L (body i w) = alter (G i) i (L w)
               /\ main_surface (body i w) = main_surface w) ->
  L (for_each_surface skip body w) !! j
  = (if skip && bool_decide (j = main_surface w) then id else G j)
    <$> L w !! j.
Proof.
  intros Hlen0 Hb. unfold for_each_surface.
  assert (forall l w,
            NoDup l ->
            let w' := foldl (fun w i =>
                               if skip && bool_decide (i = main_surface w)
                               then w else body i w) w l in
            main_surface w' = main_surface w
            /\ L w' !! j
               = (if bool_decide (j ∈ l)
                     && negb (skip && bool_decide (j = main_surface w))
                  then G j else id) <$> L w !! j) as Hloop.
  { induction l as [|i l IH]; intros w0 Hnd; cbn [foldl].
    - split; [done|].
      rewrite bool_decide_eq_false_2 by apply not_elem_of_nil.
      by destruct (L w0 !! j).
    - apply NoDup_cons in Hnd as [Hi Hnd].
      set (w1 := if skip && bool_decide (i = main_surface w0)
                 then w0 else body i w0).
      assert (main_surface w1 = main_surface w0
              /\ L w1
                 = alter (if skip && bool_decide (i = main_surface w0)
                          then id else G i) i (L w0))
        as [Hm1 Hl1].
      { unfold w1. destruct (skip && _).
        - split; [done|]. by rewrite list_alter_id.
        - destruct (Hb i w0) as [-> ->]. done. }
      destruct (IH w1 Hnd) as (Hm & Hlk). cbv zeta in Hm, Hlk.
      rewrite Hm, Hlk, Hm1, Hl1.
      split; [done|].
      destruct (decide (j = i)) as [->|Hne].
      + rewrite list_lookup_alter, decide_True by done.
        rewrite (bool_decide_eq_false_2 (i ∈ l)) by done.
        rewrite (bool_decide_eq_true_2 (i ∈ i :: l)) by (apply elem_of_cons; by left).
        cbn [andb].
        destruct (skip && bool_decide (i = main_surface w0));
          by destruct (L w0 !! i).
      + rewrite list_lookup_alter_ne by done.
        assert (bool_decide (j ∈ i :: l) = bool_decide (j ∈ l)) as ->; [|done].
        apply bool_decide_ext. rewrite elem_of_cons.
        split; [by intros [?|?]|by right]. }
  destruct (Hloop (seq 0 (length (subsurface_list w))) w (NoDup_seq _ _))
    as (_ & ->).
  destruct (L w !! j) as [s|] eqn:Hs; [|done].
  rewrite bool_decide_eq_true_2.
  - cbn [andb]. by destruct (skip && _).
  - apply elem_of_seq. apply lookup_lt_Some in Hs. lia.
Qed.

Lemma for_each_pointwise (skip : bool) (body : nat -> window -> window)
    (F : nat -> surface -> surface) (w : window) (j : nat) :
  (forall i w, subsurface_list (body i w) = alter (F i) i (subsurface_list w)
               /\ main_surface (body i w) = main_surface w) ->
  subsurface_list (for_each_surface skip body w) !! j
  = (if skip && bool_decide (j = main_surface w) then id else F j)
    <$> subsurface_list w !! j.
Proof. intros Hb. by apply (for_each_pointwise_of subsurface_list). Qed.

Lemma schedule_redraw_task_once (w : window) :
  deferrals (window_schedule_redraw_task w)
  = (deferrals w + if redraw_task_scheduled w then 0 else 1)%nat
  /\ redraw_task_scheduled (window_schedule_redraw_task w) = true
  /\ geometry (window_schedule_redraw_task w) = geometry w
  /\ subsurface_list (window_schedule_redraw_task w) = subsurface_list w.
Proof.
  unfold window_schedule_redraw_task, deferrals.
  destruct (redraw_task_scheduled w) eqn:Hs.
  - by rewrite Nat.add_0_r.
  - cbn [log emit set_redraw_task_scheduled redraw_task_scheduled].
    by rewrite filter_app, length_app.
Qed.

Lemma window_schedule_redraw_once (w : window) :
  deferrals (window_schedule_redraw w)
  = (deferrals w + if redraw_task_scheduled w then 0 else 1)%nat
  /\ redraw_task_scheduled (window_schedule_redraw w) = true
  /\ geometry (window_schedule_redraw w) = geometry w.
Proof.
  unfold window_schedule_redraw.
  set (w1 := for_each_surface _ _ w).
  assert (deferrals w1 = deferrals w) as Hd
    by (by apply (for_each_keeps deferrals)).
  assert (redraw_task_scheduled w1 = redraw_task_scheduled w) as Hs
    by (by apply (for_each_keeps redraw_task_scheduled)).
  assert (geometry w1 = geometry w) as Hg
    by (by apply (for_each_keeps geometry)).
  destruct (schedule_redraw_task_once w1) as (-> & -> & -> & _).
  by rewrite Hd, Hs, Hg.
Qed.

Lemma schedule_once (q : schedule_request) (w : window) :
  deferrals (schedule w q)
  = (deferrals w + if redraw_task_scheduled w then 0 else 1)%nat
  /\ redraw_task_scheduled (schedule w q) = true.
Proof.
  destruct q as [[i|]|width height]; cbn [schedule request_redraw].
  - unfold widget_schedule_redraw.
    by destruct (schedule_redraw_task_once
                   (update i (set_s_redraw_needed true) w)) as (-> & -> & _).
  - by destruct (window_schedule_redraw_once w) as (-> & -> & _).
  - unfold window_schedule_resize. cbv zeta.
    set (w3 := set_resize_needed true _).
    destruct (window_schedule_redraw_once w3) as (-> & -> & _).
    split; [|done]. unfold w3, deferrals.
    cbn [log redraw_task_scheduled set_resize_needed set_pending_allocation].
    by destruct (_ =? 0).
Qed.

Lemma window_schedule_resize_shape (width height : Z) (w : window) :
  let w' := window_schedule_resize width height w in
  let m := latched_minimum width height w in
  min_allocation w' = m
  /\ pending_allocation w'
     = Rectangle 0 0 (Z.max width (Redraw.width m))
         (Z.max height (Redraw.height m))
  /\ resize_needed w' = true
  /\ (saved_allocation w', fullscreen w', maximized w', has_frame w',
      main_surface w')
     = (saved_allocation w, fullscreen w, maximized w, has_frame w,
        main_surface w).
Proof.
  cbv zeta. unfold window_schedule_resize. cbv zeta.
  set (w3 := set_resize_needed true _).
  destruct (window_schedule_redraw_once w3) as (_ & _ & Hg).
  unfold geometry in Hg. injection Hg as -> -> -> -> -> -> -> -> _.
  unfold w3, latched_minimum.
  destruct (Z.eqb_spec (Redraw.width (min_allocation w)) 0) as [H0|H0];
    cbn [min_allocation pending_allocation set_min_allocation
         set_pending_allocation set_resize_needed resize_needed
         saved_allocation fullscreen maximized has_frame main_surface
         Redraw.width Redraw.height Redraw.x Redraw.y].
  - repeat split; try done; repeat case_match; try lia; f_equal; lia.
  - repeat split; try done; repeat case_match; try lia; f_equal; lia.
Qed.

Lemma surface_flush_shape (i : nat) (w : window) :
  subsurface_list (surface_flush swap i w)
  = alter (flushed swap i) i (subsurface_list w)
  /\ main_surface (surface_flush swap i w) = main_surface w
  /\ log (surface_flush swap i w)
     = log w ++ (if has_cairo_surface i w then [RCommit i] else []).
Proof.
  unfold surface_flush, has_cairo_surface.
  destruct (subsurface_list w !! i) as [s|] eqn:Hs.
  - destruct (cairo_surface s) as [size|] eqn:Hc.
    + rewrite bool_decide_eq_true_2 by eauto.
      split; [|done]. unfold update. cbn [subsurface_list set_subsurface_list emit].
      apply list_eq. intros j. rewrite !list_lookup_alter.
      destruct (decide (i = j)) as [<-|]; [|done].
      rewrite Hs. cbn. unfold flushed. by rewrite Hc.
    + rewrite bool_decide_eq_false_2 by (by intros [? ?]).
      rewrite app_nil_r. split; [|done].
      apply list_eq. intros j. rewrite list_lookup_alter.
      destruct (decide (i = j)) as [<-|]; [|done].
      rewrite Hs. cbn. unfold flushed. by rewrite Hc.
  - rewrite app_nil_r. split; [|done].
    apply list_eq. intros j. rewrite list_lookup_alter.
    destruct (decide (i = j)) as [<-|]; [|done]. by rewrite Hs.
Qed.

Lemma commits_agree (w1 w : window) (l : list nat) :
  (forall j, j ∈ l -> has_cairo_surface j w1 = has_cairo_surface j w) ->
  commits w1 l = commits w l.
Proof.
  unfold commits. intros H. f_equal.
  induction l as [|j l IH]; [done|].
  rewrite !filter_cons, (H j) by (apply elem_of_cons; by left).
  rewrite IH; [done|]. intros k Hk. apply H. apply elem_of_cons. by right.
Qed.

Lemma flush_loop_log (l : list nat) (w : window) :
  NoDup l ->
  let w' := foldl (fun w i => if true && bool_decide (i = main_surface w)
                              then w else surface_flush swap i w) w l in
  main_surface w' = main_surface w
  /\ log w' = log w ++ commits w (filter (fun i => i <> main_surface w) l).
Proof.
  revert w. induction l as [|i l IH]; intros w Hnd; cbn [foldl].
  - split; [done|]. unfold commits. by rewrite !filter_nil, app_nil_r.
  - apply NoDup_cons in Hnd as [Hi Hnd]. cbn [andb].
    destruct (IH (if bool_decide (i = main_surface w) then w
                  else surface_flush swap i w) Hnd) as [Hm Hl].
    cbv zeta in Hm, Hl. cbn [andb] in Hm, Hl. rewrite Hm, Hl. clear Hm Hl.
    rewrite filter_cons.
    destruct (decide (i = main_surface w)) as [Heq|Hne].
    + rewrite bool_decide_eq_true_2 by done.
      by rewrite decide_False by (intros H; by apply H).
    + rewrite bool_decide_eq_false_2 by done.
      rewrite decide_True by done.
      destruct (surface_flush_shape i w) as (Hls & -> & ->).
      split; [done|]. rewrite <- app_assoc. f_equal.
      unfold commits at 2. rewrite filter_cons.
      assert (commits (surface_flush swap i w)
                (filter (fun i => i <> main_surface w) l)
              = commits w (filter (fun i => i <> main_surface w) l)) as ->.
      { apply commits_agree. intros j Hj.
        apply list_elem_of_filter in Hj as [_ Hj].
        unfold has_cairo_surface. rewrite Hls.
        rewrite list_lookup_alter_ne; [done|]. by intros ->. }
      destruct (has_cairo_surface i w) eqn:Hc.
      * by rewrite decide_True by done.
      * by rewrite decide_False by (by intros ?).
Qed.

End window_facts.

(** X4.  However many redraws and resizes are asked for between two runs
    of the redraw task, the task is handed to [display_defer] once, and
    not at all when it is already queued: its link is never inserted into
    the deferred list a second time. *)
Theorem redraw_task_is_deferred_once (reqs : list Window.schedule_request)
    (w : Redraw.window) :
  let w' := foldl Window.schedule w reqs in
  Window.deferrals w'
  = (Window.deferrals w
     + if Redraw.redraw_task_scheduled w || bool_decide (reqs = [])
       then 0 else 1)%nat
  /\ (reqs <> [] -> Redraw.redraw_task_scheduled w' = true).
Proof.
  cbv zeta. revert w. induction reqs as [|q reqs IH]; intros w.
  - cbn. rewrite orb_true_r. split; [lia|done].
  - cbn [foldl]. destruct (schedule_once q w) as [Hd Hs].
    destruct (IH (Window.schedule w q)) as [IHd IHs].
    rewrite IHd, Hd, Hs. cbn [orb].
    rewrite (bool_decide_eq_false_2 (q :: reqs = [])) by done.
    rewrite orb_false_r. split; [lia|]. intros _.
    destruct reqs as [|q' reqs]; [done|]. by apply IHs.
Qed.

Lemma redraw_task_is_deferred_once_witness :
  Redraw.redraw_task_scheduled
    (foldl Window.schedule sample_idle
       [Window.AskRedraw (Redraw.OfWidget 0); Window.AskResize 10 10;
        Window.AskRedraw Redraw.OfWindow])
  = true.
Proof.
  refine (proj2 (redraw_task_is_deferred_once
                   [Window.AskRedraw (Redraw.OfWidget 0);
                    Window.AskResize 10 10;
                    Window.AskRedraw Redraw.OfWindow] sample_idle) _).
  discriminate.
Defined.

(** X6.  [window_schedule_resize] never leaves a pending size below the
    window's minimum: the minimum is taken from the first request (at
    least 200x200 for a framed window) and kept from then on, and a
    smaller request is raised to it. *)
Theorem window_schedule_resize_respects_minimum (width height : Z)
    (w : Redraw.window) :
  let w' := Redraw.window_schedule_resize width height w in
  let m := Window.latched_minimum width height w in
  Redraw.min_allocation w' = m
  /\ Redraw.pending_allocation w'
     = Redraw.Rectangle 0 0 (Z.max width (Redraw.width m))
         (Z.max height (Redraw.height m))
  /\ Redraw.width m <= Redraw.width (Redraw.pending_allocation w')
  /\ Redraw.height m <= Redraw.height (Redraw.pending_allocation w')
  /\ Redraw.resize_needed w' = true
  /\ (Redraw.width (Redraw.min_allocation w) <> 0 ->
      m = Redraw.min_allocation w).
Proof.
  cbv zeta.
  destruct (window_schedule_resize_shape width height w) as (Hm & Hp & Hr & _).
  cbv zeta in Hm, Hp. rewrite Hm, Hp, Hr. cbn [Redraw.width Redraw.height].
  repeat split; try lia.
  unfold Window.latched_minimum. intros H0.
  by destruct (Z.eqb_spec (Redraw.width (Redraw.min_allocation w)) 0).
Qed.

Lemma window_schedule_resize_respects_minimum_witness :
  Window.latched_minimum 100 100 (Window.win sample_maximized)
  = Redraw.Rectangle 0 0 300 200.
Proof.
  refine (eq_trans
            (proj2 (proj2 (proj2 (proj2 (proj2
               (window_schedule_resize_respects_minimum 100 100
                  (Window.win sample_maximized)))))) _) _).
  - vm_compute. discriminate.
  - reflexivity.
Defined.

(** X5.  [window_flush] commits exactly the surfaces that hold a
    drawable, the sub-surfaces in list order and the main surface last,
    and leaves no surface with a drawable; each committed surface gets
    the server allocation that [swap] reports. *)
Theorem window_flush_commits_main_last
    (swap : nat -> Z * Z -> Redraw.rectangle -> Redraw.rectangle)
    (w : Redraw.window) :
  let w' := Redraw.window_flush swap w in
  Redraw.log w'
  = Redraw.log w
    ++ Window.commits w (Window.sub_surfaces w ++ [Redraw.main_surface w])
  /\ (forall j,
         Redraw.subsurface_list w' !! j
         = Window.flushed swap j <$> Redraw.subsurface_list w !! j)
  /\ (forall j s, Redraw.subsurface_list w' !! j = Some s ->
                  Redraw.cairo_surface s = None).
Proof.
  cbv zeta. unfold Redraw.window_flush.
  set (w1 := Redraw.for_each_surface true (Redraw.surface_flush swap) w).
  destruct (flush_loop_log swap (seq 0 (length (Redraw.subsurface_list w))) w
              (NoDup_seq _ _)) as [Hm1 Hl1].
  cbv zeta in Hm1, Hl1.
  change (foldl _ w (seq 0 (length (Redraw.subsurface_list w)))) with w1
    in Hm1, Hl1.
  assert (forall j, Redraw.subsurface_list w1 !! j
                    = (if bool_decide (j = Redraw.main_surface w) then id
                       else Window.flushed swap j)
                      <$> Redraw.subsurface_list w !! j) as Hlk1.
  { intros j. unfold w1.
    rewrite (for_each_pointwise true (Redraw.surface_flush swap)
               (Window.flushed swap) w j); [done|].
    intros i w0. by destruct (surface_flush_shape swap i w0) as (-> & -> & _). }
  destruct (surface_flush_shape swap (Redraw.main_surface w) w1)
    as (Hls & _ & Hlog).
  assert (forall j,
             Redraw.subsurface_list
               (Redraw.surface_flush swap (Redraw.main_surface w) w1) !! j
             = Window.flushed swap j <$> Redraw.subsurface_list w !! j) as Hlk.
  { intros j. rewrite Hls, list_lookup_alter.
    destruct (decide (Redraw.main_surface w = j)) as [<-|Hne].
    - rewrite Hlk1, bool_decide_eq_true_2 by done.
      by destruct (Redraw.subsurface_list w !! Redraw.main_surface w).
    - rewrite Hlk1. by rewrite bool_decide_eq_false_2 by (by intros ->). }
  split; [|split].
  - rewrite Hlog, Hl1, <- app_assoc. f_equal.
    unfold Window.commits, Window.sub_surfaces.
    rewrite filter_app, fmap_app. f_equal.
    rewrite filter_cons, filter_nil.
    assert (Redraw.has_cairo_surface (Redraw.main_surface w) w1
            = Redraw.has_cairo_surface (Redraw.main_surface w) w) as ->.
    { unfold Redraw.has_cairo_surface. rewrite Hlk1.
      rewrite bool_decide_eq_true_2 by done.
      by destruct (Redraw.subsurface_list w !! Redraw.main_surface w). }
    destruct (Redraw.has_cairo_surface (Redraw.main_surface w) w).
    + by rewrite decide_True by done.
    + by rewrite decide_False by (by intros ?).
  - exact Hlk.
  - intros j s. rewrite Hlk.
    destruct (Redraw.subsurface_list w !! j) as [s0|]; [|done].
    intros [= <-]. unfold Window.flushed.
    by destruct (Redraw.cairo_surface s0) eqn:Hc.
Qed.

Lemma window_flush_commits_main_last_witness :
  Redraw.has_cairo_surface 0 sample_drawn = true
  /\ Redraw.cairo_surface
       (Redraw.set_cairo_surface None
          (Redraw.set_frame_cb (Some 0%nat) (sample_main None)))
     = None.
Proof.
  split; [reflexivity|].
  exact (proj2 (proj2 (window_flush_commits_main_last sample_swap
                         sample_drawn))
           0%nat _ eq_refl).
Defined.

(** ** Synchronisation modes and the saved allocation *)

Section mode_facts.
Import Redraw Window.

Variable prepare : nat -> rectangle -> bool.
Variable swap : nat -> Z * Z -> rectangle -> rectangle.
Variable resize_handler : nat -> Z -> Z -> list rectangle -> list rectangle.

Lemma modes_update (i : nat) (f : surface -> surface) (w : window) :
  (forall s, mode (f s) = mode s) -> modes (update i f w) = modes w.
Proof.
  intros Hf. unfold modes, update. cbn [subsurface_list set_subsurface_list].
  rewrite (list_fmap_alter mode f id).
  - by apply list_alter_id.
  - apply Forall_forall. intros s _. apply Hf.
Qed.

Lemma modes_length (w : window) :
  length (modes w) = length (subsurface_list w).
Proof. unfold modes. by rewrite length_fmap. Qed.

Lemma modes_surface_redraw (k : nat) (w : window) :
  modes (surface_redraw prepare k w).1 = modes w
  /\ placement (surface_redraw prepare k w).1 = placement w.
Proof.
  unfold surface_redraw, widget_get_cairo_surface.
  repeat case_match; cbn [fst].
  all: split; [|done].
  all: try done.
  all: repeat (first [rewrite modes_update by done
                     |progress change (modes (emit ?r ?w)) with (modes w)
                     |progress change (modes (set_next_cb ?r ?w))
                        with (modes w)]).
  all: done.
Qed.

Lemma modes_surface_flush (k : nat) (w : window) :
  modes (surface_flush swap k w) = modes w
  /\ placement (surface_flush swap k w) = placement w.
Proof.
  destruct (surface_flush_shape swap k w) as (Hl & Hm & _).
  split.
  - unfold modes. rewrite Hl. rewrite (list_fmap_alter mode _ id).
    + by apply list_alter_id.
    + apply Forall_forall. intros s _. unfold flushed. by case_match.
  - unfold surface_flush. by repeat case_match.
Qed.

Lemma settle_shape (i : nat) (w : window) :
  subsurface_list (surface_set_synchronized_default i w)
  = alter settled i (subsurface_list w)
  /\ placement (surface_set_synchronized_default i w) = placement w.
Proof.
  unfold surface_set_synchronized_default.
  destruct (subsurface_list w !! i) as [s|] eqn:Hs.
  - assert (forall w', subsurface_list w' = subsurface_list w ->
                       settled s = s -> w' = w ->
              subsurface_list w' = alter settled i (subsurface_list w)) as Hsame.
    { intros w' _ He ->. apply list_eq. intros j.
      rewrite list_lookup_alter. destruct (decide (i = j)) as [<-|]; [|done].
      rewrite Hs. cbn. by rewrite He. }
    unfold settled in Hsame.
    destruct (negb (is_sub s)) eqn:Hsub; [split; [by apply Hsame|done]|].
    destruct (bool_decide _) eqn:Hd; [split; [by apply Hsame|done]|].
    split; [|done]. unfold update.
    cbn [subsurface_list set_subsurface_list emit].
    apply list_eq. intros j. rewrite !list_lookup_alter.
    destruct (decide (i = j)) as [<-|]; [|done].
    rewrite Hs. cbn. unfold settled. by rewrite Hsub, Hd.
  - split; [|done]. apply list_eq. intros j. rewrite list_lookup_alter.
    destruct (decide (i = j)) as [<-|]; [|done]. by rewrite Hs.
Qed.

Lemma modes_surface_set_synchronized (i : nat) (w : window) :
  modes (surface_set_synchronized i w) = alter forced i (modes w)
  /\ placement (surface_set_synchronized i w) = placement w.
Proof.
  unfold surface_set_synchronized, modes.
  assert (forall s, subsurface_list w !! i = Some s -> forced (mode s) = mode s ->
            mode <$> subsurface_list w
            = alter forced i (mode <$> subsurface_list w)) as Hsame.
  { intros s Hs He. apply list_eq. intros j.
    rewrite list_lookup_alter. destruct (decide (i = j)) as [<-|]; [|done].
    rewrite list_lookup_fmap, Hs. cbn. by rewrite He. }
  destruct (subsurface_list w !! i) as [s|] eqn:Hs.
  - unfold forced, mode in Hsame. cbn [fst snd] in Hsame.
    destruct (is_sub s) eqn:Hsub; cbn [negb].
    + destruct (synchronized s) eqn:Hy.
      * split; [|done]. apply (Hsame s eq_refl). by rewrite Hsub, Hy.
      * split; [|done]. unfold update.
        cbn [subsurface_list set_subsurface_list emit].
        apply list_eq. intros j.
        rewrite list_lookup_fmap, !list_lookup_alter, list_lookup_fmap.
        destruct (decide (i = j)) as [<-|]; [|by rewrite list_lookup_fmap].
        rewrite Hs. cbn. unfold forced, mode. cbn. by rewrite Hsub, Hy.
    + split; [|done]. apply (Hsame s eq_refl). rewrite Hsub.
      by rewrite orb_false_r.
  - split; [|done]. apply list_eq. intros j.
    rewrite list_lookup_alter. destruct (decide (i = j)) as [<-|]; [|done].
    by rewrite list_lookup_fmap, Hs.
Qed.

Lemma modes_window_schedule_redraw (w : window) :
  modes (window_schedule_redraw w) = modes w
  /\ placement (window_schedule_redraw w) = placement w.
Proof.
  unfold window_schedule_redraw, window_schedule_redraw_task.
  set (w1 := for_each_surface _ _ w).
  assert (modes w1 = modes w) as Hm.
  { apply (for_each_keeps modes). intros i w0. by apply modes_update. }
  assert (placement w1 = placement w) as Hp
    by (by apply (for_each_keeps placement)).
  by destruct (redraw_task_scheduled w1).
Qed.

Lemma modes_surface_resize (i : nat) (w : window) :
  modes (surface_resize resize_handler i w) = modes w
  /\ placement (surface_resize resize_handler i w) = placement w.
Proof.
  unfold surface_resize.
  destruct (subsurface_list w !! i) as [s|]; [|done].
  cbv zeta.
  set (w1 := set_subsurface_list _ w).
  assert (modes w1 = modes w /\ placement w1 = placement w) as [Hm1 Hp1].
  { split; [|done]. unfold modes, w1, relayout.
    cbn [subsurface_list set_subsurface_list].
    rewrite fmap_imap. rewrite <- (imap_const mode).
    by apply imap_ext. }
  destruct (subsurface_list w1 !! i) as [s1|]; [|done].
  set (w2 := if _ && _ then _ else w1).
  assert (modes w2 = modes w /\ placement w2 = placement w) as [Hm2 Hp2]
    by (unfold w2; by destruct (_ && _)).
  set (w3 := if _ || _ then _ else w2).
  assert (modes w3 = modes w /\ placement w3 = placement w) as [Hm3 Hp3].
  { unfold w3. destruct (negb (width (allocation s1) =? _) || _); [|done].
    destruct (modes_window_schedule_redraw w2) as [-> ->]. done. }
  split; [|done]. by rewrite modes_update.
Qed.

Lemma modes_window_do_resize (w : window) (j : nat) :
  modes (window_do_resize resize_handler w) !! j
  = (if bool_decide (j = main_surface w) then id else forced)
    <$> modes w !! j
  /\ placement (window_do_resize resize_handler w)
     = (if negb (fullscreen w) && negb (maximized w)
        then pending_allocation w else saved_allocation w,
        min_allocation w, pending_allocation w, fullscreen w, maximized w,
        has_frame w, main_surface w).
Proof.
  unfold window_do_resize. cbv zeta.
  set (w1 := update (main_surface w) _ w).
  assert (modes w1 = modes w /\ placement w1 = placement w) as [Hm1 Hp1].
  { split; [|done]. by apply modes_update. }
  set (w2 := surface_resize resize_handler (main_surface w1) w1).
  destruct (modes_surface_resize (main_surface w1) w1) as [Hm2 Hp2].
  fold w2 in Hm2, Hp2. rewrite Hm1 in Hm2. rewrite Hp1 in Hp2.
  set (w3 := for_each_surface true _ w2).
  assert (placement w3 = placement w) as Hp3.
  { rewrite <- Hp2. apply (for_each_keeps placement). intros i w0.
    destruct (modes_surface_resize i (surface_set_synchronized i w0)) as [_ ->].
    by destruct (modes_surface_set_synchronized i w0) as [_ ->]. }
  assert (modes w3 !! j
          = (if bool_decide (j = main_surface w) then id else forced)
            <$> modes w !! j) as Hm3.
  { unfold w3.
    rewrite (for_each_pointwise_of modes true _ (fun _ => forced) w2 j).
    - rewrite Hm2. cbn [andb].
      by assert (main_surface w2 = main_surface w) as -> by (by injection Hp2).
    - apply modes_length.
    - intros i w0.
      destruct (modes_surface_resize i (surface_set_synchronized i w0))
        as [-> Hp].
      destruct (modes_surface_set_synchronized i w0) as [-> Hp'].
      split; [done|]. rewrite Hp' in Hp. by injection Hp. }
  unfold placement in Hp3. injection Hp3 as Hs Hmin Hpen Hf Hx Hh Hmain.
  rewrite Hf, Hx. destruct (negb (fullscreen w) && negb (maximized w)).
  - split; [exact Hm3|]. unfold placement.
    cbn [saved_allocation min_allocation pending_allocation fullscreen
         maximized has_frame main_surface set_saved_allocation].
    by rewrite Hmin, Hpen, Hf, Hx, Hh, Hmain.
  - split; [exact Hm3|]. unfold placement.
    by rewrite Hs, Hmin, Hpen, Hf, Hx, Hh, Hmain.
Qed.

End mode_facts.

(** X7.  A run of the redraw task that gets past the resize throttle and
    does not end in [undo_resize] returns with every sub-surface in its
    default synchronisation mode, whatever mode the resize had put it
    in. *)
Theorem redraw_pass_restores_default_sync
    (prepare : nat -> Redraw.rectangle -> bool)
    (swap : nat -> Z * Z -> Redraw.rectangle -> Redraw.rectangle)
    (resize_handler : nat -> Z -> Z -> list Redraw.rectangle
                      -> list Redraw.rectangle)
    (w : Redraw.window) :
  Redraw.resize_needed w && Redraw.main_frame_pending w = false ->
  Window.undoes prepare resize_handler w = false ->
  let o := Redraw.idle_redraw prepare swap resize_handler w in
  o = Redraw.Returned (Redraw.final o)
  /\ forall j s,
       Redraw.subsurface_list (Redraw.final o) !! j = Some s ->
       Redraw.is_sub s = true ->
       Redraw.synchronized s = Redraw.synchronized_default s.
Proof.
  intros Hthrottle Hundo. cbv zeta.
  unfold Window.undoes in Hundo. cbv zeta in Hundo.
  unfold Redraw.idle_redraw.
  set (w0 := Redraw.set_redraw_task_scheduled false w) in *.
  change (Redraw.resize_needed w0) with (Redraw.resize_needed w) in *.
  change (Redraw.main_frame_pending w0) with (Redraw.main_frame_pending w)
    in *.
  rewrite Hthrottle. cbv zeta.
  assert (forall w4 : Redraw.window,
             forall j s,
               Redraw.subsurface_list
                 (Redraw.for_each_surface false
                    Redraw.surface_set_synchronized_default w4) !! j = Some s ->
               Redraw.is_sub s = true ->
               Redraw.synchronized s = Redraw.synchronized_default s)
    as Hsettled.
  { intros w4 j s.
    rewrite (for_each_pointwise false _ (fun _ => Window.settled) w4 j).
    - cbn [andb]. destruct (Redraw.subsurface_list w4 !! j) as [s0|]; [|done].
      intros [= <-]. unfold Window.settled.
      destruct (Redraw.is_sub s0) eqn:Hsub; cbn [negb]; [|by rewrite Hsub].
      destruct (bool_decide _) eqn:Hd.
      + intros _. by apply bool_decide_eq_true in Hd.
      + done.
    - intros i w'. destruct (settle_shape i w') as [-> Hp].
      split; [done|]. by injection Hp. }
  destruct (Redraw.resize_needed w) eqn:Hr.
  - cbn [andb] in Hthrottle. rewrite Hthrottle in Hundo.
    cbn [andb negb] in Hundo.
    destruct (Redraw.surface_redraw prepare _ _) as [w2 ret].
    cbn [snd] in Hundo. rewrite Hundo. cbv beta iota. cbn [andb Redraw.final].
    split; [done|]. apply Hsettled.
  - clear Hundo. destruct (Redraw.surface_redraw prepare _ _) as [w2 ret].
    cbv beta iota. cbn [andb Redraw.final].
    split; [done|]. apply Hsettled.
Qed.

Lemma redraw_pass_restores_default_sync_witness :
  Redraw.synchronized <$> Redraw.subsurface_list sample_undone !! 1%nat
  = Some true
  /\ forall j s,
       Redraw.subsurface_list
         (Redraw.final
            (Redraw.idle_redraw sample_prepare sample_swap
               sample_resize_handler
               (Redraw.widget_schedule_redraw 1 sample_undone))) !! j
       = Some s ->
       Redraw.is_sub s = true ->
       Redraw.synchronized s = Redraw.synchronized_default s.
Proof.
  split; [reflexivity|].
  exact (proj2 (redraw_pass_restores_default_sync sample_prepare sample_swap
                  sample_resize_handler
                  (Redraw.widget_schedule_redraw 1 sample_undone)
                  eq_refl eq_refl)).
Defined.

(** X8.  A run of the redraw task that ends in [undo_resize] leaves every
    sub-surface other than the main surface in synchronised mode, also
    one whose default mode is desynchronised: the modes are restored
    before the resize is undone, and undoing it forces them again. *)
Theorem undone_resize_leaves_subsurfaces_synchronized
    (prepare : nat -> Redraw.rectangle -> bool)
    (swap : nat -> Z * Z -> Redraw.rectangle -> Redraw.rectangle)
    (resize_handler : nat -> Z -> Z -> list Redraw.rectangle
                      -> list Redraw.rectangle)
    (w : Redraw.window) :
  Window.undoes prepare resize_handler w = true ->
  let o := Redraw.idle_redraw prepare swap resize_handler w in
  Redraw.main_surface (Redraw.final o) = Redraw.main_surface w
  /\ forall j s,
       j <> Redraw.main_surface w ->
       Redraw.subsurface_list (Redraw.final o) !! j = Some s ->
       Redraw.is_sub s = true ->
       Redraw.synchronized s = true.
Proof.
  intros Hundo. cbv zeta.
  unfold Window.undoes in Hundo. cbv zeta in Hundo.
  unfold Redraw.idle_redraw.
  set (w0 := Redraw.set_redraw_task_scheduled false w) in *.
  apply andb_true_iff in Hundo as [Hundo Hfail].
  apply andb_true_iff in Hundo as [Hr Hpend].
  apply negb_true_iff in Hpend. rewrite Hr, Hpend. cbn [andb]. cbv zeta.
  set (w1 := Redraw.idle_resize resize_handler w0) in *.
  assert (Redraw.main_surface w1 = Redraw.main_surface w) as Hm1.
  { unfold w1, Redraw.idle_resize.
    destruct (modes_window_do_resize resize_handler
                (Redraw.set_redraw_needed true
                   (Redraw.set_resize_needed false w0)) 0%nat) as [_ Hp].
    by injection Hp. }
  pose proof (modes_surface_redraw prepare (Redraw.main_surface w1) w1)
    as [_ Hp2].
  destruct (Redraw.surface_redraw prepare (Redraw.main_surface w1) w1)
    as [w2 ret].
  cbn [fst snd] in Hp2, Hfail. rewrite Hfail. cbv beta iota. cbn [andb].
  set (w3 := Redraw.set_redraw_needed false w2).
  assert (Window.placement w3 = Window.placement w1) as Hp3 by exact Hp2.
  set (w4 := Redraw.window_flush swap w3).
  assert (Window.placement w4 = Window.placement w1) as Hp4.
  { unfold w4, Redraw.window_flush.
    destruct (modes_surface_flush swap (Redraw.main_surface w3)
                (Redraw.for_each_surface true (Redraw.surface_flush swap) w3))
      as [_ ->].
    rewrite <- Hp3. apply (for_each_keeps Window.placement).
    intros i w'. by destruct (modes_surface_flush swap i w') as [_ ->]. }
  set (w5 := Redraw.for_each_surface false
               Redraw.surface_set_synchronized_default w4).
  assert (Window.placement w5 = Window.placement w1) as Hp5.
  { rewrite <- Hp4. apply (for_each_keeps Window.placement).
    intros i w'. by destruct (settle_shape i w') as [_ ->]. }
  assert (Redraw.main_surface w5 = Redraw.main_surface w) as Hm5.
  { rewrite <- Hm1. by injection Hp5. }
  unfold Redraw.undo_resize. cbv zeta.
  set (w6 := Redraw.set_pending_allocation _ w5).
  assert (Redraw.final
            (if (Redraw.width
                   (Redraw.pending_allocation
                      (Redraw.window_do_resize resize_handler w6)) =? 0)
                && (Redraw.height
                      (Redraw.pending_allocation
                         (Redraw.window_do_resize resize_handler w6)) =? 0)
             then Redraw.Exited (Redraw.window_do_resize resize_handler w6)
             else Redraw.Returned (Redraw.window_do_resize resize_handler w6))
          = Redraw.window_do_resize resize_handler w6) as ->
    by (by destruct (_ && _)).
  split.
  - destruct (modes_window_do_resize resize_handler w6 0%nat) as [_ Hp].
    rewrite <- Hm5. by injection Hp.
  - intros j s Hj Hs Hsub.
    destruct (modes_window_do_resize resize_handler w6 j) as [Hmode _].
    change (Redraw.main_surface w6) with (Redraw.main_surface w5) in Hmode.
    rewrite Hm5, bool_decide_eq_false_2 in Hmode by done.
    unfold Window.modes in Hmode. rewrite !list_lookup_fmap, Hs in Hmode.
    destruct (Redraw.subsurface_list w6 !! j) as [s6|]; [|done].
    cbn in Hmode. injection Hmode as Hsub' Hsync _.
    rewrite Hsync, <- Hsub', Hsub. apply orb_true_r.
Qed.

Lemma undone_resize_leaves_subsurfaces_synchronized_witness :
  Redraw.synchronized_default <$> Redraw.subsurface_list sample_undone !! 1%nat
  = Some false
  /\ forall s,
       Redraw.subsurface_list sample_undone !! 1%nat = Some s ->
       Redraw.is_sub s = true ->
       Redraw.synchronized s = true.
Proof.
  split; [reflexivity|].
  intros s.
  refine (proj2 (undone_resize_leaves_subsurfaces_synchronized sample_prepare
                   sample_swap sample_resize_handler sample_resizing eq_refl)
            1%nat s _).
  discriminate.
Defined.

Section saved_allocation_facts.
Import Redraw Window.

Variable prepare : nat -> rectangle -> bool.
Variable swap : nat -> Z * Z -> rectangle -> rectangle.
Variable resize_handler : nat -> Z -> Z -> list rectangle -> list rectangle.

(** Redrawing the sub-surfaces, flushing and restoring the modes leave
    the placement of the window alone. *)
Lemma placement_redraw_tail (failed : bool) (w2 : window) :
  placement
    (for_each_surface false surface_set_synchronized_default
       (window_flush swap
          (set_redraw_needed false
             (if failed then w2
              else for_each_surface true
                     (fun i w => (surface_redraw prepare i w).1) w2))))
  = placement w2.
Proof.
  set (w3 := if failed then w2 else _).
  assert (placement w3 = placement w2) as H3.
  { unfold w3. destruct failed; [done|].
    apply (for_each_keeps placement). intros i w.
    by destruct (modes_surface_redraw prepare i w) as [_ ->]. }
  rewrite <- H3.
  change (placement w3) with (placement (set_redraw_needed false w3)).
  set (w3' := set_redraw_needed false w3).
  assert (placement (window_flush swap w3') = placement w3') as H4.
  { unfold window_flush.
    destruct (modes_surface_flush swap (main_surface w3')
                (for_each_surface true (surface_flush swap) w3')) as [_ ->].
    apply (for_each_keeps placement).
    intros i w. by destruct (modes_surface_flush swap i w) as [_ ->]. }
  rewrite <- H4. apply (for_each_keeps placement).
  intros i w. by destruct (settle_shape i w) as [_ ->].
Qed.

End saved_allocation_facts.

(** X9.  The redraw task never writes the minimum size, the fullscreen
    and maximized flags or the main surface of a window.  It leaves
    [saved_allocation] alone while the window is fullscreen or maximized,
    and when no resize is pending, when it also keeps the pending size;
    a resize it performs on a normal window ends with [saved_allocation]
    equal to the pending size, whether the resize succeeded or was
    undone. *)
Theorem redraw_pass_saves_normal_size_only
    (prepare : nat -> Redraw.rectangle -> bool)
    (swap : nat -> Z * Z -> Redraw.rectangle -> Redraw.rectangle)
    (resize_handler : nat -> Z -> Z -> list Redraw.rectangle
                      -> list Redraw.rectangle)
    (w : Redraw.window) :
  let w' := Redraw.final (Redraw.idle_redraw prepare swap resize_handler w) in
  (Redraw.min_allocation w', Redraw.fullscreen w', Redraw.maximized w',
   Redraw.has_frame w', Redraw.main_surface w')
  = (Redraw.min_allocation w, Redraw.fullscreen w, Redraw.maximized w,
     Redraw.has_frame w, Redraw.main_surface w)
  /\ (Redraw.fullscreen w || Redraw.maximized w = true ->
      Redraw.saved_allocation w' = Redraw.saved_allocation w)
  /\ (Redraw.resize_needed w = false ->
      Redraw.saved_allocation w' = Redraw.saved_allocation w
      /\ Redraw.pending_allocation w' = Redraw.pending_allocation w)
  /\ (Redraw.fullscreen w || Redraw.maximized w = false ->
      Redraw.resize_needed w = true ->
      Redraw.main_frame_pending w = false ->
      Redraw.saved_allocation w' = Redraw.pending_allocation w').
Proof.
  cbv zeta. unfold Redraw.idle_redraw.
  set (w0 := Redraw.set_redraw_task_scheduled false w).
  change (Redraw.resize_needed w0) with (Redraw.resize_needed w).
  change (Redraw.main_frame_pending w0) with (Redraw.main_frame_pending w).
  destruct (Redraw.resize_needed w) eqn:Hr; cbn [andb]; cbv zeta.
  - destruct (Redraw.main_frame_pending w) eqn:Hpend.
    { cbn [Redraw.final]. repeat split; try done. }
    set (w1 := Redraw.idle_resize resize_handler w0).
    destruct (modes_window_do_resize resize_handler
                (Redraw.set_redraw_needed true
                   (Redraw.set_resize_needed false w0)) 0%nat) as [_ Hp1].
    change (Redraw.window_do_resize resize_handler _) with w1 in Hp1.
    cbn [Redraw.fullscreen Redraw.maximized Redraw.pending_allocation
         Redraw.saved_allocation Redraw.min_allocation Redraw.has_frame
         Redraw.main_surface Redraw.set_redraw_needed
         Redraw.set_resize_needed Redraw.set_redraw_task_scheduled w0]
      in Hp1.
    pose proof (modes_surface_redraw prepare (Redraw.main_surface w1) w1)
      as [_ Hp2].
    destruct (Redraw.surface_redraw prepare (Redraw.main_surface w1) w1)
      as [w2 ret].
    cbn [fst] in Hp2. cbv beta iota.
    pose proof (placement_redraw_tail prepare swap (ret <? 0) w2) as Hp5.
    set (w5 := Redraw.for_each_surface false _ _) in *.
    rewrite Hp2, Hp1 in Hp5. clear Hp1 Hp2.
    unfold Window.placement in Hp5.
    injection Hp5 as Hs5 Hmin5 Hpen5 Hf5 Hx5 Hh5 Hm5.
    destruct (ret <? 0).
    + unfold Redraw.undo_resize. cbv zeta.
      set (w6 := Redraw.set_pending_allocation _ w5).
      destruct (modes_window_do_resize resize_handler w6 0%nat) as [_ Hp7].
      set (w7 := Redraw.window_do_resize resize_handler w6) in *.
      assert (Redraw.final
                (if (Redraw.width (Redraw.pending_allocation w7) =? 0)
                    && (Redraw.height (Redraw.pending_allocation w7) =? 0)
                 then Redraw.Exited w7 else Redraw.Returned w7) = w7) as ->
        by (by destruct ((Redraw.width _ =? 0) && _)).
      unfold Window.placement in Hp7.
      injection Hp7 as Hs7 Hmin7 Hpen7 Hf7 Hx7 Hh7 Hm7.
      change (Redraw.fullscreen w6) with (Redraw.fullscreen w5) in *.
      change (Redraw.maximized w6) with (Redraw.maximized w5) in *.
      change (Redraw.min_allocation w6) with (Redraw.min_allocation w5) in *.
      change (Redraw.has_frame w6) with (Redraw.has_frame w5) in *.
      change (Redraw.main_surface w6) with (Redraw.main_surface w5) in *.
      change (Redraw.saved_allocation w6) with (Redraw.saved_allocation w5)
        in *.
      rewrite Hmin7, Hf7, Hx7, Hh7, Hm7, Hs7, Hpen7.
      rewrite Hmin5, Hf5, Hx5, Hh5, Hm5, Hs5.
      split; [done|]. split; [|split; [done|]].
      * intros Hfm. apply orb_true_iff in Hfm.
        destruct (Redraw.fullscreen w), (Redraw.maximized w); cbn;
          try done; by destruct Hfm.
      * intros Hfm _ _. apply orb_false_iff in Hfm as [-> ->]. done.
    + cbn [andb Redraw.final].
      rewrite Hmin5, Hf5, Hx5, Hh5, Hm5, Hs5, Hpen5.
      split; [done|]. split; [|split; [done|]].
      * intros Hfm. apply orb_true_iff in Hfm.
        destruct (Redraw.fullscreen w), (Redraw.maximized w); cbn;
          try done; by destruct Hfm.
      * intros Hfm _ _. apply orb_false_iff in Hfm as [-> ->]. done.
  - pose proof (modes_surface_redraw prepare (Redraw.main_surface w0) w0)
      as [_ Hp2].
    destruct (Redraw.surface_redraw prepare (Redraw.main_surface w0) w0)
      as [w2 ret].
    cbn [fst] in Hp2. cbv beta iota. cbn [andb Redraw.final].
    pose proof (placement_redraw_tail prepare swap (ret <? 0) w2) as Hp5.
    set (w5 := Redraw.for_each_surface false _ _) in *.
    rewrite Hp2 in Hp5. unfold Window.placement in Hp5.
    injection Hp5 as Hs5 Hmin5 Hpen5 Hf5 Hx5 Hh5 Hm5.
    rewrite Hmin5, Hf5, Hx5, Hh5, Hm5, Hs5, Hpen5.
    repeat split; try done.
Qed.

Lemma redraw_pass_saves_normal_size_only_witness :
  Redraw.pending_allocation sample_resizing = Redraw.Rectangle 0 0 0 500
  /\ Redraw.saved_allocation sample_undone = Redraw.Rectangle 0 0 300 200
  /\ Redraw.saved_allocation sample_undone
     = Redraw.pending_allocation sample_undone.
Proof.
  split; [reflexivity|]. split; [reflexivity|].
  exact (proj2 (proj2 (proj2
           (redraw_pass_saves_normal_size_only sample_prepare sample_swap
              sample_resize_handler sample_resizing)))
           eq_refl eq_refl eq_refl).
Defined.

Section configure_facts.
Import Redraw Window.

Lemma apply_states (states : list xdg_state) (t : toplevel) :
  let t' := foldl apply_state t states in
  maximized (win t')
  = maximized (win t) || bool_decide (StateMaximized ∈ states)
  /\ fullscreen (win t')
     = fullscreen (win t) || bool_decide (StateFullscreen ∈ states)
  /\ resizing t' = resizing t || bool_decide (StateResizing ∈ states)
  /\ focused t' = focused t || bool_decide (StateActivated ∈ states)
  /\ (saved_allocation (win t'), min_allocation (win t'), has_frame (win t'))
     = (saved_allocation (win t), min_allocation (win t), has_frame (win t)).
Proof.
  cbv zeta. revert t. induction states as [|s states IH]; intros t.
  - cbn [foldl]. rewrite !bool_decide_eq_false_2 by apply not_elem_of_nil.
    by rewrite !orb_false_r.
  - cbn [foldl]. destruct (IH (apply_state t s)) as (-> & -> & -> & -> & ->).
    assert (forall x : xdg_state,
               bool_decide (x ∈ s :: states)
               = bool_decide (x = s) || bool_decide (x ∈ states)) as Hin.
    { intros x. destruct (decide (x = s)) as [->|Hne].
      - rewrite (bool_decide_eq_true_2 (s = s)) by done.
        rewrite bool_decide_eq_true_2; [done|]. apply elem_of_cons. by left.
      - rewrite (bool_decide_eq_false_2 (x = s)) by done.
        apply bool_decide_ext. rewrite elem_of_cons.
        split; [by intros [?|?]|by right]. }
    rewrite !Hin.
    destruct s; cbn [apply_state win resizing focused maximized fullscreen
                     set_maximized set_fullscreen saved_allocation
                     min_allocation has_frame];
      rewrite ?bool_decide_eq_true_2 by done;
      rewrite ?bool_decide_eq_false_2 by done;
      cbn [orb]; rewrite ?orb_true_r; done.
Qed.

End configure_facts.

(** X10.  [handle_surface_configure] takes the four state flags of the
    window from the event alone: a flag is set exactly when its state is
    in the array, whatever it was before.  The event never writes
    [saved_allocation], and an event without a size (a width or height
    that is not positive) asks for a resize to the saved size, raised to
    the minimum. *)
Theorem handle_surface_configure_takes_state_from_event
    (margin : Z) (has_handler : bool) (width height : Z)
    (states : list Window.xdg_state) (serial : N) (t : Window.toplevel) :
  let t' := Window.handle_surface_configure margin has_handler width height
              states serial t in
  let w' := Window.win t' in
  let saved := Redraw.saved_allocation (Window.win t) in
  Redraw.maximized w' = bool_decide (Window.StateMaximized ∈ states)
  /\ Redraw.fullscreen w' = bool_decide (Window.StateFullscreen ∈ states)
  /\ Window.resizing t' = bool_decide (Window.StateResizing ∈ states)
  /\ Window.focused t' = bool_decide (Window.StateActivated ∈ states)
  /\ Redraw.saved_allocation w' = saved
  /\ Redraw.resize_needed w' = true
  /\ (width <= 0 \/ height <= 0 ->
      Redraw.pending_allocation w'
      = Redraw.Rectangle 0 0
          (Z.max (Redraw.width saved)
             (Redraw.width (Redraw.min_allocation w')))
          (Z.max (Redraw.height saved)
             (Redraw.height (Redraw.min_allocation w')))).
Proof.
  cbv zeta. unfold Window.handle_surface_configure. cbv zeta.
  set (t0 := Window.Toplevel _ false false _).
  destruct (apply_states states t0) as (Hmax & Hfull & Hres & Hfoc & Hkeep).
  cbv zeta in Hmax, Hfull, Hres, Hfoc, Hkeep.
  set (t1 := foldl Window.apply_state t0 states) in *.
  cbn [Window.win Window.resizing Window.focused t0 Redraw.maximized
       Redraw.fullscreen Window.set_fullscreen Window.set_maximized orb
       Redraw.saved_allocation Redraw.min_allocation Redraw.has_frame]
    in Hmax, Hfull, Hres, Hfoc, Hkeep.
  injection Hkeep as Hsaved Hmin Hframe.
  cbn [Window.win Window.resizing Window.focused].
  set (w2 := if (0 <? width) && (0 <? height) then _ else _).
  assert (exists a b, w2 = Redraw.window_schedule_resize a b (Window.win t1)
                      /\ (width <= 0 \/ height <= 0 ->
                          a = Redraw.width (Redraw.saved_allocation
                                              (Window.win t))
                          /\ b = Redraw.height (Redraw.saved_allocation
                                                  (Window.win t))))
    as (a & b & -> & Hab).
  { unfold w2. destruct (Z.ltb_spec 0 width); destruct (Z.ltb_spec 0 height);
      cbn [andb]; eexists _, _; (split; [reflexivity|]);
      rewrite ?Hsaved; intros; (done || lia). }
  destruct (window_schedule_resize_shape a b (Window.win t1))
    as (Hm2 & Hp2 & Hr2 & Hk2).
  cbv zeta in Hm2, Hp2, Hk2. injection Hk2 as Hs2 Hf2 Hx2 _ _.
  rewrite Hs2, Hf2, Hx2, Hr2, Hsaved, Hmax, Hfull, Hres, Hfoc.
  repeat split; try done.
  intros Hwh. destruct (Hab Hwh) as [-> ->]. by rewrite Hp2, Hm2.
Qed.

Lemma handle_surface_configure_takes_state_from_event_witness :
  Redraw.pending_allocation (Window.win sample_maximized)
  = Redraw.Rectangle 0 0 1024 768
  /\ Redraw.pending_allocation
    (Window.win
       (Window.handle_surface_configure 32 true 0 0 [] 7 sample_maximized))
  = Redraw.Rectangle 0 0 300 200.
Proof.
  split; [reflexivity|].
  refine (eq_trans
            (proj2 (proj2 (proj2 (proj2 (proj2 (proj2
               (handle_surface_configure_takes_state_from_event 32 true 0 0
                  [] 7 sample_maximized)))))) _) _).
  - left. lia.
  - reflexivity.
Defined.

(** ** Streams of a data offer *)

Section transfer_facts.
Import DataOffer Transfer.

Lemma received_app (l1 l2 : list event) :
  received (l1 ++ l2) = received l1 ++ received l2.
Proof. unfold received. apply flat_map_app. Qed.

(** Reading a stream whose writer is gone to its end, whatever the
    number of references: the sink gets the buffered bytes in order, in
    chunks, then the end of the stream; the descriptor is closed and one
    reference given back. *)
Lemma pump_delivers (fuel : nat) (buffered : list Byte.byte) (p : process)
    (o : data_offer) :
  offer p = Some o ->
  fds p !! fd o = Some (ReadEnd buffered true) ->
  is_Some (watched p !! fd o) ->
  (length buffered < fuel)%nat ->
  exists p' calls,
    pump fuel (fd o) p = Some p'
    /\ log p' = log p ++ calls ++ [end_of_stream o]
                ++ last_reference (refcount o)
    /\ Forall (is_chunk o) calls
    /\ received calls = buffered
    /\ offer p' = (if Z.eqb (refcount o) 1 then None
                   else Some (Offer (types o) (refcount o - 1) (fd o)
                                (func o) (ox o) (oy o) (user_data o)))
    /\ fds p' = delete (fd o) (fds p)
    /\ watched p' = delete (fd o) (watched p).
Proof.
  revert buffered p.
  induction fuel as [|fuel IH]; intros buffered p Ho Hfd Hw Hlen; [lia|].
  cbn [pump].
  assert (ready (fd o) p = true) as ->.
  { unfold ready. destruct Hw as [ev ->]. rewrite Hfd. apply orb_true_r. }
  unfold offer_io_func. rewrite Ho. unfold read. rewrite Hfd.
  destruct buffered as [|b buffered].
  - change (as_unsigned 0 =? 0) with true. cbv beta iota.
    set (p2 := close (fd o) _).
    assert (offer p2 = Some o) as Ho2 by done.
    destruct (data_offer_destroy_releases p2 o Ho2)
      as (p' & -> & Hf' & Hw' & Hrest).
    cbn [mbind option_bind].
    assert (pump fuel (fd o) p' = Some p') as ->.
    { destruct fuel; cbn [pump]; unfold ready; rewrite Hw'; unfold p2, close;
        cbn [watched]; by rewrite lookup_delete_eq. }
    exists p', []. split; [done|].
    assert (log p2 = log p ++ [end_of_stream o]) as Hl2 by reflexivity.
    assert (fds p2 = delete (fd o) (fds p)) as Hf2 by reflexivity.
    assert (watched p2 = delete (fd o) (watched p)) as Hw2 by reflexivity.
    rewrite Hf', Hw', Hf2, Hw2. unfold last_reference.
    destruct (refcount o =? 1).
    + destruct Hrest as (-> & _ & ->). rewrite Hl2, <- app_assoc.
      by repeat split.
    + destruct Hrest as (-> & _ & ->). rewrite Hl2, app_nil_r.
      by repeat split.
  - destruct (chunk_length (b :: buffered)) as [Hu [Hpos Hle]]; [done|].
    set (data := take 4096 (b :: buffered)) in *.
    set (rest := drop 4096 (b :: buffered)).
    rewrite Hu. assert ((Z.of_nat (length data) =? 0) = false) as -> by lia.
    cbn [mbind option_bind].
    set (p2 := emit _ _).
    destruct (IH rest p2) as (p' & calls & Hp & Hl' & Hall & Hrec & Ho' & Hf' & Hw').
    + done.
    + unfold p2, emit. cbn [fds]. apply lookup_insert_eq.
    + done.
    + unfold rest. rewrite length_drop. cbn [length] in *. lia.
    + exists p',
        (ESink (func o) (user_data o) data (Z.of_nat (length data))
           (ox o) (oy o) :: calls).
      split; [done|].
      unfold p2, emit in Hl', Hf', Hw'. cbn [fds watched log] in Hl', Hf', Hw'.
      rewrite delete_insert_eq in Hf'.
      split; [by rewrite Hl', <- app_assoc|].
      split.
      { constructor; [|done]. exists data. split; [done|]. lia. }
      split; [|done].
      unfold received in *. cbn [flat_map sunk]. rewrite Hrec.
      apply take_drop.
Qed.

Lemma frees_app (p : process) (l : list event) (p' : process) :
  log p' = log p ++ l ->
  frees p' = (frees p + length (filter (fun e => is_free e) l))%nat.
Proof.
  intros H. unfold frees. by rewrite H, filter_app, length_app.
Qed.

End transfer_facts.

(** X11.  A transfer delivers the stream intact.  After a successful
    receive, when the far side has written [data] and closed its end, the
    notifications hand the sink exactly the bytes of [data], in order, in
    calls of 1 to 4096 bytes each carrying its count, followed by one
    call of length 0; nothing else is logged in between, and the sink is
    never called after the offer was freed. *)
Theorem receive_delivers_stream_in_order (r w : Z) (mime_type : string)
    (f d : nat) (data : list Byte.byte) (p : DataOffer.process)
    (o : DataOffer.data_offer) :
  DataOffer.offer p = Some o ->
  r <> w ->
  DataOffer.watched p !! r = None ->
  let o1 := DataOffer.Offer (DataOffer.types o) (DataOffer.refcount o + 1)
              r f (DataOffer.ox o) (DataOffer.oy o) d in
  exists p' calls,
    DataOffer.receive_to_end (r, w) mime_type f d data p = Some p'
    /\ DataOffer.log p'
       = DataOffer.log p ++ [DataOffer.EReceive mime_type w] ++ calls
         ++ [Transfer.end_of_stream o1]
         ++ Transfer.last_reference (DataOffer.refcount o + 1)
    /\ Forall (Transfer.is_chunk o1) calls
    /\ Transfer.received calls = data
    /\ DataOffer.fds p' !! r = None
    /\ DataOffer.watched p' !! r = None.
Proof.
  intros Ho Hne Hw o1. unfold DataOffer.receive_to_end.
  destruct (receive_takes_reference r w mime_type f d p o Ho Hne Hw)
    as (p1 & -> & Ho1 & Hf1 & Hw1 & Hl1).
  cbn [mbind option_bind fst].
  set (p2 := DataOffer.far_close r (DataOffer.far_write r data p1)).
  assert (DataOffer.offer p2 = DataOffer.offer p1
          /\ DataOffer.watched p2 = DataOffer.watched p1
          /\ DataOffer.log p2 = DataOffer.log p1
          /\ DataOffer.fds p2
             = <[r := DataOffer.ReadEnd data true]> (DataOffer.fds p1))
    as (Ho2 & Hw2 & Hl2 & Hf2).
  { unfold p2, DataOffer.far_write. rewrite Hf1, lookup_insert_eq.
    unfold DataOffer.far_close.
    cbn [DataOffer.fds DataOffer.offer DataOffer.watched DataOffer.log].
    rewrite lookup_insert_eq.
    cbn [DataOffer.fds DataOffer.offer DataOffer.watched DataOffer.log].
    by rewrite insert_insert_eq. }
  destruct (pump_delivers (S (length data)) data p2 o1)
    as (p' & calls & Hp & Hl' & Hall & Hrec & _ & Hf' & Hw').
  - by rewrite Ho2, Ho1.
  - rewrite Hf2. apply lookup_insert_eq.
  - rewrite Hw2, Hw1. cbn [DataOffer.fd o1]. rewrite lookup_insert_eq.
    by eexists.
  - lia.
  - exists p', calls. cbn [DataOffer.fd DataOffer.refcount o1] in *.
    split; [done|]. split.
    { rewrite Hl', Hl2, Hl1. by rewrite <- !app_assoc. }
    split; [done|]. split; [done|].
    rewrite Hf', Hw'. split; apply lookup_delete_eq.
Qed.

Lemma receive_delivers_stream_in_order_witness :
  exists p' calls,
    DataOffer.receive_to_end (5, 6) "text/plain" 1 10
      ["h"%byte; "i"%byte] sample_process = Some p'
    /\ DataOffer.log p'
       = DataOffer.log sample_process
         ++ [DataOffer.EReceive "text/plain" 6] ++ calls
         ++ [Transfer.end_of_stream (DataOffer.Offer [] 2 5 1 0 0 10)]
         ++ Transfer.last_reference 2
    /\ Forall (Transfer.is_chunk (DataOffer.Offer [] 2 5 1 0 0 10)) calls
    /\ Transfer.received calls = ["h"%byte; "i"%byte]
    /\ DataOffer.fds p' !! 5 = None
    /\ DataOffer.watched p' !! 5 = None.
Proof.
  refine (receive_delivers_stream_in_order 5 6 "text/plain" 1%nat 10%nat
            ["h"%byte; "i"%byte] sample_process
            (DataOffer.Offer [] 1 0 0 0 0 0) eq_refl _ eq_refl).
  lia.
Defined.

(** X12.  An offer outlives the device's reference for as long as a
    transfer is in flight.  When the drag leaves ([data_device_leave])
    after a receive on an offer that only the device held, the offer is
    not freed; the stream is still delivered in full, and the zero-length
    read at its end destroys the proxy and frees the offer, exactly once
    and after the last sink call. *)
Theorem offer_freed_only_after_stream_ends (r w : Z) (mime_type : string)
    (f d : nat) (data : list Byte.byte) (p : DataOffer.process)
    (o : DataOffer.data_offer) :
  DataOffer.offer p = Some o ->
  DataOffer.refcount o = 1 ->
  r <> w ->
  DataOffer.watched p !! r = None ->
  let o1 := DataOffer.Offer (DataOffer.types o) 1 r f (DataOffer.ox o)
              (DataOffer.oy o) d in
  (exists p1 p2,
      DataOffer.data_offer_receive_data (Some (r, w)) mime_type f d p
      = Some p1
      /\ DataOffer.device_release p1 = Some p2
      /\ DataOffer.offer p2 = Some o1
      /\ DataOffer.frees p2 = DataOffer.frees p)
  /\ exists p' calls,
      Transfer.receive_then_leave (r, w) mime_type f d data p = Some p'
      /\ DataOffer.log p'
         = DataOffer.log p ++ [DataOffer.EReceive mime_type w] ++ calls
           ++ [Transfer.end_of_stream o1; DataOffer.EProxyDestroy;
               DataOffer.EFree]
      /\ Forall (Transfer.is_chunk o1) calls
      /\ Transfer.received calls = data
      /\ DataOffer.offer p' = None
      /\ DataOffer.frees p' = S (DataOffer.frees p)
      /\ DataOffer.fds p' !! r = None.
Proof.
  intros Ho Hrc Hne Hw o1. unfold Transfer.receive_then_leave.
  destruct (receive_takes_reference r w mime_type f d p o Ho Hne Hw)
    as (p1 & Hp1 & Ho1 & Hf1 & Hw1 & Hl1).
  rewrite Hp1. cbn [mbind option_bind fst].
  unfold DataOffer.device_release.
  destruct (data_offer_destroy_releases p1 _ Ho1)
    as (p2 & Hp2 & Hf2 & Hw2 & Hrest).
  rewrite Hp2. cbn [mbind option_bind].
  cbn [DataOffer.refcount DataOffer.types DataOffer.fd DataOffer.func
       DataOffer.ox DataOffer.oy DataOffer.user_data] in Hrest.
  rewrite Hrc in Hrest. change (1 + 1 =? 1) with false in Hrest.
  change (1 + 1 - 1) with 1 in Hrest.
  destruct Hrest as (Ho2 & Hfr2 & Hl2).
  assert (DataOffer.frees p1 = DataOffer.frees p) as Hfr1.
  { rewrite (frees_app p [DataOffer.EReceive mime_type w] p1 Hl1).
    rewrite filter_cons, decide_False by (by intros ?). cbn. lia. }
  split.
  { exists p1, p2. repeat split; try done. by rewrite Hfr2. }
  set (p3 := DataOffer.far_close r (DataOffer.far_write r data p2)).
  assert (DataOffer.offer p3 = DataOffer.offer p2
          /\ DataOffer.watched p3 = DataOffer.watched p2
          /\ DataOffer.log p3 = DataOffer.log p2
          /\ DataOffer.fds p3
             = <[r := DataOffer.ReadEnd data true]> (DataOffer.fds p2))
    as (Ho3 & Hw3 & Hl3 & Hf3).
  { unfold p3, DataOffer.far_write. rewrite Hf2, Hf1, lookup_insert_eq.
    unfold DataOffer.far_close.
    cbn [DataOffer.fds DataOffer.offer DataOffer.watched DataOffer.log].
    rewrite lookup_insert_eq.
    cbn [DataOffer.fds DataOffer.offer DataOffer.watched DataOffer.log].
    by rewrite insert_insert_eq. }
  destruct (pump_delivers (S (length data)) data p3 o1)
    as (p' & calls & Hp & Hl' & Hall & Hrec & Ho' & Hf' & Hw').
  - by rewrite Ho3, Ho2.
  - rewrite Hf3. apply lookup_insert_eq.
  - rewrite Hw3, Hw2, Hw1. cbn [DataOffer.fd o1]. rewrite lookup_insert_eq.
    by eexists.
  - lia.
  - exists p', calls. cbn [DataOffer.fd DataOffer.refcount o1] in *.
    change (1 =? 1) with true in Ho'.
    unfold Transfer.last_reference in Hl'. change (1 =? 1) with true in Hl'.
    split; [done|].
    assert (DataOffer.log p'
            = DataOffer.log p ++ [DataOffer.EReceive mime_type w] ++ calls
              ++ [Transfer.end_of_stream o1; DataOffer.EProxyDestroy;
                  DataOffer.EFree]) as Hlog.
    { rewrite Hl', Hl3, Hl2, Hl1. by rewrite <- !app_assoc. }
    split; [done|]. split; [done|]. split; [done|]. split; [done|].
    split; [|rewrite Hf'; apply lookup_delete_eq].
    rewrite (frees_app p _ p' Hlog).
    rewrite !filter_app, !length_app.
    assert (filter (fun e => DataOffer.is_free e) calls = []) as ->.
    { clear -Hall. induction Hall as [|e l [data' [-> _]] _ IH]; [done|].
      rewrite filter_cons. cbn [DataOffer.is_free].
      rewrite decide_False by (by intros ?). exact IH. }
    cbn. rewrite !(decide_False (P:=False)) by (by intros ?).
    rewrite !(decide_True (P:=True)) by done. cbn. lia.
Qed.

Lemma offer_freed_only_after_stream_ends_witness :
  exists p' calls,
    Transfer.receive_then_leave (5, 6) "text/plain" 1 10
      ["h"%byte; "i"%byte] sample_process = Some p'
    /\ DataOffer.log p'
       = DataOffer.log sample_process
         ++ [DataOffer.EReceive "text/plain" 6] ++ calls
         ++ [Transfer.end_of_stream (DataOffer.Offer [] 1 5 1 0 0 10);
             DataOffer.EProxyDestroy; DataOffer.EFree]
    /\ Forall (Transfer.is_chunk (DataOffer.Offer [] 1 5 1 0 0 10)) calls
    /\ Transfer.received calls = ["h"%byte; "i"%byte]
    /\ DataOffer.offer p' = None
    /\ DataOffer.frees p' = 1%nat
    /\ DataOffer.fds p' !! 5 = None.
Proof.
  refine (proj2 (offer_freed_only_after_stream_ends 5 6 "text/plain" 1%nat
                   10%nat ["h"%byte; "i"%byte] sample_process
                   (DataOffer.Offer [] 1 0 0 0 0 0) eq_refl eq_refl _
                   eq_refl)).
  lia.
Defined.

(** X13.  [input_receive_selection_data] starts a transfer only for a
    type the selection offer advertises.  Without a selection offer, or
    for a type that is not in the offer's list, it returns -1 and does
    nothing.  For an advertised type it returns 0, also when [pipe2]
    fails and nothing was started; when the pipe is there, the consumer's
    sink is handed the whole stream. *)
Theorem selection_is_received_only_in_an_offered_type
    (selection_offer : bool) (r w : Z) (mime_type : string) (f d : nat)
    (data : list Byte.byte) (p : DataOffer.process)
    (o : DataOffer.data_offer) :
  DataOffer.offer p = Some o ->
  r <> w ->
  DataOffer.watched p !! r = None ->
  (selection_offer = false \/ mime_type ∉ DataOffer.types o ->
   (forall pipe,
       Transfer.input_receive_selection_data selection_offer pipe mime_type
         f d p = Some (p, -1))
   /\ Transfer.paste selection_offer (r, w) mime_type f d data p
      = Some (p, -1))
  /\ (selection_offer = true -> mime_type ∈ DataOffer.types o ->
      let o1 := DataOffer.Offer (DataOffer.types o) (DataOffer.refcount o + 1)
                  r f (DataOffer.ox o) (DataOffer.oy o) d in
      Transfer.input_receive_selection_data true None mime_type f d p
      = Some (p, 0)
      /\ exists p' calls,
          Transfer.paste true (r, w) mime_type f d data p = Some (p', 0)
          /\ DataOffer.log p'
             = DataOffer.log p ++ [DataOffer.EReceive mime_type w] ++ calls
               ++ [Transfer.end_of_stream o1]
               ++ Transfer.last_reference (DataOffer.refcount o + 1)
          /\ Forall (Transfer.is_chunk o1) calls
          /\ Transfer.received calls = data).
Proof.
  intros Ho Hne Hw. split.
  - intros Hno.
    assert (forall pipe,
               Transfer.input_receive_selection_data selection_offer pipe
                 mime_type f d p = Some (p, -1)) as Hret.
    { intros pipe. unfold Transfer.input_receive_selection_data.
      destruct selection_offer; cbn [negb]; [|done].
      destruct Hno as [?|Hno]; [done|].
      rewrite Ho. cbn [mbind option_bind].
      by rewrite bool_decide_eq_false_2. }
    split; [exact Hret|].
    unfold Transfer.paste. rewrite Hret. done.
  - intros -> Hin o1.
    unfold Transfer.paste, Transfer.input_receive_selection_data.
    cbn [negb]. rewrite Ho. cbn [mbind option_bind].
    rewrite bool_decide_eq_true_2 by done.
    split; [done|].
    destruct (receive_takes_reference r w mime_type f d p o Ho Hne Hw)
      as (p1 & -> & Ho1 & Hf1 & Hw1 & Hl1).
    cbn [mbind option_bind fst]. change (0 =? 0) with true. cbv beta iota.
    set (p2 := DataOffer.far_close r (DataOffer.far_write r data p1)).
    assert (DataOffer.offer p2 = DataOffer.offer p1
            /\ DataOffer.watched p2 = DataOffer.watched p1
            /\ DataOffer.log p2 = DataOffer.log p1
            /\ DataOffer.fds p2
               = <[r := DataOffer.ReadEnd data true]> (DataOffer.fds p1))
      as (Ho2 & Hw2 & Hl2 & Hf2).
    { unfold p2, DataOffer.far_write. rewrite Hf1, lookup_insert_eq.
      unfold DataOffer.far_close.
      cbn [DataOffer.fds DataOffer.offer DataOffer.watched DataOffer.log].
      rewrite lookup_insert_eq.
      cbn [DataOffer.fds DataOffer.offer DataOffer.watched DataOffer.log].
      by rewrite insert_insert_eq. }
    destruct (pump_delivers (S (length data)) data p2 o1)
      as (p' & calls & Hp & Hl' & Hall & Hrec & _ & _ & _).
    + by rewrite Ho2, Ho1.
    + rewrite Hf2. apply lookup_insert_eq.
    + rewrite Hw2, Hw1. cbn [DataOffer.fd o1]. rewrite lookup_insert_eq.
      by eexists.
    + lia.
    + exists p', calls. cbn [DataOffer.fd DataOffer.refcount o1] in *.
      rewrite Hp. cbn [mbind option_bind].
      split; [done|]. split; [|done].
      rewrite Hl', Hl2, Hl1. by rewrite <- !app_assoc.
Qed.

Lemma selection_is_received_only_in_an_offered_type_witness :
  Transfer.paste true (5, 6) "text/html" 1 10 ["h"%byte] sample_selection
  = Some (sample_selection, -1)
  /\ exists p' calls,
      Transfer.paste true (5, 6) "text/plain" 1 10 ["h"%byte]
        sample_selection = Some (p', 0)
      /\ DataOffer.log p'
         = DataOffer.log sample_selection
           ++ [DataOffer.EReceive "text/plain" 6] ++ calls
           ++ [Transfer.end_of_stream
                 (DataOffer.Offer ["text/plain"] 2 5 1 0 0 10)]
           ++ Transfer.last_reference 2
      /\ Forall (Transfer.is_chunk
                   (DataOffer.Offer ["text/plain"] 2 5 1 0 0 10)) calls
      /\ Transfer.received calls = ["h"%byte].
Proof.
  split.
  - refine (proj2 (proj1 (selection_is_received_only_in_an_offered_type true
                            5 6 "text/html" 1%nat 10%nat ["h"%byte]
                            sample_selection
                            (DataOffer.Offer ["text/plain"] 1 0 0 0 0 0)
                            eq_refl _ eq_refl) _)).
    + lia.
    + right. intros H. apply list_elem_of_singleton in H. discriminate.
  - refine (proj2 (proj2 (selection_is_received_only_in_an_offered_type true
                            5 6 "text/plain" 1%nat 10%nat ["h"%byte]
                            sample_selection
                            (DataOffer.Offer ["text/plain"] 1 0 0 0 0 0)
                            eq_refl _ eq_refl) eq_refl _)).
    + lia.
    + apply list_elem_of_singleton. reflexivity.
Defined.

(** X14.  A descriptor that is still watched when the offer has moved on
    is never drained.  The notifications of every watched descriptor run
    [offer_io_func], which reads [offer->fd]; once that descriptor is
    closed the read fails, the sink is called with the length
    [(unsigned int) -1] and nothing is closed or released, so the other
    descriptor stays ready and the loop is woken for it without end. *)
Theorem stale_descriptor_is_never_drained (n : Z) (p : DataOffer.process)
    (o : DataOffer.data_offer) :
  DataOffer.offer p = Some o ->
  DataOffer.fds p !! DataOffer.fd o = None ->
  DataOffer.ready n p = true ->
  DataOffer.notify n p
  = Some (DataOffer.emit
            (DataOffer.ESink (DataOffer.func o) (DataOffer.user_data o) []
               4294967295 (DataOffer.ox o) (DataOffer.oy o)) p)
  /\ forall fuel, DataOffer.pump fuel n p = None.
Proof.
  intros Ho Hfd Hready.
  assert (forall q,
             DataOffer.offer q = Some o ->
             DataOffer.fds q !! DataOffer.fd o = None ->
             DataOffer.offer_io_func q
             = Some (DataOffer.emit
                       (DataOffer.ESink (DataOffer.func o)
                          (DataOffer.user_data o) [] 4294967295
                          (DataOffer.ox o) (DataOffer.oy o)) q)) as Hstep.
  { intros q Hq Hf. unfold DataOffer.offer_io_func, DataOffer.read.
    by rewrite Hq, Hf. }
  split.
  - unfold DataOffer.notify. rewrite Hready. by apply Hstep.
  - intros fuel. revert p Ho Hfd Hready.
    induction fuel as [|fuel IH]; intros p Ho Hfd Hready; cbn [DataOffer.pump];
      rewrite Hready; [done|].
    rewrite (Hstep p Ho Hfd). cbn [mbind option_bind].
    by apply IH.
Qed.

Lemma stale_descriptor_is_never_drained_witness :
  DataOffer.fds sample_stale !! 5 = Some (DataOffer.ReadEnd ["a"%byte] true)
  /\ forall fuel, DataOffer.pump fuel 5 sample_stale = None.
Proof.
  split; [reflexivity|].
  exact (proj2 (stale_descriptor_is_never_drained 5 sample_stale
                  (DataOffer.Offer [] 2 6 2 0 0 20) eq_refl eq_refl
                  eq_refl)).
Defined.

(** ** Devices of the primary selection and the middle-click paste *)

Section device_facts.
Import PrimarySelection Device.

(** What a successful [weston_seat_set_primary_selection] leaves. *)
Lemma set_primary_selection_result (seat seat1 : weston_seat)
    (src : weston_data_source) :
  weston_seat_set_primary_selection (Some src) seat = Some (tt, seat1) ->
  primary_selection_data_source seat1 = Some src
  /\ primary_data_source_listener seat1 = Some (sid src)
  /\ primary_selection_device_resource_list seat1
     = primary_selection_device_resource_list seat.
Proof.
  destruct (primary_selection_data_source seat) as [cur|] eqn:Hc.
  - destruct (primary_data_source_listener seat) as [l|] eqn:Hl.
    + rewrite (set_primary_selection_replaces seat cur src l Hc Hl).
      by intros [= <-].
    + by destruct (set_primary_selection_unlinked seat cur (Some src) Hc Hl)
        as [-> _].
  - destruct (set_primary_selection_installs seat (Some src) Hc) as [-> _].
    by intros [= <-].
Qed.

Lemma find_for_client_cons (r : wl_resource) (l : list wl_resource)
    (c : wl_client) :
  wl_resource_find_for_client (r :: l) c
  = if decide (rclient r = c) then Some r
    else wl_resource_find_for_client l c.
Proof.
  unfold wl_resource_find_for_client. cbn [list_find].
  destruct (decide (rclient r = c)); [done|].
  by destruct (list_find _ l) as [[i x]|].
Qed.

Lemma filter_fresh (r : wl_resource) (l : list wl_resource) :
  rid r ∉ rid <$> l -> filter (fun r' => rid r' <> rid r) l = l.
Proof.
  induction l as [|x l IH]; [done|].
  cbn [fmap list_fmap]. rewrite not_elem_of_cons. intros [Hx Hl].
  rewrite filter_cons, decide_True by done. by rewrite IH.
Qed.

Lemma filter_unlinks (r : wl_resource) (l : list wl_resource) :
  rid r ∉ rid <$> filter (fun r' => rid r' <> rid r) l.
Proof.
  intros Hin. apply list_elem_of_fmap in Hin as (x & Hx & Hin).
  apply list_elem_of_filter in Hin as [Hne _]. by apply Hne.
Qed.

End device_facts.

(** X15.  A middle click pastes the selection that is current.  Once a
    source has been set, a click over a surface of client [c] offers that
    source to the first device of [c] in the seat's list: one
    [selection_offer], then one [offer] for each of the source's types in
    order; nothing is sent when [c] has no device or the offer cannot be
    created.  Once the source is destroyed a click sends nothing,
    wherever the pointer is. *)
Theorem middle_click_paste_offers_current_selection
    (seat seat1 : PrimarySelection.weston_seat)
    (src : PrimarySelection.weston_data_source)
    (c : PrimarySelection.wl_client) :
  PrimarySelection.weston_seat_set_primary_selection (Some src) seat
  = Some (tt, seat1) ->
  (forall created,
      Device.middle_click_paste
        (Some (Device.View (Some (Device.Surface (Some c))))) created seat1
      = Some
          match PrimarySelection.wl_resource_find_for_client
                  (PrimarySelection.primary_selection_device_resource_list
                     seat) c, created with
          | Some target, Some offer =>
              Device.ESelectionOffer (PrimarySelection.rid target) offer
              :: (Device.EOffer offer <$> PrimarySelection.mime_types src)
          | _, _ => []
          end)
  /\ exists seat2,
      PrimarySelection.source_destroyed src seat1 = Some (tt, seat2)
      /\ forall focus created,
          Device.middle_click_paste focus created seat2 = Some [].
Proof.
  intros Hset.
  destruct (set_primary_selection_result seat seat1 src Hset)
    as (Hsrc & Hlis & Hdev).
  split.
  - intros created. unfold Device.middle_click_paste.
    cbn [Device.surface Device.resource mbind option_bind].
    rewrite Hsrc, Hdev.
    destruct (PrimarySelection.wl_resource_find_for_client _ c) as [r|];
      [|done].
    unfold Device.weston_primary_selection_source_send_offer.
    by destruct created.
  - unfold PrimarySelection.source_destroyed,
      PrimarySelection.destroy_primary_selection_data_source.
    unfold mbind, PrimarySelection.exec_bind, PrimarySelection.get.
    rewrite Hlis, bool_decide_eq_true_2 by done. cbn.
    eexists. split; [done|].
    intros focus created. unfold Device.middle_click_paste.
    cbn [PrimarySelection.primary_selection_data_source].
    destruct focus as [[[sf|]]|]; done.
Qed.

Lemma middle_click_paste_offers_current_selection_witness :
  Device.middle_click_paste
    (Some (Device.View (Some (Device.Surface (Some 3%nat))))) (Some 40%nat)
    sample_owned_by_b
  = Some [Device.ESelectionOffer 13 40; Device.EOffer 40 "text/plain"].
Proof.
  exact (proj1 (middle_click_paste_offers_current_selection sample_seat
                  sample_owned_by_b sample_source_b 3%nat eq_refl)
           (Some 40%nat)).
Defined.

(** X16.  A device is found for as long as it is bound, and the newest
    device of a client is the one pasted to.  [get_primary_selection_device]
    puts the new device first, so [wl_resource_find_for_client] returns
    it for its client and what it returned before for every other client;
    the destructor of the device takes exactly that device out again. *)
Theorem newest_device_of_client_is_found (r : PrimarySelection.wl_resource)
    (seat : PrimarySelection.weston_seat) :
  PrimarySelection.rid r
  ∉ PrimarySelection.rid
    <$> PrimarySelection.primary_selection_device_resource_list seat ->
  exists seat1,
    Device.get_primary_selection_device (Some r) seat = Some (tt, seat1)
    /\ PrimarySelection.wl_resource_find_for_client
         (PrimarySelection.primary_selection_device_resource_list seat1)
         (PrimarySelection.rclient r) = Some r
    /\ (forall c, c <> PrimarySelection.rclient r ->
          PrimarySelection.wl_resource_find_for_client
            (PrimarySelection.primary_selection_device_resource_list seat1) c
          = PrimarySelection.wl_resource_find_for_client
              (PrimarySelection.primary_selection_device_resource_list seat)
              c)
    /\ Device.unbind_primary_selection_device r seat1 = Some (tt, seat).
Proof.
  intros Hfresh. eexists. split; [reflexivity|].
  cbn [Device.set_device_list
       PrimarySelection.primary_selection_device_resource_list].
  split; [|split].
  - rewrite find_for_client_cons. by rewrite decide_True.
  - intros c Hc. rewrite find_for_client_cons.
    by rewrite decide_False by (intros H; by apply Hc).
  - unfold Device.unbind_primary_selection_device,
      Device.wl_list_remove_link, Device.linked.
    cbn [Device.set_device_list
         PrimarySelection.primary_selection_device_resource_list
         fmap list_fmap].
    rewrite bool_decide_eq_true_2 by (apply elem_of_cons; by left).
    rewrite filter_cons, decide_False by (intros H; by apply H).
    rewrite filter_fresh by done.
    by destruct seat.
Qed.

Lemma newest_device_of_client_is_found_witness :
  PrimarySelection.wl_resource_find_for_client
    (PrimarySelection.Resource 14 2%nat :: sample_devices) 2%nat
  = Some (PrimarySelection.Resource 14 2%nat)
  /\ PrimarySelection.wl_resource_find_for_client sample_devices 2%nat
     = Some (PrimarySelection.Resource 12 2%nat).
Proof.
  split; [|reflexivity].
  destruct (newest_device_of_client_is_found (PrimarySelection.Resource 14 2%nat)
              sample_seat) as (seat1 & Hget & Hfind & _).
  - vm_compute. intros H.
    repeat (apply elem_of_cons in H as [H|H]; [discriminate|]).
    by apply elem_of_nil in H.
  - injection Hget as <-. exact Hfind.
Defined.

(** X17.  The handler of a device's [destroy] request never returns:
    it unlinks the device and then destroys the resource, whose
    destructor unlinks the same link a second time, through the
    neighbours that the first [wl_list_remove] has cleared. *)
Theorem device_destroy_request_unlinks_twice
    (r : PrimarySelection.wl_resource)
    (seat : PrimarySelection.weston_seat) :
  Device.weston_primary_selection_device_destroy r seat = None
  /\ (Device.linked r seat = true ->
      exists seat1,
        Device.wl_list_remove_link r seat = Some (tt, seat1)
        /\ Device.linked r seat1 = false
        /\ Device.wl_resource_destroy r seat1 = None).
Proof.
  assert (forall l, Device.linked r
                      (Device.set_device_list
                         (filter (fun r' => PrimarySelection.rid r'
                                            <> PrimarySelection.rid r) l)
                         seat) = false) as Hgone.
  { intros l. unfold Device.linked.
    cbn [Device.set_device_list
         PrimarySelection.primary_selection_device_resource_list].
    apply bool_decide_eq_false_2, filter_unlinks. }
  split.
  - unfold Device.weston_primary_selection_device_destroy.
    unfold mbind, PrimarySelection.exec_bind.
    unfold Device.wl_list_remove_link at 1.
    destruct (Device.linked r seat); [|done].
    unfold Device.wl_resource_destroy, Device.unbind_primary_selection_device,
      Device.wl_list_remove_link.
    by rewrite Hgone.
  - intros Hl. unfold Device.wl_list_remove_link at 1. rewrite Hl.
    eexists. split; [done|]. split; [apply Hgone|].
    unfold Device.wl_resource_destroy, Device.unbind_primary_selection_device,
      Device.wl_list_remove_link.
    by rewrite Hgone.
Qed.

Lemma device_destroy_request_unlinks_twice_witness :
  exists seat1,
    Device.wl_list_remove_link (PrimarySelection.Resource 12 2%nat) sample_seat
    = Some (tt, seat1)
    /\ Device.linked (PrimarySelection.Resource 12 2%nat) seat1 = false
    /\ Device.wl_resource_destroy (PrimarySelection.Resource 12 2%nat) seat1
       = None.
Proof.
  exact (proj2 (device_destroy_request_unlinks_twice
                  (PrimarySelection.Resource 12 2%nat) sample_seat) eq_refl).
Defined.

(** ** The three buffers of a shared-memory surface *)

Section shm_surface_facts.
Import ShmSurface.

Lemma int32_small (z : Z) : -2 ^ 31 <= z < 2 ^ 31 -> Window.int32 z = z.
Proof.
  intros H. unfold Window.int32.
  rewrite Z.mod_small by lia. lia.
Qed.

(** The picking loop over any indices, from any candidate. *)
Lemma pick_loop (s : shm_surface) (l : list nat) (best : option nat) :
  let f := fun best i =>
             match leaf s !! i with
             | None => best
             | Some l =>
                 if busy l then best
                 else if negb (bool_decide (is_Some best))
                         || bool_decide (is_Some (cairo_surface l))
                 then Some i else best
             end in
  (foldl f best l = None ->
   best = None /\ forall i, i ∈ l -> is_held s i = true
                            \/ leaf s !! i = None)
  /\ (forall i, foldl f best l = Some i ->
        best = Some i
        \/ (i ∈ l /\ exists x, leaf s !! i = Some x /\ busy x = false)).
Proof.
  cbv zeta. revert best. induction l as [|j l IH]; intros best; cbn [foldl].
  - split; [|by left]. intros ->. split; [done|].
    intros i Hi. by apply elem_of_nil in Hi.
  - destruct (IH (match leaf s !! j with
                  | None => best
                  | Some l =>
                      if busy l then best
                      else if negb (bool_decide (is_Some best))
                              || bool_decide (is_Some (cairo_surface l))
                      then Some j else best
                  end)) as [IHn IHs].
    split.
    + intros Hn. destruct (IHn Hn) as [Hb Hall].
      unfold is_held in *.
      destruct (leaf s !! j) as [x|] eqn:Hj.
      * destruct (busy x) eqn:Hbusy.
        -- split; [done|]. intros i Hi. apply elem_of_cons in Hi as [->|Hi].
           ++ left. by rewrite Hj.
           ++ by apply Hall.
        -- destruct (negb _ || _) eqn:Hc; [done|].
           subst best. cbn in Hc. done.
      * split; [done|]. intros i Hi. apply elem_of_cons in Hi as [->|Hi].
        -- by right.
        -- by apply Hall.
    + intros i Hi. destruct (IHs i Hi) as [Hb|[Hin Hx]].
      * destruct (leaf s !! j) as [x|] eqn:Hj; [|by left].
        destruct (busy x) eqn:Hbusy; [by left|].
        destruct (negb _ || _); [|by left].
        injection Hb as <-. right. split; [apply elem_of_cons; by left|].
        by exists x.
      * right. split; [apply elem_of_cons; by right|done].
Qed.

Lemma pick_free (s : shm_surface) :
  (pick s = None ->
   forall i x, leaf s !! i = Some x -> (i < MAX_LEAVES)%nat -> busy x = true)
  /\ (forall i, pick s = Some i ->
        (i < MAX_LEAVES)%nat
        /\ exists x, leaf s !! i = Some x /\ busy x = false).
Proof.
  destruct (pick_loop s (seq 0 MAX_LEAVES) None) as [Hn Hs].
  cbv zeta in Hn, Hs. split.
  - intros Hp i x Hi Hlt. destruct (Hn Hp) as [_ Hall].
    destruct (Hall i) as [Hh|Hnone].
    + apply elem_of_seq. lia.
    + unfold is_held in Hh. by rewrite Hi in Hh.
    + congruence.
  - intros i Hp. destruct (Hs i Hp) as [?|[Hin Hx]]; [done|].
    apply elem_of_seq in Hin. split; [lia|done].
Qed.

End shm_surface_facts.

(** X18.  [shm_surface_prepare] never hands out a buffer the compositor
    holds.  It leaves every busy leaf exactly as it is, ends in [exit(1)]
    only when all three leaves are busy, and a drawable it returns is the
    image surface of a leaf that is free and is made current, of the
    buffer size that [surface_to_buffer_size] gives for the request. *)
Theorem shm_surface_prepare_never_takes_held_buffer
    (created : option nat) (dx dy width height : Z) (resize_hint : bool)
    (buffer_transform : ShmSurface.wl_output_transform) (buffer_scale : Z)
    (s : ShmSurface.shm_surface) :
  length (ShmSurface.leaf s) = ShmSurface.MAX_LEAVES ->
  let r := ShmSurface.shm_surface_prepare created dx dy width height
             resize_hint buffer_transform buffer_scale s in
  (forall i x, ShmSurface.leaf s !! i = Some x -> ShmSurface.busy x = true ->
               ShmSurface.leaf (ShmSurface.surface_of r) !! i = Some x)
  /\ ((exists s', r = ShmSurface.AllBusy s')
      <-> forall i x, ShmSurface.leaf s !! i = Some x ->
                      ShmSurface.busy x = true)
  /\ (forall s' size,
         r = ShmSurface.Drawable s' size ->
         size = ShmSurface.surface_to_buffer_size buffer_transform
                  buffer_scale width height
         /\ exists i x,
             ShmSurface.current s' = Some i
             /\ ShmSurface.leaf s' !! i = Some x
             /\ ShmSurface.busy x = false
             /\ ShmSurface.cairo_surface x = Some size
             /\ ShmSurface.is_held s i = false).
Proof.
  intros Hlen. cbv zeta. unfold ShmSurface.shm_surface_prepare.
  set (s0 := ShmSurface.ShmSurface dx dy _ _ _).
  destruct (pick_free s0) as [Hnone Hsome].
  change (ShmSurface.leaf s0) with (ShmSurface.leaf s) in Hnone, Hsome.
  destruct (ShmSurface.pick s0) as [i|] eqn:Hpick.
  - destruct (Hsome i eq_refl) as (Hlt & x & Hx & Hfree). clear Hnone Hsome.
    change (ShmSurface.leaf s0) with (ShmSurface.leaf s).
    rewrite Hx. change (default ShmSurface.zero_leaf (Some x)) with x.
    set (l1 := if negb resize_hint && ShmSurface.resize_pool x
               then _ else x).
    assert (ShmSurface.busy l1 = false) as Hb1
      by (unfold l1; by destruct (negb resize_hint && _)).
    set (size := ShmSurface.surface_to_buffer_size _ _ _ _).
    assert (forall y j z,
               ShmSurface.leaf s !! j = Some z -> ShmSurface.busy z = true ->
               ShmSurface.leaf (ShmSurface.set_leaf i y s0) !! j = Some z)
      as Hkeep.
    { intros y j z Hj Hz. unfold ShmSurface.set_leaf.
      cbn [ShmSurface.leaf s0].
      rewrite list_lookup_insert_ne; [done|]. intros <-. congruence. }
    assert (forall y, ShmSurface.leaf (ShmSurface.set_leaf i y s0) !! i
                      = Some y) as Hat.
    { intros y. unfold ShmSurface.set_leaf. cbn [ShmSurface.leaf s0].
      apply list_lookup_insert_eq. by apply lookup_lt_Some in Hx. }
    assert (ShmSurface.is_held s i = false) as Hheld
      by (unfold ShmSurface.is_held; by rewrite Hx).
    split; [|split].
    + intros j z Hj Hz.
      destruct (bool_decide _); [by apply Hkeep|].
      destruct created; by apply Hkeep.
    + split.
      * intros [s' H]. destruct (bool_decide _); [done|]. by destruct created.
      * intros Hall. specialize (Hall i x Hx). congruence.
    + intros s' sz Hr.
      destruct (bool_decide (ShmSurface.cairo_surface l1 = Some size))
        eqn:Hd.
      * injection Hr as <- <-. split; [done|].
        exists i, l1. apply bool_decide_eq_true in Hd.
        cbn [ShmSurface.current ShmSurface.set_current ShmSurface.leaf].
        by rewrite Hat.
      * destruct created as [b|]; [|done].
        injection Hr as <- <-. split; [done|].
        eexists i, _.
        cbn [ShmSurface.current ShmSurface.set_current ShmSurface.leaf].
        rewrite Hat. by repeat split.
  - clear Hsome. specialize (Hnone eq_refl).
    cbn [ShmSurface.surface_of]. split; [|split].
    + by intros j z Hj _.
    + split; [|by eexists].
      intros _ j z Hj. apply (Hnone j z Hj).
      apply lookup_lt_Some in Hj. by rewrite Hlen in Hj.
    + by intros s' sz H.
Qed.

Lemma shm_surface_prepare_never_takes_held_buffer_witness :
  ShmSurface.is_held sample_shm 2 = true
  /\ ShmSurface.leaf
       (ShmSurface.surface_of
          (ShmSurface.shm_surface_prepare (Some 9%nat) 0 0 300 200 false
             ShmSurface.TransformNormal 1 sample_shm)) !! 2%nat
     = Some (ShmSurface.Leaf (Some (300, 200)) (Some 7%nat) false true).
Proof.
  split; [reflexivity|].
  exact (proj1 (shm_surface_prepare_never_takes_held_buffer (Some 9%nat) 0 0
                  300 200 false ShmSurface.TransformNormal 1 sample_shm
                  eq_refl)
           2%nat _ eq_refl eq_refl).
Defined.

Section shm_buffer_facts.
Import ShmSurface.

(** Converting a surface size to a buffer size and back gives the size
    again, for a positive scale and sizes that fit an [int]. *)
Lemma size_round_trip (t : wl_output_transform) (scale width height : Z) :
  0 < scale ->
  -2 ^ 31 <= width * scale < 2 ^ 31 ->
  -2 ^ 31 <= height * scale < 2 ^ 31 ->
  let b := surface_to_buffer_size t scale width height in
  b = (if swaps_axes t then (height * scale, width * scale)
       else (width * scale, height * scale))
  /\ buffer_to_surface_size t scale b.1 b.2 = (width, height).
Proof.
  intros Hs Hw Hh. cbv zeta.
  unfold surface_to_buffer_size, buffer_to_surface_size.
  assert (-2 ^ 31 <= width < 2 ^ 31) by nia.
  assert (-2 ^ 31 <= height < 2 ^ 31) by nia.
  destruct (swaps_axes t); cbn [fst snd];
    rewrite !(int32_small (_ * scale)) by done;
    (split; [done|]);
    rewrite !Z.quot_mul by lia;
    by rewrite !int32_small by done.
Qed.

Lemma find_buffer_first (buffer : nat) (leaves : list shm_surface_leaf)
    (k i : nat) (x : shm_surface_leaf) :
  (forall j y, leaves !! j = Some y ->
               is_Some (data y) -> is_Some (cairo_surface y)) ->
  leaves !! i = Some x ->
  data x = Some buffer ->
  (forall j y, (j < i)%nat -> leaves !! j = Some y -> data y <> Some buffer) ->
  find_buffer buffer k leaves = Some (Some (k + i)%nat).
Proof.
  revert k i. induction leaves as [|a leaves IH]; intros k i Hwf Hi Hd Hfirst;
    [done|].
  cbn [find_buffer].
  assert (data_buffer a = Some (data a)) as ->.
  { unfold data_buffer. destruct (data a) as [b|] eqn:Ha; [|done].
    destruct (Hwf 0%nat a eq_refl) as [sz ->]; [by rewrite Ha|done]. }
  cbn [mbind option_bind].
  destruct i as [|i].
  - injection Hi as ->. rewrite Hd, bool_decide_eq_true_2 by done.
    by rewrite Nat.add_0_r.
  - rewrite bool_decide_eq_false_2 by (apply (Hfirst 0%nat a); [lia|done]).
    rewrite (IH (S k) i); [f_equal; f_equal; lia| |done|done|].
    + intros j y Hj. by apply (Hwf (S j) y).
    + intros j y Hlt Hj. apply (Hfirst (S j) y); [lia|done].
Qed.

(** The second loop of [shm_surface_buffer_release] on three leaves. *)
Lemma keep_one_free_spec (s : shm_surface) :
  length (leaf s) = MAX_LEAVES ->
  length (leaf (keep_one_free s)) = MAX_LEAVES
  /\ length (spare (keep_one_free s)) = Nat.min 1 (length (spare s))
  /\ forall j y, leaf (keep_one_free s) !! j = Some y ->
                 leaf s !! j = Some y
                 \/ (y = zero_leaf /\ is_held s j = false).
Proof.
  destruct s as [dx dy leaves cur lg]. cbn [leaf].
  destruct leaves as [|[c0 d0 r0 b0] [|[c1 d1 r1 b1] [|[c2 d2 r2 b2] [|? ?]]]];
    try done.
  intros _.
  destruct c0 as [p0|], b0, c1 as [p1|], b1, c2 as [p2|], b2;
    (split; [reflexivity|]); (split; [vm_compute; reflexivity|]);
    intros [|[|[|j]]] y Hy; vm_compute in Hy; try discriminate;
    injection Hy as <-;
    first [by left | by right].
Qed.

Lemma spare_nonempty (s : shm_surface) (i : nat) :
  is_spare s i = true -> (i < MAX_LEAVES)%nat ->
  (1 <= length (spare s))%nat.
Proof.
  intros Hs Hlt.
  assert (i ∈ spare s) as Hin.
  { unfold spare. apply list_elem_of_filter. split; [by rewrite Hs|].
    apply elem_of_seq. lia. }
  destruct (spare s); [by apply elem_of_nil in Hin|cbn; lia].
Qed.

Lemma sample_shm_well_formed : well_formed sample_shm.
Proof.
  split; [reflexivity|].
  intros [|[|[|i]]] l Hl; vm_compute in Hl; try discriminate;
    injection Hl as <-; cbn.
  - split; [split; intros [? H]; discriminate H|done].
  - split; [split; intros _; by eexists|done].
  - split; [split; intros _; by eexists|intros _; by eexists].
Qed.

End shm_buffer_facts.

(** X19.  What [shm_surface_swap] reports is what was prepared.  After a
    [shm_surface_prepare] that returned a drawable, for a positive scale
    and a size whose scaled dimensions fit an [int], the swap attaches
    the buffer of the current leaf at the offset given to prepare,
    damages and reports exactly the surface size that was asked for,
    commits, marks the leaf busy and leaves no current leaf. *)
Theorem shm_surface_swap_reports_prepared_size
    (created : option nat) (dx dy width height : Z) (resize_hint : bool)
    (buffer_transform : ShmSurface.wl_output_transform) (buffer_scale : Z)
    (s s1 : ShmSurface.shm_surface) (size : Z * Z) :
  0 < buffer_scale ->
  -2 ^ 31 <= width * buffer_scale < 2 ^ 31 ->
  -2 ^ 31 <= height * buffer_scale < 2 ^ 31 ->
  ShmSurface.well_formed s ->
  ShmSurface.shm_surface_prepare created dx dy width height resize_hint
    buffer_transform buffer_scale s = ShmSurface.Drawable s1 size ->
  exists s2 i x buffer,
    ShmSurface.shm_surface_swap buffer_transform buffer_scale s1
    = Some (s2, (width, height))
    /\ ShmSurface.current s1 = Some i
    /\ ShmSurface.leaf s1 !! i = Some x
    /\ ShmSurface.data x = Some buffer
    /\ ShmSurface.log s2
       = ShmSurface.log s
         ++ [ShmSurface.Attach buffer dx dy; ShmSurface.Damage width height;
             ShmSurface.Commit]
    /\ ShmSurface.current s2 = None
    /\ ShmSurface.is_held s2 i = true
    /\ ShmSurface.well_formed s2.
Proof.
  intros Hscale Hw Hh [Hlen Hwf] Hprep.
  destruct (size_round_trip buffer_transform buffer_scale width height
              Hscale Hw Hh) as [_ Hback].
  cbv zeta in Hback.
  unfold ShmSurface.shm_surface_prepare in Hprep.
  set (s0 := ShmSurface.ShmSurface dx dy _ _ _) in Hprep.
  destruct (pick_free s0) as [_ Hsome].
  change (ShmSurface.leaf s0) with (ShmSurface.leaf s) in Hsome, Hprep.
  destruct (ShmSurface.pick s0) as [i|]; [|done].
  destruct (Hsome i eq_refl) as (Hlt & x & Hx & Hfree). clear Hsome.
  rewrite Hx in Hprep.
  change (default ShmSurface.zero_leaf (Some x)) with x in Hprep.
  set (l1 := if negb resize_hint && ShmSurface.resize_pool x
             then _ else x) in Hprep.
  assert (ShmSurface.busy l1 = false) as Hb1
    by (unfold l1; by destruct (negb resize_hint && _)).
  assert (is_Some (ShmSurface.cairo_surface l1) ->
          is_Some (ShmSurface.data l1)) as Hd1.
  { unfold l1. destruct (negb resize_hint && _).
    - by intros [? ?].
    - by apply (Hwf i x Hx). }
  set (bsize := ShmSurface.surface_to_buffer_size _ _ _ _) in *.
  assert (exists y buffer,
             s1 = ShmSurface.set_current (Some i)
                    (ShmSurface.set_leaf i y s0)
             /\ size = bsize
             /\ ShmSurface.cairo_surface y = Some bsize
             /\ ShmSurface.data y = Some buffer
             /\ ShmSurface.busy y = false)
    as (y & buffer & -> & -> & Hcy & Hdy & Hby).
  { destruct (bool_decide (ShmSurface.cairo_surface l1 = Some bsize)) eqn:Hd.
    - apply bool_decide_eq_true in Hd. injection Hprep as <- <-.
      destruct Hd1 as [b Hb]; [by rewrite Hd|].
      by exists l1, b.
    - destruct created as [b|]; [|done]. injection Hprep as <- <-.
      by eexists _, b. }
  assert (ShmSurface.leaf (ShmSurface.set_leaf i y s0) !! i = Some y) as Hat.
  { unfold ShmSurface.set_leaf. cbn [ShmSurface.leaf s0].
    apply list_lookup_insert_eq. by apply lookup_lt_Some in Hx. }
  unfold ShmSurface.shm_surface_swap.
  cbn [ShmSurface.current ShmSurface.set_current ShmSurface.leaf
       mbind option_bind].
  rewrite Hat. cbn [mbind option_bind]. rewrite Hcy, Hdy.
  cbn [mbind option_bind]. rewrite Hback.
  eexists _, i, y, buffer. split; [reflexivity|].
  split; [done|]. split; [done|]. split; [done|]. split; [done|].
  split; [done|].
  assert (i < length (ShmSurface.leaf s))%nat as Hi
    by (by apply lookup_lt_Some in Hx).
  split.
  - unfold ShmSurface.is_held, ShmSurface.set_leaf.
    cbn [ShmSurface.leaf ShmSurface.set_current s0].
    by rewrite list_lookup_insert_eq by (by rewrite length_insert).
  - split.
    + cbn [ShmSurface.leaf ShmSurface.set_current ShmSurface.set_leaf s0].
      by rewrite !length_insert.
    + intros j z.
      cbn [ShmSurface.leaf ShmSurface.set_current ShmSurface.set_leaf s0].
      rewrite list_insert_insert_eq.
      destruct (decide (j = i)) as [->|Hne].
      * rewrite list_lookup_insert_eq by done. intros [= <-].
        cbn [ShmSurface.data ShmSurface.cairo_surface ShmSurface.busy].
        split; [split; intros _; by eexists|intros _; by eexists].
      * rewrite list_lookup_insert_ne by done. apply Hwf.
Qed.

Lemma shm_surface_swap_reports_prepared_size_witness :
  exists s2 i x buffer,
    ShmSurface.shm_surface_swap ShmSurface.Transform90 2 sample_prepared
    = Some (s2, (300, 200))
    /\ ShmSurface.current sample_prepared = Some i
    /\ ShmSurface.leaf sample_prepared !! i = Some x
    /\ ShmSurface.data x = Some buffer
    /\ ShmSurface.log s2
       = ShmSurface.log sample_shm
         ++ [ShmSurface.Attach buffer 0 0; ShmSurface.Damage 300 200;
             ShmSurface.Commit]
    /\ ShmSurface.current s2 = None
    /\ ShmSurface.is_held s2 i = true
    /\ ShmSurface.well_formed s2.
Proof.
  refine (shm_surface_swap_reports_prepared_size (Some 9%nat) 0 0 300 200
            false ShmSurface.Transform90 2 sample_shm sample_prepared
            (400, 600) _ _ _ _ eq_refl); try lia.
  exact sample_shm_well_formed.
Defined.

(** X20.  [shm_surface_buffer_release] gives the released buffer's leaf
    back and leaves exactly one free leaf with storage.  For a buffer
    that a leaf holds it clears that leaf's [busy] flag, releases every
    free leaf with storage but the first, and touches no leaf the
    compositor still holds. *)
Theorem shm_surface_buffer_release_keeps_one_spare
    (buffer : nat) (s : ShmSurface.shm_surface) (i : nat)
    (x : ShmSurface.shm_surface_leaf) :
  ShmSurface.well_formed s ->
  ShmSurface.leaf s !! i = Some x ->
  ShmSurface.data x = Some buffer ->
  (forall j y, (j < i)%nat -> ShmSurface.leaf s !! j = Some y ->
               ShmSurface.data y <> Some buffer) ->
  exists s',
    ShmSurface.shm_surface_buffer_release buffer s = Some s'
    /\ ShmSurface.is_held s' i = false
    /\ (forall j, j <> i -> ShmSurface.is_held s' j = ShmSurface.is_held s j)
    /\ (forall j y, j <> i -> ShmSurface.leaf s !! j = Some y ->
                    ShmSurface.busy y = true ->
                    ShmSurface.leaf s' !! j = Some y)
    /\ length (ShmSurface.spare s') = 1%nat
    /\ ShmSurface.well_formed s'.
Proof.
  intros [Hlen Hwf] Hx Hd Hfirst.
  assert (i < ShmSurface.MAX_LEAVES)%nat as Hi
    by (rewrite <- Hlen; by apply lookup_lt_Some in Hx).
  unfold ShmSurface.shm_surface_buffer_release.
  rewrite firstn_all2 by (rewrite Hlen; lia).
  rewrite (find_buffer_first buffer (ShmSurface.leaf s) 0 i x); try done.
  2:{ intros j y Hj. by destruct (Hwf j y Hj) as [[H1 _] _]. }
  cbn [mbind option_bind Nat.add]. rewrite Hx. cbn [mbind option_bind].
  set (x' := ShmSurface.Leaf _ _ _ false).
  set (s1 := ShmSurface.set_leaf i x' s).
  assert (length (ShmSurface.leaf s1) = ShmSurface.MAX_LEAVES) as Hlen1
    by (unfold s1, ShmSurface.set_leaf; cbn [ShmSurface.leaf];
        by rewrite length_insert).
  assert (forall j, ShmSurface.leaf s1 !! j
                    = if decide (j = i) then Some x'
                      else ShmSurface.leaf s !! j) as Hl1.
  { intros j. unfold s1, ShmSurface.set_leaf. cbn [ShmSurface.leaf].
    destruct (decide (j = i)) as [->|Hne].
    - apply list_lookup_insert_eq. by rewrite Hlen.
    - by apply list_lookup_insert_ne. }
  assert (is_Some (ShmSurface.cairo_surface x)) as Hcx.
  { destruct (Hwf i x Hx) as [[H1 _] _]. apply H1. rewrite Hd. by eexists. }
  destruct (keep_one_free_spec s1 Hlen1) as (Hlen' & Hspare & Hkept).
  eexists. split; [reflexivity|].
  assert (forall j, ShmSurface.is_held s1 j
                    = if decide (j = i) then false
                      else ShmSurface.is_held s j) as Hh1.
  { intros j. unfold ShmSurface.is_held. rewrite Hl1.
    by destruct (decide (j = i)). }
  assert (forall j, ShmSurface.is_held (ShmSurface.keep_one_free s1) j
                    = ShmSurface.is_held s1 j) as Hheld.
  { intros j. unfold ShmSurface.is_held at 1.
    destruct (ShmSurface.leaf (ShmSurface.keep_one_free s1) !! j) as [y|]
      eqn:Hy.
    - destruct (Hkept j y Hy) as [Hsame|[-> Hz]].
      + unfold ShmSurface.is_held. by rewrite Hsame.
      + by rewrite Hz.
    - apply lookup_ge_None in Hy. rewrite Hlen', <- Hlen1 in Hy.
      apply lookup_ge_None in Hy. unfold ShmSurface.is_held. by rewrite Hy. }
  split; [|split; [|split; [|split]]].
  - rewrite Hheld, Hh1. by rewrite decide_True.
  - intros j Hne. rewrite Hheld, Hh1. by rewrite decide_False.
  - intros j y Hne Hj Hbusy.
    assert (ShmSurface.is_held (ShmSurface.keep_one_free s1) j = true) as Hb.
    { rewrite Hheld, Hh1, decide_False by done.
      unfold ShmSurface.is_held. by rewrite Hj. }
    unfold ShmSurface.is_held in Hb.
    destruct (ShmSurface.leaf (ShmSurface.keep_one_free s1) !! j) as [z|]
      eqn:Hz; [|done].
    destruct (Hkept j z Hz) as [Hsame|[-> _]]; [|done].
    rewrite Hl1, decide_False in Hsame by done. congruence.
  - rewrite Hspare.
    assert (1 <= length (ShmSurface.spare s1))%nat; [|lia].
    apply (spare_nonempty s1 i); [|done].
    unfold ShmSurface.is_spare. rewrite Hl1, decide_True by done.
    unfold x'. cbn [ShmSurface.cairo_surface ShmSurface.busy negb].
    by rewrite bool_decide_eq_true_2.
  - split; [done|]. intros j y Hy.
    destruct (Hkept j y Hy) as [Hsame|[-> _]].
    + rewrite Hl1 in Hsame. destruct (decide (j = i)) as [->|Hne].
      * injection Hsame as <-. unfold x'.
        cbn [ShmSurface.cairo_surface ShmSurface.busy ShmSurface.data].
        split; [by destruct (Hwf i x Hx) as [H1 _]|done].
      * by apply (Hwf j y).
    + cbn. split; [split; by intros [? ?]|done].
Qed.

Lemma shm_surface_buffer_release_keeps_one_spare_witness :
  length (ShmSurface.spare sample_shm) = 1%nat
  /\ exists s',
      ShmSurface.shm_surface_buffer_release 7 sample_shm = Some s'
      /\ ShmSurface.is_held s' 2 = false
      /\ length (ShmSurface.spare s') = 1%nat.
Proof.
  split; [reflexivity|].
  destruct (shm_surface_buffer_release_keeps_one_spare 7 sample_shm 2
              (ShmSurface.Leaf (Some (300, 200)) (Some 7%nat) false true))
    as (s' & Hr & Hheld & _ & _ & Hspare & _).
  - exact sample_shm_well_formed.
  - reflexivity.
  - reflexivity.
  - intros [|[|j]] y Hlt Hy; [| |lia]; vm_compute in Hy;
      injection Hy as <-; discriminate.
  - exists s'. by repeat split.
Defined.
